(** * jmw / gmw: build and deployment decision rules

    A shallow embedding of the decision logic of the repository: the Go
    implementation (packages [config], [detector], [builder]) and the
    JavaScript implementation ([detector.js], [builder.js], [config.js],
    [deployer.js] and the client selection of [cli.js]).  Strings are
    byte strings ([string]), Go maps and JS objects used as maps are
    [gmap]s, Go [error] values are their messages, and the file system,
    the user and the external build tool are explicit oracles; the
    deployer's effects are recorded as a trace. *)

From Stdlib Require Import Ascii String.
From stdpp Require Import gmap strings list.



(** ** Results of fallible code *)

Inductive result (A : Type) : Type :=
| Ok (a : A)
| Err (msg : string).
Arguments Ok {A} a.
Arguments Err {A} msg.

#[global] Instance result_ret : MRet result := fun _ a => Ok a.
#[global] Instance result_bind : MBind result := fun _ _ k r =>
  match r with
  | Ok a => k a
  | Err msg => Err msg
  end.

Definition is_ok {A : Type} (r : result A) : bool :=
  match r with Ok _ => true | Err _ => false end.

(** ** Byte-string primitives shared by both implementations *)

Module Str.

Definition slash : ascii := "/"%char.
Definition dquote : string := String "034"%char "".
Definition newline : string := String "010"%char "".

(** [strings.HasPrefix(s, prefix)] and [s.startsWith(prefix)]. *)
Definition HasPrefix (s prefix : string) : bool := String.prefix prefix s.

(** [strings.HasSuffix(s, suffix)]:
    [len(s) >= len(suffix) && s[len(s)-len(suffix):] == suffix]. *)
Definition HasSuffix (s suffix : string) : bool :=
  (String.length suffix <=? String.length s)%nat &&
  String.eqb
    (String.substring (String.length s - String.length suffix)
                      (String.length suffix) s)
    suffix.

(** [strings.Contains(s, substr)]. *)
Definition Contains (s substr : string) : bool :=
  match String.index 0 substr s with
  | Some _ => true
  | None => false
  end.

(** [strings.Join(elems, sep)] and [elems.join(sep)]. *)
Fixpoint Join (elems : list string) (sep : string) : string :=
  match elems with
  | [] => ""
  | [x] => x
  | x :: rest => x +:+ sep +:+ Join rest sep
  end.

(** The pieces of [s] between slashes: [strings.Split(s, "/")]. *)
Fixpoint split_slash (s : string) : list string :=
  match s with
  | EmptyString => [""]
  | String c r =>
      if Ascii.eqb c slash then "" :: split_slash r
      else match split_slash r with
           | [] => [String c ""]
           | h :: t => String c h :: t
           end
  end.

Fixpoint has_slash (s : string) : bool :=
  match s with
  | EmptyString => false
  | String c r => Ascii.eqb c slash || has_slash r
  end.

End Str.

(** ** POSIX path functions

    Go's [path/filepath] and Node's [path] are library code; they are
    modelled here on byte strings, for Unix separators and no volume
    names, following their documented algorithms. *)

Module Path.
Import Str.

Definition rooted (s : string) : bool :=
  match s with
  | String c _ => Ascii.eqb c slash
  | EmptyString => false
  end.

(** One step of lexical cleaning; [acc] is the list of elements kept so
    far, innermost first. *)
Definition clean_step (is_rooted : bool) (acc : list string) (elem : string)
  : list string :=
  if String.eqb elem "" || String.eqb elem "." then acc
  else if String.eqb elem ".." then
    match acc with
    | [] => if is_rooted then [] else [".."]
    | top :: below => if String.eqb top ".." then elem :: acc else below
    end
  else elem :: acc.

(** The elements of the cleaned path, outermost first. *)
Definition elements (s : string) : list string :=
  rev (fold_left (clean_step (rooted s)) (split_slash s) []).

Definition render (is_rooted : bool) (elems : list string) : string :=
  if is_rooted then "/" +:+ Join elems "/"
  else match elems with
       | [] => "."
       | _ => Join elems "/"
       end.

(** [filepath.Clean] / [path.normalize] (without a trailing slash). *)
Definition Clean (s : string) : string := render (rooted s) (elements s).

(** [s[:i+1]] for the index [i] of the last slash of [s], empty when
    there is none. *)
Fixpoint through_last_slash (s : string) : string :=
  match s with
  | EmptyString => ""
  | String c r =>
      let d := through_last_slash r in
      if Ascii.eqb c slash || negb (String.eqb d "") then String c d else ""
  end.

(** [filepath.Dir]. *)
Definition Dir (s : string) : string := Clean (through_last_slash s).

(** [filepath.Join(dir, name)]: empty elements are ignored, the others
    are joined by a slash and the result is cleaned; with no element
    left the result is empty. *)
Definition Join2 (dir name : string) : string :=
  if String.eqb dir "" then (if String.eqb name "" then "" else Clean name)
  else if String.eqb name "" then Clean dir
  else Clean (dir +:+ "/" +:+ name).

(** [filepath.Base]: the last element; ["/"] for a path of slashes only
    and ["."] for the empty path. *)
Definition Base (s : string) : string :=
  if String.eqb s "" then "."
  else match rev (filter (fun e => e <> "") (split_slash s)) with
       | [] => "/"
       | last :: _ => last
       end.

(** [filepath.IsAbs]. *)
Definition IsAbs (s : string) : bool := rooted s.

Fixpoint strip_common (bs ts : list string) : list string * list string :=
  match bs, ts with
  | b :: bs', t :: ts' =>
      if String.eqb b t then strip_common bs' ts' else (bs, ts)
  | _, _ => (bs, ts)
  end.

(** [filepath.Rel(basepath, targpath)]: [None] is the error case. *)
Definition Rel (basepath targpath : string) : option string :=
  let base := Clean basepath in
  let targ := Clean targpath in
  if String.eqb targ base then Some "."
  else if negb (Bool.eqb (rooted base) (rooted targ)) then None
  else
    let bs := if String.eqb base "." then [] else elements base in
    let ts := if String.eqb targ "." then [] else elements targ in
    match strip_common bs ts with
    | ([], ts') => Some (Join ts' "/")
    | (b0 :: bs', ts') =>
        if String.eqb b0 ".." then None
        else Some (Join (map (fun _ => "..") (b0 :: bs') ++ ts') "/")
    end.

End Path.

(** ** Go: package [config] *)

Module config.

(** [RestartPattern]: a pattern that requires restart. *)
Record RestartPattern := {
  Match : string;
  Reason : string;
  Severity : string
}.

(** [RestartRules]: when restarts are needed. *)
Record RestartRules := {
  GlobalModule : bool;
  Patterns : list RestartPattern
}.

(** [ProjectConfig].  The deprecated [GlobalModules] and
    [IgnoredModules] and the remote settings take no part in the
    decision rules. *)
Record ProjectConfig := {
  BasePath : string;
  DefaultProfile : string;
  AvailableProfiles : list string;
  ProfileOverrides : gmap string (list string);
  SkipTests : bool;
  WildFlyRoot : string;
  WildFlyMode : string;
  ServerGroup : string;
  Modules : gmap string string
}.

(** [Config].  [Projects] is a Go map; the list gives its entries in
    the order one [range] over it visits them.  [RestartRules] is a
    pointer and may be nil. *)
Record Config := {
  Projects : list (string * ProjectConfig);
  RestartRules_ : option RestartRules
}.

(** [GetModuleDeploymentPath] returns [(path, isGlobal, exists)]. *)
Definition GetModuleDeploymentPath (p : ProjectConfig) (moduleName : string)
  : string * bool * bool :=
  match Modules p !! moduleName with
  | None => ("", false, false)
  | Some path =>
      if String.eqb path "" then ("", false, true)
      else (path, true, true)
  end.

(** [GetProfileArgs]: Maven profile arguments for a given profile. *)
Definition GetProfileArgs (p : ProjectConfig) (profile : string) : list string :=
  if String.eqb profile "" then
    match ProfileOverrides p !! "" with
    | Some overrides => map (fun prof => "-P" +:+ prof) overrides
    | None =>
        if negb (String.eqb (DefaultProfile p) "")
        then ["-P" +:+ DefaultProfile p]
        else []
    end
  else
    match ProfileOverrides p !! profile with
    | Some overrides => map (fun prof => "-P" +:+ prof) overrides
    | None => ["-P" +:+ profile]
    end.

End config.

(** ** Go: package [detector] *)

Module detector.
Import Str.

(** [ProjectInfo]: detected project information. *)
Record ProjectInfo := {
  Name : string;
  Config : config.ProjectConfig;
  ModuleName : string;
  ModulePath : string;
  RepoRoot : string;
  Packaging : string;
  DeploymentPath : string;
  IsGlobalModule : bool
}.

(** [PomXML]: a minimal Maven POM; an absent element leaves its field
    empty. *)
Record PomXML := {
  ArtifactId : string;
  Packaging_ : string
}.

Section FileSystem.

(** [stat path]: [os.Stat(path)] returns no error. *)
Variable stat : string -> bool.
(** [os.ReadFile] and [xml.Unmarshal], with the message of their error. *)
Variable ReadFile : string -> result string.
Variable xml_Unmarshal : string -> result PomXML.

(** [hasParentPom]: the directory has a pom.xml in it. *)
Definition hasParentPom (path : string) : bool :=
  if String.eqb path "" then false
  else stat (Path.Join2 path "pom.xml").

(** The [for] loop of [findPomXML], at most [fuel] iterations; [steps]
    counts the moves to a parent directory made so far.  [None]: the
    iterations ran out. *)
Fixpoint findPomXML_loop (fuel : nat) (startDir currentDir : string) (steps : nat)
  : option (result string * nat) :=
  match fuel with
  | O => None
  | S fuel' =>
      let pomPath := Path.Join2 currentDir "pom.xml" in
      if stat pomPath then Some (Ok pomPath, steps)
      else
        let parentDir := Path.Dir currentDir in
        if String.eqb parentDir currentDir then
          Some (Err ("pom.xml not found in directory tree starting from "
                     +:+ startDir), steps)
        else findPomXML_loop fuel' startDir parentDir (S steps)
  end.

(** [findPomXML] walks up the directory tree to find pom.xml. *)
Definition findPomXML (fuel : nat) (startDir : string)
  : option (result string * nat) :=
  findPomXML_loop fuel startDir startDir 0.

(** [parsePomXML]. *)
Definition parsePomXML (pomPath : string) : result PomXML :=
  match ReadFile pomPath with
  | Err e => Err ("failed to read pom.xml: " +:+ e)
  | Ok data =>
      match xml_Unmarshal data with
      | Err e => Err ("failed to parse XML: " +:+ e)
      | Ok pom => Ok pom
      end
  end.

(** The message of the error for a module that the project's [modules]
    table does not list. *)
Definition not_configured_message (moduleName projectName : string) : string :=
  "module '" +:+ moduleName +:+ "' is not configured in config.yaml"
  +:+ newline +:+ newline
  +:+ "Please add it to the 'modules' section for project '" +:+ projectName
  +:+ "':" +:+ newline
  +:+ "  modules:" +:+ newline
  +:+ "    " +:+ moduleName +:+ ": " +:+ dquote +:+ dquote
  +:+ "  # for normal deployment" +:+ newline
  +:+ "    # or" +:+ newline
  +:+ "    " +:+ moduleName +:+ ": " +:+ dquote +:+ "modules/path/main" +:+ dquote
  +:+ "  # for global module".

(** [detectModule] fills in the module fields of a [ProjectInfo] that
    has its [Name] and [Config]. *)
Definition detectModule (fuel : nat) (name : string) (cfg : config.ProjectConfig)
  (cwd : string) : option (result ProjectInfo) :=
  match findPomXML fuel cwd with
  | None => None
  | Some (Err e, _) => Some (Err ("failed to find pom.xml: " +:+ e))
  | Some (Ok pomPath, _) =>
      match parsePomXML pomPath with
      | Err e => Some (Err ("failed to parse pom.xml: " +:+ e))
      | Ok pom =>
          let modulePath := Path.Dir pomPath in
          let moduleName := Path.Base modulePath in
          let packaging :=
            if String.eqb (Packaging_ pom) "" then "jar" else Packaging_ pom in
          let repoRoot :=
            if hasParentPom (config.BasePath cfg) then config.BasePath cfg
            else modulePath in
          match config.GetModuleDeploymentPath cfg moduleName with
          | (_, _, false) =>
              Some (Err (not_configured_message moduleName name))
          | (deploymentPath, isGlobal, true) =>
              Some (Ok {| Name := name; Config := cfg;
                          ModuleName := moduleName; ModulePath := modulePath;
                          RepoRoot := repoRoot; Packaging := packaging;
                          DeploymentPath := deploymentPath;
                          IsGlobalModule := isGlobal |})
          end
      end
  end.

(** The test of [DetectProject] for one configured project: [cwd] is
    within [basePath]. *)
Definition within_base (basePath cwd : string) : bool :=
  match Path.Rel basePath cwd with
  | None => false
  | Some rel => negb (HasPrefix rel "..") && negb (Path.IsAbs rel)
  end.

(** The [range] loop of [DetectProject] over the remaining projects. *)
Fixpoint DetectProject_range (fuel : nat) (cwd : string)
  (projects : list (string * config.ProjectConfig))
  : option (result ProjectInfo) :=
  match projects with
  | [] => Some (Err "current directory is not part of any configured project")
  | (projectName, projectConfig) :: rest =>
      if within_base (config.BasePath projectConfig) cwd then
        match detectModule fuel projectName projectConfig cwd with
        | None => None
        | Some (Err e) => Some (Err ("failed to detect module: " +:+ e))
        | Some (Ok info) => Some (Ok info)
        end
      else DetectProject_range fuel cwd rest
  end.

(** [DetectProject]. *)
Definition DetectProject (fuel : nat) (cwd : string) (cfg : config.Config)
  : option (result ProjectInfo) :=
  DetectProject_range fuel cwd (config.Projects cfg).

End FileSystem.

(** [GetBuildCommand]: the Maven build command for this module. *)
Definition GetBuildCommand (p : ProjectInfo) (profile : string) : list string :=
  let args := ["mvn"; "clean"] in
  let phase :=
    if negb (String.eqb (RepoRoot p) (ModulePath p)) then
      match Path.Rel (RepoRoot p) (ModulePath p) with
      | None => None
      | Some relPath => Some ["package"; "-pl"; relPath; "-am"]
      end
    else if String.eqb (Packaging p) "jar" then Some ["install"]
    else Some ["package"] in
  match phase with
  | None => args
  | Some ph =>
      args ++ ph ++ config.GetProfileArgs (Config p) profile
           ++ (if config.SkipTests (Config p) then ["-DskipTests"] else [])
  end.

End detector.

(** ** Go: package [builder] *)

Module builder.
Import Str.
Import detector.

(** [Builder]: handles Maven build operations. *)
Record Builder := {
  cfg : config.Config;
  projectInfo : ProjectInfo
}.

(** [isValidProfile]: the profile is valid for the current project. *)
Definition isValidProfile (b : Builder) (profile : string) : bool :=
  match config.AvailableProfiles (Config (projectInfo b)) with
  | [] => true
  | available => existsb (fun validProfile => String.eqb validProfile profile) available
  end.

(** [fallbackRestartCheck]: basic restart checks when no rules are
    configured. *)
Definition fallbackRestartCheck (b : Builder) (artifactName : string)
  : string * string :=
  if IsGlobalModule (projectInfo b) then
    ("required", "Global module modification")
  else if HasSuffix artifactName ".jar" && Contains artifactName "EJB" then
    ("recommended", "EJB implementation JAR")
  else if HasSuffix artifactName ".war" then
    ("none", "WAR hot-deployment")
  else
    ("recommended", "Standard deployment (restart to ensure changes are loaded)").

Section Regexp.

(** [regexp.MatchString(pattern, s)]: [None] when the pattern does not
    compile, else whether [s] contains a match. *)
Variable regexp_MatchString : string -> string -> option bool.

(** The [range] loop of [determineRestartRequirement] over the patterns
    not yet tried; [None] when the loop ends without a [return]. *)
Fixpoint match_patterns (patterns : list config.RestartPattern)
  (artifactName : string) : option (string * string) :=
  match patterns with
  | [] => None
  | pattern :: rest =>
      match regexp_MatchString (config.Match pattern) artifactName with
      | None => match_patterns rest artifactName
      | Some matched =>
          if matched then Some (config.Severity pattern, config.Reason pattern)
          else match_patterns rest artifactName
      end
  end.

(** [determineRestartRequirement] uses config rules to determine restart
    needs: [(severity, reason)]. *)
Definition determineRestartRequirement (b : Builder) (artifactName : string)
  : string * string :=
  let rules := config.RestartRules_ (cfg b) in
  if IsGlobalModule (projectInfo b)
     && match rules with
        | Some r => config.GlobalModule r
        | None => false
        end
  then ("required", "Global module modification")
  else
    match rules with
    | None => fallbackRestartCheck b artifactName
    | Some r =>
        match config.Patterns r with
        | [] => fallbackRestartCheck b artifactName
        | patterns =>
            match match_patterns patterns artifactName with
            | Some found => found
            | None =>
                if HasSuffix artifactName ".war" then
                  ("none", "WAR hot-deployment")
                else
                  ("recommended",
                   "Standard deployment (restart to ensure changes are loaded)")
            end
        end
    end.

End Regexp.

(** [filepath.Rel] with its error dropped, as in [relPath, _ := ...]. *)
Definition Rel_or_empty (basepath targpath : string) : string :=
  match Path.Rel basepath targpath with
  | Some rel => rel
  | None => ""
  end.

Section RepoRoot.

(** The builder reads [b.projectInfo.Config.RepoRoot], a string field
    that [config.go] does not declare for [ProjectConfig]; the field is
    taken as a parameter: the repository root recorded for a project
    entry, empty when none is. *)
Variable Config_RepoRoot : config.ProjectConfig -> string.

(** [getBuildCommand] constructs the Maven build command. *)
Definition getBuildCommand (b : Builder) (profile : string) : list string :=
  let info := projectInfo b in
  let cmd := ["mvn"; "clean"] in
  let cmd :=
    if negb (String.eqb (Config_RepoRoot (Config info)) "")
       && negb (String.eqb (Config_RepoRoot (Config info)) (ModulePath info))
    then
      let relPath := Rel_or_empty (Config_RepoRoot (Config info)) (ModulePath info) in
      cmd ++ ["package"; "-pl"; relPath; "-am"]
    else if String.eqb (Packaging info) "jar" then cmd ++ ["install"]
    else cmd ++ ["package"] in
  let cmd := cmd ++ config.GetProfileArgs (Config info) profile in
  if config.SkipTests (Config info) then cmd ++ ["-DskipTests"] else cmd.

(** [getInstallCommand]: the install command for multi-module projects. *)
Definition getInstallCommand (b : Builder) : list string :=
  let info := projectInfo b in
  let relPath := Rel_or_empty (Config_RepoRoot (Config info)) (ModulePath info) in
  ["mvn"; "install"; "-pl"; relPath; "-DskipTests"].

Section Build.

(** The user's answer to a [Y/n] question. *)
Variable confirm : string -> bool.
(** [cmd.Run()] of the argument list in a working directory: [None] when
    the process succeeds, else the message of the error. *)
Variable run : string -> list string -> option string.

(** [executeBuild] runs the Maven command. *)
Definition executeBuild (b : Builder) (cmdArgs : list string) : option string :=
  let workDir :=
    if negb (String.eqb (Config_RepoRoot (Config (projectInfo b))) "")
    then Config_RepoRoot (Config (projectInfo b))
    else ModulePath (projectInfo b) in
  run workDir cmdArgs.

(** What one call of [Build] did: the commands handed to the build
    tool, in order, and the value returned ([None] is a nil error). *)
Record BuildRun := {
  executed : list (list string);
  returned : option string
}.

(** [Build] builds the Maven module. *)
Definition Build (b : Builder) (profile : string) : BuildRun :=
  if negb (String.eqb profile "") && negb (isValidProfile b profile) then
    {| executed := [];
       returned := Some ("invalid profile '" +:+ profile +:+ "' for project "
                         +:+ Name (projectInfo b)) |}
  else
    let buildCmd := getBuildCommand b profile in
    if negb (confirm "Proceed?") then
      {| executed := []; returned := None |}
    else
      match executeBuild b buildCmd with
      | Some e =>
          {| executed := [buildCmd]; returned := Some ("build failed: " +:+ e) |}
      | None =>
          if negb (String.eqb (Config_RepoRoot (Config (projectInfo b))) "")
             && String.eqb (Packaging (projectInfo b)) "jar"
          then
            let installCmd := getInstallCommand b in
            match executeBuild b installCmd with
            | Some e =>
                {| executed := [buildCmd; installCmd];
                   returned := Some ("install failed: " +:+ e) |}
            | None =>
                {| executed := [buildCmd; installCmd]; returned := None |}
            end
          else {| executed := [buildCmd]; returned := None |}
      end.

End Build.

End RepoRoot.

End builder.

(** ** JavaScript values *)

Module js.

(** The JavaScript values that the decision code computes with. *)
Inductive value :=
| Undefined
| Bool (b : bool)
| Str (s : string).

(** ToBoolean. *)
Definition truthy (v : value) : bool :=
  match v with
  | Undefined => false
  | Bool b => b
  | Str s => negb (String.eqb s "")
  end.

(** A property read that gives a string or [undefined]. *)
Definition of_option (o : option string) : value :=
  match o with
  | Some s => Str s
  | None => Undefined
  end.

(** [a && b] where [b] is evaluated only for a truthy [a]. *)
Definition and_then (a : value) (b : value) : value :=
  if truthy a then b else a.

(** [a !== ''] (strict inequality with the empty string). *)
Definition strict_ne_empty (a : value) : value :=
  match a with
  | Str s => Bool (negb (String.eqb s ""))
  | _ => Bool true
  end.

(** [s || fallback] for an optional string [s]: the first truthy one. *)
Definition str_or (s : option string) (fallback : string) : string :=
  match s with
  | Some x => if String.eqb x "" then fallback else x
  | None => fallback
  end.

Fixpoint drop_while {A : Type} (f : A -> bool) (l : list A) : list A :=
  match l with
  | [] => []
  | x :: r => if f x then drop_while f r else l
  end.

(** Node's [path.dirname] (POSIX). *)
Definition dirname (p : string) : string :=
  match p with
  | EmptyString => "."
  | String c0 rest =>
      let hasRoot := Ascii.eqb c0 Str.slash in
      let from_end := rev (list_ascii_of_string rest) in
      let no_trailing := drop_while (fun c => Ascii.eqb c Str.slash) from_end in
      match drop_while (fun c => negb (Ascii.eqb c Str.slash)) no_trailing with
      | [] => if hasRoot then "/" else "."
      | _ :: before =>
          if hasRoot && (length before =? 0)%nat then "//"
          else String c0 (string_of_list_ascii (rev before))
      end
  end.

(** [path.parse(p).root]. *)
Definition parse_root (p : string) : string :=
  if Path.rooted p then "/" else "".

(** [path.join(dir, name)] for a [name] that does not end in a slash:
    the non-empty arguments joined by a slash and normalized, [.] when
    there is none. *)
Definition join (dir name : string) : string :=
  if String.eqb dir "" && String.eqb name "" then "."
  else Path.Join2 dir name.

(** [path.relative(from, to)] for absolute arguments. *)
Definition relative (from to : string) : string :=
  let f := Path.Clean from in
  let t := Path.Clean to in
  if String.eqb f t then ""
  else
    let '(bs, ts) := Path.strip_common (Path.elements f) (Path.elements t) in
    Str.Join (map (fun _ => "..") bs ++ ts) "/".

End js.

(** ** JavaScript: [detector.js] *)

Module jsdetector.

(** The project entries of the configuration document that the decision
    code reads; an absent key is [None].  The values of the YAML
    mappings are taken as they are meant to be written: strings in
    [modules], arrays of strings in [profile_overrides], and a key of
    these mappings is one of the mapping's own entries. *)
Record ProjectConfig := {
  base_path : string;
  default_profile : option string;
  available_profiles : option (list string);
  profile_overrides : option (gmap string (list string));
  skip_tests : bool;
  modules : option (gmap string string)
}.

(** [config.projects], in the order of [Object.entries]. *)
Record Config := {
  projects : list (string * ProjectConfig)
}.

(** The value of [pom.project?.modules?.module]. *)
Inductive ModuleDecl :=
| NoModule
| OneModule (name : string)
| ManyModules (names : list string).

(** The parsed POM, as far as [detectModule] reads it; element texts are
    strings. *)
Record PomProject := {
  pom_artifactId : option string;
  pom_packaging : option string;
  pom_modules_module : ModuleDecl
}.

Record Pom := {
  project : option PomProject
}.

(** The object that [detectModule] returns. *)
Record ModuleInfo := {
  artifactId : string;
  packaging : string;
  path : string;
  relativePath : string;
  isGlobalModule : js.value;
  deploymentPath : string;
  isMultiModule : bool;
  modules_ : list string
}.

(** The object that [detectProject] returns. *)
Record Detection := {
  det_project : string;
  det_projectConfig : ProjectConfig;
  det_pomPath : string;
  det_module : ModuleInfo
}.

(** [detectModule]: module information from the POM. *)
Definition detectModule (pomPath : string) (pom : Pom) (projectConfig : ProjectConfig)
  : result ModuleInfo :=
  let artifactId := project pom ≫= pom_artifactId in
  let packaging := js.str_or (project pom ≫= pom_packaging) "jar" in
  match artifactId with
  | None => Err "artifactId not found in pom.xml"
  | Some artifactId =>
      if String.eqb artifactId "" then Err "artifactId not found in pom.xml"
      else
        let modulePath := js.dirname pomPath in
        let relativePath := js.relative (base_path projectConfig) modulePath in
        let moduleConfig := modules projectConfig ≫= (fun m => m !! artifactId) in
        let isGlobalModule :=
          js.and_then (js.of_option moduleConfig)
                      (js.strict_ne_empty (js.of_option moduleConfig)) in
        let declared :=
          match project pom with
          | Some p => pom_modules_module p
          | None => NoModule
          end in
        (* [declared || []]: the array, or the one non-empty name *)
        let listed :=
          match declared with
          | NoModule => ManyModules []
          | OneModule s => if String.eqb s "" then ManyModules [] else OneModule s
          | ManyModules l => ManyModules l
          end in
        let isMultiModule :=
          match listed with
          | ManyModules l => (0 <? length l)%nat
          | OneModule s => negb (String.eqb s "")
          | NoModule => false
          end in
        Ok {| artifactId := artifactId;
              packaging := packaging;
              path := modulePath;
              relativePath := relativePath;
              isGlobalModule := isGlobalModule;
              deploymentPath := js.str_or moduleConfig "";
              isMultiModule := isMultiModule;
              modules_ :=
                if isMultiModule then
                  match listed with
                  | ManyModules l => l
                  | OneModule s => [s]
                  | NoModule => []
                  end
                else [] |}
  end.

(** The [for ... of] loop of [detectProject] over the remaining entries:
    the first project whose [base_path] the current path starts with. *)
Fixpoint match_project (currentPath : string)
  (entries : list (string * ProjectConfig)) : option (string * ProjectConfig) :=
  match entries with
  | [] => None
  | (projectName, projectConfig) :: rest =>
      if Str.HasPrefix currentPath (base_path projectConfig)
      then Some (projectName, projectConfig)
      else match_project currentPath rest
  end.

Section FileSystem.

(** [fs.existsSync]. *)
Variable existsSync : string -> bool.
(** [parsePom]: [fs.readFileSync] and the XML parser, with the message
    of what they throw. *)
Variable parse_file : string -> result Pom.

(** The [while] loop of [findPomXml], at most [fuel] iterations;
    [steps] counts the moves to a parent directory made so far.  The
    inner [None] is the [null] that the function returns. *)
Fixpoint findPomXml_loop (fuel : nat) (rootDir currentDir : string) (steps : nat)
  : option (option string * nat) :=
  match fuel with
  | O => None
  | S fuel' =>
      if negb (String.eqb currentDir rootDir) then
        let pomPath := js.join currentDir "pom.xml" in
        if existsSync pomPath then Some (Some pomPath, steps)
        else findPomXml_loop fuel' rootDir (js.dirname currentDir) (S steps)
      else Some (None, steps)
  end.

(** [findPomXml] walks up the directory tree to find pom.xml. *)
Definition findPomXml (fuel : nat) (startPath : string)
  : option (option string * nat) :=
  findPomXml_loop fuel (js.parse_root startPath) startPath 0.

(** [parsePom]. *)
Definition parsePom (pomPath : string) : result Pom :=
  match parse_file pomPath with
  | Ok pom => Ok pom
  | Err message => Err ("Failed to parse pom.xml: " +:+ message)
  end.

(** [detectProject], from the resolved current path on. *)
Definition detectProject (fuel : nat) (config : Config) (currentPath : string)
  : option (result Detection) :=
  match match_project currentPath (projects config) with
  | None => Some (Err "Current directory is not within any configured project")
  | Some (name, projectConfig) =>
      match findPomXml fuel currentPath with
      | None => None
      | Some (None, _) =>
          Some (Err "No pom.xml found in current directory or parent directories")
      | Some (Some pomPath, _) =>
          Some (pom ← parsePom pomPath;
                moduleInfo ← detectModule pomPath pom projectConfig;
                Ok {| det_project := name;
                      det_projectConfig := projectConfig;
                      det_pomPath := pomPath;
                      det_module := moduleInfo |})
      end
  end.

End FileSystem.

End jsdetector.

(** ** JavaScript: [builder.js] *)

Module jsbuilder.
Import jsdetector.

(** The message of the error that [getProfiles] throws. *)
Definition not_available_message (profile : string) (available : list string)
  : string :=
  "Profile '" +:+ profile +:+ "' not available. Available: "
  +:+ Str.Join available ", ".

(** [getProfiles]: Maven profiles for a project.  Keys of
    [profile_overrides] are the mapping's own entries, each an array of
    names. *)
Definition getProfiles (profile : string) (projectConfig : ProjectConfig)
  : result (list string) :=
  if String.eqb profile "" || String.eqb profile "none" then Ok []
  else
    let available := default [] (available_profiles projectConfig) in
    if (0 <? length available)%nat
       && negb (existsb (String.eqb profile) available)
    then Err (not_available_message profile available)
    else
      match profile_overrides projectConfig ≫= (fun o => o !! profile) with
      | Some names => Ok names
      | None => Ok [profile]
      end.

(** [buildMavenCommand]: the Maven command arguments. *)
Definition buildMavenCommand (moduleInfo : ModuleInfo) (profile : string)
  (skipTests : bool) (projectConfig : ProjectConfig) : result (list string) :=
  let args := ["install"] in
  profiles ← getProfiles profile projectConfig;
  let args :=
    if (0 <? length profiles)%nat then args ++ ["-P"; Str.Join profiles ","]
    else args in
  let args := if skipTests then args ++ ["-DskipTests=true"] else args in
  let args :=
    if isMultiModule moduleInfo
    then args ++ ["-pl"; artifactId moduleInfo] ++ ["-am"]
    else args in
  Ok args.

(** The profile that [buildModule] passes on:
    [profile || projectConfig.default_profile || 'none']. *)
Definition effectiveProfile (profile : option string) (projectConfig : ProjectConfig)
  : string :=
  js.str_or profile (js.str_or (default_profile projectConfig) "none").

Section Build.

(** The user's answer to the confirmation prompt. *)
Variable confirm : string -> bool.
(** [execa('mvn', args, {cwd})]: [None] when the process succeeds, else
    the message of the error. *)
Variable execa_mvn : string -> list string -> option string.

(** What one call of [buildModule] did: the argument lists handed to the
    build tool, in order, and how the call ended ([Err]: it threw). *)
Record BuildRun := {
  executed : list (list string);
  outcome : result unit
}.

(** [buildModule] builds a Maven module. *)
Definition buildModule (detection : Detection) (profile : option string)
  (options_skipTests : bool) : BuildRun :=
  let projectConfig := det_projectConfig detection in
  let moduleInfo := det_module detection in
  let skipTests := options_skipTests || skip_tests projectConfig || false in
  let effective := effectiveProfile profile projectConfig in
  match buildMavenCommand moduleInfo effective skipTests projectConfig with
  | Err message => {| executed := []; outcome := Err message |}
  | Ok cmdArgs =>
      if negb (confirm "Proceed with build?") then
        {| executed := []; outcome := Ok tt |}
      else
        let cwd :=
          if isMultiModule moduleInfo then base_path projectConfig
          else path moduleInfo in
        match execa_mvn cwd cmdArgs with
        | Some message => {| executed := [cmdArgs]; outcome := Err message |}
        | None => {| executed := [cmdArgs]; outcome := Ok tt |}
        end
  end.

End Build.

End jsbuilder.

(** ** Absolute paths by their elements

    An absolute, clean path (what [os.Getwd] and [path.resolve] return)
    is determined by the list of its elements, the root being the empty
    list.  The statements below speak about such paths. *)

Module AbsPath.

(** An element of a clean path: a non-empty name other than [.] and [..]
    that holds no slash. *)
Definition good_elem (e : string) : bool :=
  negb (String.eqb e "") && negb (String.eqb e ".")
  && negb (String.eqb e "..") && negb (Str.has_slash e).

Definition good (p : list string) : bool := forallb good_elem p.

Fixpoint slashed (p : list string) : string :=
  match p with
  | [] => ""
  | e :: rest => "/" +:+ e +:+ slashed rest
  end.

(** The path string of the directory with elements [p]. *)
Definition to_string (p : list string) : string :=
  match p with
  | [] => "/"
  | _ => slashed p
  end.

(** The directory [n] levels up from [p] (the root when [n] exceeds the
    depth of [p]). *)
Definition ancestor (p : list string) (n : nat) : list string :=
  take (length p - n) p.

(** The descriptor file of directory [p]. *)
Definition descriptor (p : list string) : string :=
  to_string (p ++ ["pom.xml"]).

End AbsPath.

(** ** The restart rule table, as the specification words it

    Decision order, first applicable rule wins:
    (1) global module and global-module override set: required;
    (2) empty pattern list: the fallback heuristic;
    (3) the first pattern, in declared order, whose well-formed match
        expression matches the artifact name;
    (4) no pattern matched: none for a war, else recommended. *)

Module RestartSpec.

Section Table.
Variable regexp_MatchString : string -> string -> option bool.

(** A pattern applies when its expression is well-formed and matches. *)
Definition applies (artifactName : string) (pattern : config.RestartPattern) : bool :=
  match regexp_MatchString (config.Match pattern) artifactName with
  | Some true => true
  | _ => false
  end.

Definition fallback_heuristic (isGlobal : bool) (artifactName : string)
  : string * string :=
  if isGlobal then ("required", "Global module modification")
  else if Str.HasSuffix artifactName ".jar" && Str.Contains artifactName "EJB"
  then ("recommended", "EJB implementation JAR")
  else if Str.HasSuffix artifactName ".war" then ("none", "WAR hot-deployment")
  else ("recommended", "Standard deployment (restart to ensure changes are loaded)").

Definition rule_table (isGlobal globalModuleOverride : bool)
  (patterns : list config.RestartPattern) (artifactName : string)
  : string * string :=
  if isGlobal && globalModuleOverride then
    ("required", "Global module modification")
  else if bool_decide (patterns = []) then
    fallback_heuristic isGlobal artifactName
  else
    match List.find (applies artifactName) patterns with
    | Some pattern => (config.Severity pattern, config.Reason pattern)
    | None =>
        if Str.HasSuffix artifactName ".war" then ("none", "WAR hot-deployment")
        else ("recommended",
              "Standard deployment (restart to ensure changes are loaded)")
    end.

End Table.

(** The rule set of a configuration: a configuration without restart
    rules has no override and no pattern. *)
Definition override_of (rules : option config.RestartRules) : bool :=
  from_option config.GlobalModule false rules.

Definition patterns_of (rules : option config.RestartRules)
  : list config.RestartPattern :=
  from_option config.Patterns [] rules.

End RestartSpec.

(** ** Sample configurations and file systems *)

Module Fixtures.

(** A Go project entry with the given base path and module table, no
    profiles and no test skipping. *)
Definition go_project (basePath : string) (modules : gmap string string)
  : config.ProjectConfig :=
  {| config.BasePath := basePath;
     config.DefaultProfile := "";
     config.AvailableProfiles := [];
     config.ProfileOverrides := ∅;
     config.SkipTests := false;
     config.WildFlyRoot := "/opt/wildfly";
     config.WildFlyMode := "standalone";
     config.ServerGroup := "";
     config.Modules := modules |}.

(** The same entry with profile settings. *)
Definition go_project_profiles (basePath : string) (defaultProfile : string)
  (available : list string) (overrides : gmap string (list string))
  : config.ProjectConfig :=
  {| config.BasePath := basePath;
     config.DefaultProfile := defaultProfile;
     config.AvailableProfiles := available;
     config.ProfileOverrides := overrides;
     config.SkipTests := false;
     config.WildFlyRoot := "/opt/wildfly";
     config.WildFlyMode := "standalone";
     config.ServerGroup := "";
     config.Modules := ∅ |}.

(** A detected Go module. *)
Definition go_info (cfg : config.ProjectConfig) (moduleName modulePath repoRoot
  packaging : string) : detector.ProjectInfo :=
  {| detector.Name := "app1";
     detector.Config := cfg;
     detector.ModuleName := moduleName;
     detector.ModulePath := modulePath;
     detector.RepoRoot := repoRoot;
     detector.Packaging := packaging;
     detector.DeploymentPath := "";
     detector.IsGlobalModule := false |}.

Definition go_builder (info : detector.ProjectInfo) : builder.Builder :=
  {| builder.cfg := {| config.Projects := [("app1", detector.Config info)];
                       config.RestartRules_ := None |};
     builder.projectInfo := info |}.

(** A file system that holds exactly the listed files. *)
Definition files (present : list string) : string -> bool :=
  fun f => existsb (String.eqb f) present.

(** Every file reads as a POM with the given identifier and packaging. *)
Definition read_any : string -> result string := fun _ => Ok "".
Definition go_pom (artifactId packaging : string)
  : string -> result detector.PomXML :=
  fun _ => Ok {| detector.ArtifactId := artifactId;
                 detector.Packaging_ := packaging |}.

(** A JavaScript project entry. *)
Definition js_project (basePath : string) (defaultProfile : option string)
  (available : option (list string))
  (overrides : option (gmap string (list string)))
  (modules : option (gmap string string)) : jsdetector.ProjectConfig :=
  {| jsdetector.base_path := basePath;
     jsdetector.default_profile := defaultProfile;
     jsdetector.available_profiles := available;
     jsdetector.profile_overrides := overrides;
     jsdetector.skip_tests := false;
     jsdetector.modules := modules |}.

Definition js_pom (artifactId : option string) (packaging : option string)
  : jsdetector.Pom :=
  {| jsdetector.project :=
       Some {| jsdetector.pom_artifactId := artifactId;
               jsdetector.pom_packaging := packaging;
               jsdetector.pom_modules_module := jsdetector.NoModule |} |}.

(** A detected JavaScript module. *)
Definition js_module (artifactId packaging path : string) (isMultiModule : bool)
  : jsdetector.ModuleInfo :=
  {| jsdetector.artifactId := artifactId;
     jsdetector.packaging := packaging;
     jsdetector.path := path;
     jsdetector.relativePath := "";
     jsdetector.isGlobalModule := js.Undefined;
     jsdetector.deploymentPath := "";
     jsdetector.isMultiModule := isMultiModule;
     jsdetector.modules_ := [] |}.

Definition js_detection (cfg : jsdetector.ProjectConfig)
  (moduleInfo : jsdetector.ModuleInfo) : jsdetector.Detection :=
  {| jsdetector.det_project := "app1";
     jsdetector.det_projectConfig := cfg;
     jsdetector.det_pomPath := jsdetector.path moduleInfo +:+ "/pom.xml";
     jsdetector.det_module := moduleInfo |}.

End Fixtures.

(** ** Go: [config.Validate] *)

Module configcheck.

(** Whether [wildfly_mode] is one of the two modes that [Validate]
    accepts. *)
Definition known_mode (mode : string) : bool :=
  String.eqb mode "domain" || String.eqb mode "standalone".

(** The checks of [Validate] on one project entry: the message of the
    first check that fails. *)
Definition validate_project (name : string) (proj : config.ProjectConfig)
  : option string :=
  if String.eqb (config.BasePath proj) "" then
    Some ("project " +:+ name +:+ ": base_path is required")
  else if String.eqb (config.WildFlyRoot proj) "" then
    Some ("project " +:+ name +:+ ": wildfly_root is required")
  else if negb (known_mode (config.WildFlyMode proj)) then
    Some ("project " +:+ name +:+ ": wildfly_mode must be 'domain' or 'standalone'")
  else None.

(** The [range] loop of [Validate] over the project entries not yet
    visited; entries are non-nil. *)
Fixpoint validate_range (projects : list (string * config.ProjectConfig))
  : option string :=
  match projects with
  | [] => None
  | (name, proj) :: rest =>
      match validate_project name proj with
      | Some e => Some e
      | None => validate_range rest
      end
  end.

(** [Validate] checks if the configuration is valid: [None] is the nil
    error. *)
Definition Validate (c : config.Config) : option string :=
  if (length (config.Projects c) =? 0)%nat then
    Some "no projects defined in configuration"
  else validate_range (config.Projects c).

(** What [Validate] requires of one project entry: a base path, a
    WildFly root, and one of the two modes. *)
Definition acceptable (entry : string * config.ProjectConfig) : Prop :=
  config.BasePath entry.2 <> ""
  /\ config.WildFlyRoot entry.2 <> ""
  /\ (config.WildFlyMode entry.2 = "domain"
      \/ config.WildFlyMode entry.2 = "standalone").

End configcheck.

(** ** Go: more of package [detector] *)

Module detectorpaths.

(** [GetGlobalModulePath]: the full deployment path for global
    modules. *)
Definition GetGlobalModulePath (p : detector.ProjectInfo) : string :=
  if detector.IsGlobalModule p then
    Path.Join2 (config.WildFlyRoot (detector.Config p)) (detector.DeploymentPath p)
  else "".

Section Resolution.
Variable stat : string -> bool.
Variable ReadFile : string -> result string.
Variable xml_Unmarshal : string -> result detector.PomXML.
Variable fuel : nat.
Variable cwd : string.


(** What [DetectProject] returns once its loop has settled on an
    entry: the classification of the module, or its wrapped error. *)
Definition outcome (entry : string * config.ProjectConfig)
  : option (result detector.ProjectInfo) :=
  match detector.detectModule stat ReadFile xml_Unmarshal fuel entry.1 entry.2 cwd with
  | None => None
  | Some (Err e) => Some (Err ("failed to detect module: " +:+ e))
  | Some (Ok info) => Some (Ok info)
  end.

End Resolution.

End detectorpaths.

(** ** Go: what the builder reports after a build *)

Module builderreport.
Import Str.

(** [strings.Repeat(s, count)]. *)
Fixpoint Repeat (s : string) (count : nat) : string :=
  match count with
  | O => ""
  | S n => s +:+ Repeat s n
  end.

(** A jar that is neither a sources nor a javadoc jar. *)
Definition is_main_jar (name : string) : bool :=
  HasSuffix name ".jar" && negb (Contains name "sources")
  && negb (Contains name "javadoc").

(** The loop that [showRestartGuidance] and [showRemoteDeploymentGuide]
    run over the names in the target directory to find the main
    artifact; [artifactName] is the value of the variable so far.  A war
    ends the loop. *)
Fixpoint pick_artifact (names : list string) (artifactName : string) : string :=
  match names with
  | [] => artifactName
  | name :: rest =>
      if HasSuffix name ".war" then name
      else if is_main_jar name then pick_artifact rest name
      else pick_artifact rest artifactName
  end.

Section Report.

(** [os.ReadDir]: the names of the directory's entries, sorted by file
    name, or [None] for an error. *)
Variable ReadDir : string -> option (list string).
Variable regexp_MatchString : string -> string -> option bool.

(** The main artifact in the module's target directory, empty when
    there is none or the directory cannot be read. *)
Definition main_artifact (b : builder.Builder) : string :=
  let targetDir :=
    Path.Join2 (detector.ModulePath (builder.projectInfo b)) "target" in
  match ReadDir targetDir with
  | Some names => pick_artifact names ""
  | None => ""
  end.

(** [showRestartGuidance] displays restart requirements based on config
    rules: the texts written to standard output, one per call of
    [fmt.Println] or [fmt.Printf], in order. *)
Definition showRestartGuidance (b : builder.Builder) : list string :=
  let info := builder.projectInfo b in
  let artifactName := main_artifact b in
  if String.eqb artifactName "" then []
  else
    let '(severity, reason) :=
      builder.determineRestartRequirement regexp_MatchString b artifactName in
    [newline +:+ Repeat "━" 50 +:+ newline]
    ++ (if String.eqb severity "none" then
          ["ℹ️  NO RESTART NEEDED" +:+ newline;
           "Reason: " +:+ reason +:+ newline]
        else
          (if String.eqb severity "recommended" then
             ["⚠️  RESTART RECOMMENDED" +:+ newline;
              "Reason: " +:+ reason +:+ newline]
           else if String.eqb severity "required" then
             ["⚠️  RESTART REQUIRED" +:+ newline;
              "Reason: " +:+ reason +:+ newline]
           else [])
          ++ [newline +:+ "Restart command:" +:+ newline;
              "  cd "
              +:+ Path.Join2 (config.WildFlyRoot (detector.Config info)) "bin"
              +:+ newline;
              "  ./jboss-cli.sh --connect"]
          ++ (if String.eqb (config.WildFlyMode (detector.Config info)) "domain"
              then [" controller=localhost"] else [])
          ++ [" --command=" +:+ dquote +:+ ":shutdown" +:+ dquote +:+ newline]
          ++ (if String.eqb (detector.Name info) "sinfomar"
              then ["  sin-wildfly" +:+ newline]
              else if String.eqb (detector.Name info) "mto"
              then ["  mto-wildfly" +:+ newline]
              else [])).

End Report.

End builderreport.


(** ** JavaScript: [config.js] *)

Module jsconfig.

(** A parsed YAML document, as far as [expandPaths] tells its values
    apart: [null], strings, other scalars (booleans and numbers), arrays
    and plain objects with their own entries in the order of
    [Object.entries].  Timestamps, which the parser turns into [Date]
    objects, are not among the documents modelled. *)
#[local] Unset Elimination Schemes.
Inductive yaml :=
| YNull
| YScalar (text : string)
| YStr (s : string)
| YSeq (items : list yaml)
| YMap (entries : list (string * yaml)).
#[local] Set Elimination Schemes.

Definition dollar : ascii := "$"%char.

(** The text that [String.prototype.replace] inserts for the replacement
    string [replacement] when the pattern is the string [~] matched at
    the start: [$$] is a dollar sign, [$&] the match, the text before
    the match is empty, [$'] is the text [after] the match, and every
    other character stands for itself. *)
Fixpoint substitution (after : string) (replacement : string) : string :=
  match replacement with
  | EmptyString => ""
  | String c rest =>
      if Ascii.eqb c dollar then
        match rest with
        | EmptyString => String c ""
        | String c2 rest2 =>
            if Ascii.eqb c2 dollar then String dollar (substitution after rest2)
            else if Ascii.eqb c2 "&"%char then "~" +:+ substitution after rest2
            else if Ascii.eqb c2 "`"%char then substitution after rest2
            else if Ascii.eqb c2 "'"%char then after +:+ substitution after rest2
            else String c (substitution after rest)
        end
      else String c (substitution after rest)
  end.

(** [value.replace('~', homedir)] for a [value] that starts with [~]. *)
Definition replace_tilde (homedir : string) (value : string) : string :=
  match value with
  | String _ after => substitution after homedir +:+ after
  | EmptyString => value
  end.

Section Expand.

(** [os.homedir()]. *)
Variable homedir : string.

(** [expandPaths]: expand [~] paths to the home directory.  The result
    object is filled by assignment, [expanded[key] = ...]: for the key
    [__proto__] that assignment reaches the setter inherited from
    [Object.prototype] and adds no entry. *)
Fixpoint expandPaths (obj : yaml) : yaml :=
  match obj with
  | YSeq items => YSeq (map expandPaths items)
  | YMap entries =>
      YMap (flat_map (fun entry : string * yaml =>
                        match entry with
                        | (key, value) =>
                            if String.eqb key "__proto__" then []
                            else
                              match value with
                              | YStr text =>
                                  if Str.HasPrefix text "~"
                                  then [(key, YStr (replace_tilde homedir text))]
                                  else [(key, value)]
                              | YSeq _ | YMap _ | YNull =>
                                  [(key, expandPaths value)]
                              | YScalar _ => [(key, value)]
                              end
                        end)
                     entries)
  | _ => obj
  end.

End Expand.

(** A value that is neither an array nor an object. *)
Definition leaf (v : yaml) : Prop :=
  match v with
  | YSeq _ | YMap _ => False
  | _ => True
  end.

(** [remote] of a client entry; a key that is not written reads as
    [undefined]. *)
Record Remote := {
  host : option string;
  user : option string;
  wildfly_path : option string;
  restart_cmd : option string
}.

(** An entry of [clients]; [remote] may be absent. *)
Record Client := {
  remote : option Remote
}.

(** A project entry with the settings that deployment and client
    selection read besides the build settings.  An entry of [clients]
    written without a body is [null] ([None]); the keys of [clients]
    are the mapping's own entries, in the order of [Object.keys]. *)
Record ProjectSettings := {
  build : jsdetector.ProjectConfig;
  wildfly_root : string;
  wildfly_mode : option string;
  server_group : option string;
  default_client : option string;
  clients : option (list (string * option Client))
}.

(** The property names that every plain object inherits from
    [Object.prototype]; their values are functions or the prototype
    itself, all truthy. *)
Definition object_prototype_names : list string :=
  ["constructor"; "hasOwnProperty"; "isPrototypeOf"; "propertyIsEnumerable";
   "toLocaleString"; "toString"; "valueOf"; "__defineGetter__";
   "__defineSetter__"; "__lookupGetter__"; "__lookupSetter__"; "__proto__"].

(** A truthy value read from [clients]: an entry of the mapping, or a
    property inherited from [Object.prototype]. *)
Inductive client_value :=
| Declared (client : Client)
| Inherited.

(** [project.clients[clientName]], when [project.clients] and the value
    are truthy: the mapping's own entry when it has one, else the
    inherited property of that name. *)
Definition client_named (project : ProjectSettings) (clientName : string)
  : option client_value :=
  match clients project with
  | None => None
  | Some entries =>
      match List.find (fun entry => String.eqb entry.1 clientName) entries with
      | Some (_, Some client) => Some (Declared client)
      | Some (_, None) => None
      | None =>
          if existsb (String.eqb clientName) object_prototype_names
          then Some Inherited
          else None
      end
  end.

(** [getClientConfig]: client configuration for a project; [Ok None] is
    the [null] it returns without a client name. *)
Definition getClientConfig (project : ProjectSettings) (clientName : option string)
  : result (option client_value) :=
  match clientName with
  | None => Ok None
  | Some name =>
      if String.eqb name "" then Ok None
      else
        match client_named project name with
        | None =>
            let available :=
              match clients project with
              | Some entries => Str.Join (map fst entries) ", "
              | None => "none"
              end in
            Err ("Client '" +:+ name +:+ "' not found. Available clients: "
                 +:+ available)
        | Some client => Ok (Some client)
        end
  end.

End jsconfig.

(** ** JavaScript: [cli.js] *)

Module jscli.
Import jsconfig.

(** How an action of the command line ends. *)
Inductive ending :=
| Proceeds (clientConfig : option client_value)
| Throws (message : string)
| ExitsClientNotFound.

(** The client selection of the [build] action: the client named by
    [--client], else the project's default client, else none; then the
    check that a requested client was found. *)
Definition select_client (options_client : option string)
  (projectConfig : ProjectSettings) : ending :=
  let wanted := negb (String.eqb (js.str_or options_client "") "") in
  let selected :=
    if wanted then getClientConfig projectConfig options_client
    else if negb (String.eqb (js.str_or (default_client projectConfig) "") "")
    then getClientConfig projectConfig (default_client projectConfig)
    else Ok None in
  match selected with
  | Err message => Throws message
  | Ok clientConfig =>
      if wanted && negb (bool_decide (is_Some clientConfig))
      then ExitsClientNotFound
      else Proceeds clientConfig
  end.

End jscli.


(** ** JavaScript: [path] functions of the deployer *)

Module jspath.

Fixpoint take_while {A : Type} (f : A -> bool) (l : list A) : list A :=
  match l with
  | [] => []
  | x :: r => if f x then x :: take_while f r else []
  end.

(** [path.basename(p)] (POSIX): the last portion of [p], trailing
    slashes ignored. *)
Definition basename (p : string) : string :=
  let from_end := rev (list_ascii_of_string p) in
  let no_trailing := js.drop_while (fun c => Ascii.eqb c Str.slash) from_end in
  string_of_list_ascii
    (rev (take_while (fun c => negb (Ascii.eqb c Str.slash)) no_trailing)).

(** [path.join(...parts)] when the last part that is not empty does not
    end in a slash: the non-empty parts joined by a slash and
    normalized, [.] when there is none. *)
Definition join (parts : list string) : string :=
  match List.filter (fun part => negb (String.eqb part "")) parts with
  | [] => "."
  | kept => Path.Clean (Str.Join kept "/")
  end.

(** How string concatenation and [console.log] render a string that may
    be [undefined]. *)
Definition show (s : option string) : string := default "undefined" s.

(** [toLowerCase] on the ASCII letters; other bytes are kept, which
    does not change whether the result equals a word of ASCII letters. *)
Definition lower (c : ascii) : ascii :=
  let n := nat_of_ascii c in
  if (65 <=? n)%nat && (n <=? 90)%nat then ascii_of_nat (n + 32) else c.

Fixpoint toLowerCase (s : string) : string :=
  match s with
  | EmptyString => EmptyString
  | String c rest => String (lower c) (toLowerCase rest)
  end.

End jspath.

(** ** JavaScript: [deployer.js] *)

Module jsdeployer.
Import jsdetector jsconfig.

(** The [chalk] colour of a text. *)
Inductive colour := Plain | Blue | Red | Yellow | Green.

(** What the code throws: the error of a file-system call with its
    message, or the [TypeError] of reading a property of [undefined] or
    [null]. *)
Inductive error :=
| FsError (message : string)
| TypeErrorRead (property : string).

(** An argument of [console.log]: a text, plain or coloured, or the
    message of a caught error. *)
Inductive segment :=
| Text (c : colour) (s : string)
| ErrorMessage (e : error).

(** The effects of the deployer, in the order they happen. *)
Inductive event :=
| ConsoleLog (args : list segment)
| ConsoleError (args : list segment)
| Question (query : string)
| MkdirSync (dir : string)
| CopyFileSync (src dest : string)
| WriteFileSync (file data : string).

Inductive outcome (A : Type) : Type :=
| Returned (a : A)
| Thrown (e : error).
Arguments Returned {A} a.
Arguments Thrown {A} e.

(** A run: the effects so far and how it ended. *)
Record action (A : Type) : Type := {
  trace : list event;
  ending : outcome A
}.
Arguments trace {A} _.
Arguments ending {A} _.

#[global] Instance action_ret : MRet action := fun _ a =>
  {| trace := []; ending := Returned a |}.
#[global] Instance action_bind : MBind action := fun _ _ k m =>
  match ending m with
  | Returned a => {| trace := trace m ++ trace (k a); ending := ending (k a) |}
  | Thrown e => {| trace := trace m; ending := Thrown e |}
  end.

Definition log (args : list segment) : action unit :=
  {| trace := [ConsoleLog args]; ending := Returned tt |}.

Definition log_error (args : list segment) : action unit :=
  {| trace := [ConsoleError args]; ending := Returned tt |}.

Definition throw {A : Type} (e : error) : action A :=
  {| trace := []; ending := Thrown e |}.

(** [try { body } catch (error) { handler }]. *)
Definition try_catch {A : Type} (body : action A) (handler : error -> action A)
  : action A :=
  match ending body with
  | Returned _ => body
  | Thrown e =>
      {| trace := trace body ++ trace (handler e);
         ending := ending (handler e) |}
  end.

(** A file-system call that throws when [failure] is a message. *)
Definition fs_call (call : event) (failure : option string) : action unit :=
  {| trace := [call];
     ending := match failure with
               | None => Returned tt
               | Some message => Thrown (FsError message)
               end |}.

(** The object that [getWildflyConfig] returns, with [globalModule],
    the property that [showRestartGuidance] reads from it. *)
Record WildflyConfig := {
  root : string;
  mode : string;
  serverGroup : option string;
  globalModule : js.value
}.

(** [getWildflyConfig]: WildFly configuration (local deployment); the
    client configuration is not used, and [globalModule] is not set. *)
Definition getWildflyConfig (projectConfig : ProjectSettings)
  (clientConfig : option client_value) : WildflyConfig :=
  {| root := wildfly_root projectConfig;
     mode := js.str_or (wildfly_mode projectConfig) "standalone";
     serverGroup := server_group projectConfig;
     globalModule := js.Undefined |}.

(** [showRestartGuidance]. *)
Definition showRestartGuidance (wildflyConfig : WildflyConfig) : action unit :=
  log [Text Blue "=== Restart Guidance ==="];;
  let isGlobalModule := globalModule wildflyConfig in
  (if js.truthy isGlobalModule then
     log [Text Red "Restart required: YES"];;
     log [Text Plain "Global modules require WildFly restart."]
   else
     log [Text Yellow "Restart required: Check deployment"];;
     log [Text Plain "Normal deployments may not require restart."]);;
  log [Text Plain ""];;
  log [Text Yellow "Restart command:"];;
  (if String.eqb (mode wildflyConfig) "standalone" then
     log [Text Plain ("  " +:+ root wildflyConfig +:+ "/bin/shutdown.sh --restart")]
   else
     log [Text Plain ("  " +:+ root wildflyConfig +:+ "/bin/domain.sh --restart")]);;
  log [Text Plain ""].

(** [clientConfig.remote]. *)
Definition remote_of (clientConfig : client_value) : option Remote :=
  match clientConfig with
  | Declared client => remote client
  | Inherited => None
  end.

(** [showRemoteDeploymentGuide]. *)
Definition showRemoteDeploymentGuide (artifactPath : string)
  (wildflyConfig : WildflyConfig) (clientConfig : client_value) : action unit :=
  let artifactName := jspath.basename artifactPath in
  log [Text Yellow "SCP command:"];;
  match remote_of clientConfig with
  | None => throw (TypeErrorRead "user")
  | Some remote =>
      let login := jspath.show (user remote) +:+ "@" +:+ jspath.show (host remote) in
      log [Text Plain ("  scp " +:+ artifactPath +:+ " " +:+ login +:+ ":~/")];;
      log [Text Plain ""];;
      log [Text Yellow "SSH commands:"];;
      log [Text Plain "  # Copy to WildFly"];;
      log [Text Plain ("  ssh " +:+ login +:+ " " +:+ Str.dquote +:+ "sudo cp ~/"
                       +:+ artifactName +:+ " "
                       +:+ jspath.show (wildfly_path remote) +:+ "/"
                       +:+ mode wildflyConfig +:+ "/deployments/" +:+ Str.dquote)];;
      log [Text Plain ""];;
      log [Text Plain "  # Restart WildFly"];;
      log [Text Plain ("  ssh " +:+ login +:+ " " +:+ Str.dquote
                       +:+ jspath.show (restart_cmd remote) +:+ Str.dquote)];;
      log [Text Plain ""]
  end.

(** The test of [confirm] on what the user typed:
    [answer.toLowerCase() === 'y' || answer.toLowerCase() === 'yes']. *)
Definition accepts (typed : string) : bool :=
  String.eqb (jspath.toLowerCase typed) "y"
  || String.eqb (jspath.toLowerCase typed) "yes".

(** The file-system calls among the effects. *)
Definition is_fs_call (e : event) : bool :=
  match e with
  | MkdirSync _ | CopyFileSync _ _ | WriteFileSync _ _ => true
  | _ => false
  end.

Definition fs_calls (events : list event) : list event :=
  List.filter is_fs_call events.

Section Deploy.

(** What the user types at a prompt. *)
Variable answer : string -> string.
(** [fs.mkdirSync(dir, {recursive: true})], [fs.copyFileSync] and
    [fs.writeFileSync]: [None] when the call succeeds, else the message
    of the error it throws. *)
Variable mkdirSync : string -> option string.
Variable copyFileSync : string -> string -> option string.
Variable writeFileSync : string -> string -> option string.

(** [confirm]: simple confirmation prompt. *)
Definition confirm (message : string) : action bool :=
  let query := message +:+ " (y/N) " in
  {| trace := [Question query];
     ending := Returned (accepts (answer query)) |}.

(** [deployGlobalModule]: deploy to the WildFly modules directory. *)
Definition deployGlobalModule (artifactPath : string)
  (wildflyConfig : WildflyConfig) (moduleInfo : ModuleInfo) : action unit :=
  let modulesDir := jspath.join [root wildflyConfig; "modules"] in
  let modulePath := jspath.join [modulesDir; deploymentPath moduleInfo; "main"] in
  log [Text Blue "=== Global Module Deployment ==="];;
  log [Text Plain ("Source: " +:+ artifactPath)];;
  log [Text Plain ("Target: " +:+ modulePath)];;
  log [Text Plain ""];;
  fs_call (MkdirSync modulePath) (mkdirSync modulePath);;
  let destPath := jspath.join [modulePath; jspath.basename artifactPath] in
  fs_call (CopyFileSync artifactPath destPath) (copyFileSync artifactPath destPath);;
  log [Text Green ("Module deployed to: " +:+ destPath)].

(** [deployStandalone]: deploy to standalone mode. *)
Definition deployStandalone (artifactPath : string)
  (wildflyConfig : WildflyConfig) (moduleInfo : ModuleInfo) : action unit :=
  let deploymentsDir :=
    jspath.join [root wildflyConfig; "standalone"; "deployments"] in
  let destPath := jspath.join [deploymentsDir; jspath.basename artifactPath] in
  let markerPath :=
    jspath.join [deploymentsDir; jspath.basename artifactPath +:+ ".dodeploy"] in
  log [Text Plain ("Target: " +:+ destPath)];;
  log [Text Plain ""];;
  fs_call (MkdirSync deploymentsDir) (mkdirSync deploymentsDir);;
  fs_call (CopyFileSync artifactPath destPath) (copyFileSync artifactPath destPath);;
  fs_call (WriteFileSync markerPath "") (writeFileSync markerPath "");;
  log [Text Green ("Deployed to: " +:+ destPath)];;
  log [Text Green ("Marker created: " +:+ markerPath)].

(** [deployDomain]: deploy to domain mode. *)
Definition deployDomain (artifactPath : string)
  (wildflyConfig : WildflyConfig) (moduleInfo : ModuleInfo) : action unit :=
  let artifactName := jspath.basename artifactPath in
  let deploymentsDir :=
    jspath.join [root wildflyConfig; "domain"; "deployments"] in
  log [Text Plain ("Server Group: " +:+ jspath.show (serverGroup wildflyConfig))];;
  log [Text Plain ("Artifact: " +:+ artifactName)];;
  log [Text Plain ""];;
  log [Text Yellow "Use jboss-cli.sh to deploy:"];;
  log [Text Plain ("  deploy " +:+ artifactPath +:+ " --server-groups="
                   +:+ jspath.show (serverGroup wildflyConfig))];;
  log [Text Plain ""];;
  fs_call (MkdirSync deploymentsDir) (mkdirSync deploymentsDir);;
  let destPath := jspath.join [deploymentsDir; artifactName] in
  fs_call (CopyFileSync artifactPath destPath) (copyFileSync artifactPath destPath);;
  log [Text Green ("Copied to: " +:+ destPath)].

(** [deployNormal]: deploy to the normal WildFly deployments. *)
Definition deployNormal (artifactPath : string)
  (wildflyConfig : WildflyConfig) (moduleInfo : ModuleInfo) : action unit :=
  log [Text Blue "=== Normal Deployment ==="];;
  if String.eqb (mode wildflyConfig) "standalone"
  then deployStandalone artifactPath wildflyConfig moduleInfo
  else deployDomain artifactPath wildflyConfig moduleInfo.

(** [deployArtifact], the statements before the confirmation: the
    deployment plan.  [project], [projectConfig] and [moduleInfo] are
    the three parts that the function takes out of its [detection]
    argument. *)
Definition deployment_plan (artifactPath : string) (project : string)
  (projectConfig : ProjectSettings) (moduleInfo : ModuleInfo) : action unit :=
  log [Text Blue "=== Deployment Plan ==="];;
  log [Text Plain ("Project: " +:+ project)];;
  log [Text Plain ("Artifact: " +:+ artifactPath)];;
  log [Text Plain ("Module: " +:+ artifactId moduleInfo)];;
  log [Text Plain ("Type: " +:+ (if js.truthy (isGlobalModule moduleInfo)
                                 then "Global Module" else "Normal Deployment"))];;
  log [Text Plain ""];;
  let wildflyConfig := getWildflyConfig projectConfig None in
  log [Text Yellow "WildFly Root:"; Text Plain (root wildflyConfig)];;
  log [Text Yellow "Mode:"; Text Plain (mode wildflyConfig)];;
  (if String.eqb (mode wildflyConfig) "domain"
   then log [Text Yellow "Server Group:";
             Text Plain (jspath.show (serverGroup wildflyConfig))]
   else mret tt);;
  log [Text Plain ""].

(** [deployArtifact], the deployment call of the [try] block. *)
Definition deployment_call (artifactPath : string)
  (projectConfig : ProjectSettings) (moduleInfo : ModuleInfo) : action unit :=
  let wildflyConfig := getWildflyConfig projectConfig None in
  if js.truthy (isGlobalModule moduleInfo)
  then deployGlobalModule artifactPath wildflyConfig moduleInfo
  else deployNormal artifactPath wildflyConfig moduleInfo.

(** [deployArtifact], the remote deployment guide of the [try] block,
    for the default client. *)
Definition default_client_guide (artifactPath : string)
  (projectConfig : ProjectSettings) : action unit :=
  let wildflyConfig := getWildflyConfig projectConfig None in
  let defaultClientName := js.str_or (default_client projectConfig) "" in
  match
    (if String.eqb defaultClientName "" then None
     else client_named projectConfig defaultClientName)
  with
  | Some defaultClient =>
      log [Text Plain ""];;
      log [Text Blue ("=== Remote Deployment Instructions (Default Client: "
                      +:+ defaultClientName +:+ ") ===")];;
      log [Text Plain ""];;
      showRemoteDeploymentGuide artifactPath wildflyConfig defaultClient
  | None => mret tt
  end.

(** [deployArtifact], the [try] block. *)
Definition deployment_steps (artifactPath : string)
  (projectConfig : ProjectSettings) (moduleInfo : ModuleInfo) : action unit :=
  let wildflyConfig := getWildflyConfig projectConfig None in
  deployment_call artifactPath projectConfig moduleInfo;;
  log [Text Green "Deployment completed"];;
  showRestartGuidance wildflyConfig;;
  default_client_guide artifactPath projectConfig.

(** [deployArtifact]: deploy an artifact to WildFly. *)
Definition deployArtifact (artifactPath : string) (project : string)
  (projectConfig : ProjectSettings) (moduleInfo : ModuleInfo) : action unit :=
  deployment_plan artifactPath project projectConfig moduleInfo;;
  confirmed ← confirm "Proceed with deployment?";
  if negb confirmed then log [Text Red "Deployment cancelled"]
  else
    try_catch
      (deployment_steps artifactPath projectConfig moduleInfo)
      (fun error =>
         log_error [Text Red "Deployment failed:"; ErrorMessage error];;
         throw error).

End Deploy.

End jsdeployer.

(** * Properties *)

(** ** Path functions on absolute clean paths *)

Module PathFacts.
Import Str Path AbsPath.

Lemma sapp_nil_l (s : string) : "" +:+ s = s.
Proof. reflexivity. Qed.

Lemma sapp_cons (c : ascii) (s t : string) : String c s +:+ t = String c (s +:+ t).
Proof. reflexivity. Qed.

Lemma sapp_nil_r (s : string) : s +:+ "" = s.
Proof. induction s as [|c s IH]; [done | by rewrite sapp_cons, IH]. Qed.

Lemma sapp_assoc (a b c : string) : (a +:+ b) +:+ c = a +:+ b +:+ c.
Proof. induction a as [|x a IH]; [done | by rewrite !sapp_cons, IH]. Qed.

Lemma good_elem_inv (e : string) :
  good_elem e = true ->
  e <> "" /\ e <> "." /\ e <> ".." /\ has_slash e = false.
Proof.
  unfold good_elem. rewrite !andb_true_iff, !negb_true_iff.
  intros [[[H1 H2] H3] H4].
  by rewrite !String.eqb_neq in *.
Qed.

Lemma split_slash_no_slash (e : string) :
  has_slash e = false -> split_slash e = [e].
Proof.
  induction e as [|c e IH]; simpl; [done |].
  intros [Hc He]%orb_false_iff. rewrite Hc, (IH He). done.
Qed.

Lemma split_slash_elem (e s : string) :
  has_slash e = false ->
  split_slash (e +:+ String slash s) = e :: split_slash s.
Proof.
  induction e as [|c e IH]; [done |].
  intros [Hc He]%orb_false_iff. rewrite sapp_cons. simpl.
  rewrite Hc, (IH He). done.
Qed.

Lemma split_slash_slashed (p : list string) (s : string) :
  forallb good_elem p = true ->
  split_slash (slashed p +:+ String slash s) = ("" :: p) ++ split_slash s.
Proof.
  induction p as [|e p IH]; [done |].
  intros [He Hp]%andb_true_iff.
  apply good_elem_inv in He as (_ & _ & _ & He).
  specialize (IH Hp).
  change (slashed (e :: p)) with (String slash (e +:+ slashed p)).
  rewrite sapp_cons, sapp_assoc.
  change (split_slash (String slash ?x)) with ("" :: split_slash x).
  destruct p as [|e' p].
  - simpl slashed. rewrite sapp_nil_l, (split_slash_elem e s He). done.
  - change (slashed (e' :: p)) with (String slash (e' +:+ slashed p)) in *.
    rewrite sapp_cons in *.
    rewrite (split_slash_elem e _ He).
    change (split_slash (String slash ?x)) with ("" :: split_slash x) in IH.
    simpl in IH. injection IH as IH. rewrite IH. done.
Qed.


Lemma clean_step_empty (r : bool) (acc : list string) :
  clean_step r acc "" = acc.
Proof. reflexivity. Qed.

Lemma clean_step_good (r : bool) (acc : list string) (e : string) :
  good_elem e = true -> clean_step r acc e = e :: acc.
Proof.
  intros (H1 & H2 & H3 & _)%good_elem_inv. unfold clean_step.
  apply String.eqb_neq in H1, H2, H3. by rewrite H1, H2, H3.
Qed.

Lemma fold_clean_good (r : bool) (p acc : list string) :
  forallb good_elem p = true ->
  fold_left (clean_step r) p acc = rev p ++ acc.
Proof.
  revert acc. induction p as [|e p IH]; intros acc; [done |].
  intros [He Hp]%andb_true_iff. simpl.
  rewrite (clean_step_good _ _ _ He), (IH _ Hp), <- app_assoc. done.
Qed.

Lemma slashed_app (p q : list string) :
  slashed (p ++ q) = slashed p +:+ slashed q.
Proof.
  induction p as [|e p IH]; [done |].
  simpl. rewrite IH, !sapp_cons, !sapp_assoc. done.
Qed.

Lemma slashed_snoc (p : list string) (e : string) :
  slashed (p ++ [e]) = slashed p +:+ String slash e.
Proof. rewrite slashed_app. simpl. by rewrite sapp_nil_r. Qed.

Lemma to_string_snoc (p : list string) (e : string) :
  to_string (p ++ [e]) = slashed p +:+ String slash e.
Proof. rewrite <- slashed_snoc. by destruct p. Qed.

Lemma rooted_slashed (p : list string) (s : string) :
  rooted (slashed p +:+ String slash s) = true.
Proof. by destruct p. Qed.

Lemma Join_slashed (p : list string) (e : string) :
  Str.Join (e :: p) "/" = e +:+ slashed p.
Proof.
  revert e. induction p as [|e' p IH]; intros e.
  - simpl. by rewrite sapp_nil_r.
  - change (Str.Join (e :: e' :: p) "/") with (e +:+ "/" +:+ Str.Join (e' :: p) "/").
    by rewrite IH.
Qed.

Lemma render_rooted (p : list string) : render true p = to_string p.
Proof.
  unfold render. destruct p as [|e p]; [done |].
  by rewrite Join_slashed.
Qed.

(** Cleaning a string whose pieces are the elements of [p], possibly
    with empty pieces around them, gives the path of [p]. *)
Lemma Clean_slashed (p : list string) (e : string) :
  forallb good_elem p = true ->
  e = "" \/ good_elem e = true ->
  Clean (slashed p +:+ String slash e)
  = to_string (p ++ (if String.eqb e "" then [] else [e])).
Proof.
  intros Hp He. unfold Clean, elements.
  rewrite rooted_slashed, (split_slash_slashed _ _ Hp).
  rewrite fold_left_app. simpl fold_left at 2.
  rewrite clean_step_empty, (fold_clean_good _ _ _ Hp), app_nil_r.
  destruct He as [-> | He].
  - simpl split_slash. simpl fold_left.
    rewrite clean_step_empty, rev_involutive.
    change (p ++ (if String.eqb "" "" then [] else [""])) with (p ++ []).
    rewrite app_nil_r. apply render_rooted.
  - pose proof (good_elem_inv _ He) as (Hne & _ & _ & Hs).
    rewrite (split_slash_no_slash _ Hs). simpl fold_left.
    rewrite (clean_step_good _ _ _ He). simpl rev. rewrite rev_involutive.
    apply String.eqb_neq in Hne. rewrite Hne. apply render_rooted.
Qed.

Lemma through_last_slash_no_slash (e : string) :
  has_slash e = false -> through_last_slash e = "".
Proof.
  induction e as [|c e IH]; [done |].
  simpl. intros [Hc He]%orb_false_iff. by rewrite Hc, (IH He).
Qed.

Lemma through_last_slash_snoc (s e : string) :
  has_slash e = false ->
  through_last_slash (s +:+ String slash e) = s +:+ String slash "".
Proof.
  intros He. induction s as [|c s IH].
  - rewrite !sapp_nil_l. simpl. by rewrite (through_last_slash_no_slash _ He).
  - rewrite !sapp_cons. simpl. rewrite IH.
    replace (String.eqb (s +:+ String slash "") "") with false.
    + by rewrite orb_true_r.
    + by destruct s.
Qed.

Lemma Dir_root : Dir (to_string []) = to_string [].
Proof. reflexivity. Qed.

Lemma Dir_snoc (p : list string) (e : string) :
  good (p ++ [e]) = true -> Dir (to_string (p ++ [e])) = to_string p.
Proof.
  unfold good. rewrite forallb_app. intros [Hp He]%andb_true_iff.
  simpl in He. rewrite andb_true_r in He.
  pose proof (good_elem_inv _ He) as (_ & _ & _ & Hs).
  unfold Dir. rewrite to_string_snoc, (through_last_slash_snoc _ _ Hs).
  rewrite (Clean_slashed p "" Hp); [| by left].
  simpl. by rewrite app_nil_r.
Qed.

Lemma Join2_descriptor (p : list string) (e : string) :
  good p = true -> good_elem e = true ->
  Join2 (to_string p) e = to_string (p ++ [e]).
Proof.
  intros Hp He. pose proof (good_elem_inv _ He) as (Hne & _).
  apply String.eqb_neq in Hne. unfold Join2. rewrite Hne.
  replace (String.eqb (to_string p) "") with false by (by destruct p).
  destruct p as [|e0 p].
  - change (to_string [] +:+ "/" +:+ e) with (slashed [] +:+ String slash (String slash e)).
    unfold Clean, elements. rewrite rooted_slashed.
    change (split_slash (slashed [] +:+ String slash (String slash e)))
      with ("" :: "" :: split_slash e).
    pose proof (good_elem_inv _ He) as (_ & _ & _ & Hs).
    rewrite (split_slash_no_slash _ Hs). simpl fold_left.
    rewrite !clean_step_empty, (clean_step_good _ _ _ He). apply render_rooted.
  - change (to_string (e0 :: p) +:+ "/" +:+ e)
      with (slashed (e0 :: p) +:+ String slash e).
    rewrite (Clean_slashed _ _ Hp); [| by right]. by rewrite Hne.
Qed.

Lemma elements_to_string (p : list string) :
  good p = true -> elements (to_string p) = p.
Proof.
  intros Hp. destruct p as [|e p] using rev_ind; [done |].
  clear IHp. unfold good in Hp. rewrite forallb_app in Hp.
  apply andb_true_iff in Hp as [Hp He]. simpl in He. rewrite andb_true_r in He.
  pose proof (good_elem_inv _ He) as (_ & _ & _ & Hs).
  rewrite to_string_snoc. unfold elements.
  rewrite rooted_slashed, (split_slash_slashed _ _ Hp), fold_left_app.
  simpl fold_left at 2.
  rewrite clean_step_empty, (fold_clean_good _ _ _ Hp), app_nil_r.
  rewrite (split_slash_no_slash _ Hs). simpl fold_left.
  rewrite (clean_step_good _ _ _ He). simpl rev. by rewrite rev_involutive.
Qed.

Lemma to_string_inj (p q : list string) :
  good p = true -> good q = true -> to_string p = to_string q -> p = q.
Proof.
  intros Hp Hq H. rewrite <- (elements_to_string p Hp), <- (elements_to_string q Hq).
  by rewrite H.
Qed.

Lemma Clean_to_string (p : list string) :
  good p = true -> Clean (to_string p) = to_string p.
Proof.
  intros Hp. unfold Clean. rewrite (elements_to_string _ Hp).
  replace (rooted (to_string p)) with true by (by destruct p).
  apply render_rooted.
Qed.

End PathFacts.

(** The path functions on sample paths. *)

Example Clean_ex1 : Path.Clean "/repo//app1/./core/../web/" = "/repo/app1/web".
Proof. reflexivity. Qed.
Example Dir_ex1 : Path.Dir "/repo/app1/core" = "/repo/app1".
Proof. reflexivity. Qed.
Example Dir_ex2 : Path.Dir "/repo" = "/" /\ Path.Dir "/" = "/".
Proof. split; reflexivity. Qed.
Example Join_ex1 : Path.Join2 "/" "pom.xml" = "/pom.xml".
Proof. reflexivity. Qed.
Example Base_ex1 : Path.Base "/repo/app1/core" = "core" /\ Path.Base "/" = "/".
Proof. split; reflexivity. Qed.
Example Rel_ex1 : Path.Rel "/repo/app1" "/repo/app1/core/impl" = Some "core/impl".
Proof. reflexivity. Qed.
Example Rel_ex2 : Path.Rel "/foo" "/foo-bar" = Some "../foo-bar".
Proof. reflexivity. Qed.
Example Rel_ex3 : Path.Rel "/foo" "/foo/..bar" = Some "..bar".
Proof. reflexivity. Qed.
Example Rel_ex4 : Path.Rel "/a/b" "/" = Some "../..".
Proof. reflexivity. Qed.

(** ** Descriptor Locator (Go): [findPomXML] *)

Module LocatorFacts.
Import Str Path AbsPath PathFacts.

Lemma good_take (p : list string) (n : nat) :
  good p = true -> good (take n p) = true.
Proof.
  unfold good. revert n. induction p as [|e p IH]; intros [|n]; try done.
  simpl. intros [He Hp]%andb_true_iff. by rewrite He, (IH n Hp).
Qed.

Lemma good_pom : good_elem "pom.xml" = true.
Proof. reflexivity. Qed.

Lemma ancestor_length (p : list string) (k : nat) :
  length (ancestor p k) = length p - k.
Proof. unfold ancestor. rewrite length_take. lia. Qed.

(** Below the depth of [p], the directory [k] levels up is the one
    [S k] levels up with one more element. *)
Lemma ancestor_step (p : list string) (k : nat) :
  k < length p ->
  exists e, ancestor p k = ancestor p (S k) ++ [e].
Proof.
  intros Hk. unfold ancestor.
  destruct (lookup_lt_is_Some_2 p (length p - S k)) as [e He]; [lia |].
  exists e. replace (length p - k) with (S (length p - S k)) by lia.
  by apply take_S_r.
Qed.

Section Locator.
Variable stat : string -> bool.

(** One iteration of the loop at the directory with elements [q]. *)
Lemma findPomXML_loop_unfold (fuel : nat) (start : string) (q : list string)
  (steps : nat) :
  good q = true ->
  detector.findPomXML_loop stat (S fuel) start (to_string q) steps =
    if stat (descriptor q) then Some (Ok (descriptor q), steps)
    else match q with
         | [] => Some (Err ("pom.xml not found in directory tree starting from "
                            +:+ start), steps)
         | _ => detector.findPomXML_loop stat fuel start
                  (to_string (removelast q)) (S steps)
         end.
Proof.
  intros Hq. simpl. rewrite (Join2_descriptor q "pom.xml" Hq good_pom).
  fold (descriptor q). destruct (stat (descriptor q)); [done |].
  destruct q as [|e q] using rev_ind; [done |]. clear IHq.
  rewrite (Dir_snoc _ _ Hq), removelast_last.
  replace (String.eqb (to_string q) (to_string (q ++ [e]))) with false.
  - by destruct q.
  - symmetry. apply String.eqb_neq. intros Heq.
    apply to_string_inj in Heq; [| | done].
    + apply (f_equal length) in Heq. rewrite length_app in Heq. simpl in Heq. lia.
    + unfold good in *. rewrite forallb_app in Hq. by apply andb_true_iff in Hq as [? _].
Qed.

Lemma findPomXML_loop_found (p : list string) (start : string) (N d : nat) :
  good p = true ->
  N <= length p ->
  stat (descriptor (ancestor p N)) = true ->
  (forall k, k < N -> stat (descriptor (ancestor p k)) = false) ->
  forall k fuel, k + d = N -> d < fuel ->
  detector.findPomXML_loop stat fuel start (to_string (ancestor p k)) k
  = Some (Ok (descriptor (ancestor p N)), N).
Proof.
  intros Hp HN Hfound Hbelow.
  induction d as [|d IH]; intros k fuel Hk Hfuel;
    (destruct fuel as [|fuel]; [lia |]);
    rewrite findPomXML_loop_unfold by (by apply good_take).
  - replace k with N by lia. by rewrite Hfound.
  - rewrite (Hbelow k) by lia.
    destruct (ancestor_step p k) as [e He]; [lia |].
    rewrite He, removelast_last.
    destruct (ancestor p (S k) ++ [e]) eqn:Hq; [by destruct (ancestor p (S k)) |].
    apply IH; lia.
Qed.

Lemma findPomXML_loop_none (p : list string) (start : string) (d : nat) :
  good p = true ->
  (forall k, k <= length p -> stat (descriptor (ancestor p k)) = false) ->
  forall k fuel, k + d = length p -> d < fuel ->
  detector.findPomXML_loop stat fuel start (to_string (ancestor p k)) k
  = Some (Err ("pom.xml not found in directory tree starting from " +:+ start),
          length p).
Proof.
  intros Hp Hnone.
  induction d as [|d IH]; intros k fuel Hk Hfuel;
    (destruct fuel as [|fuel]; [lia |]);
    rewrite findPomXML_loop_unfold by (by apply good_take);
    rewrite (Hnone k) by lia.
  - assert (ancestor p k = []) as ->.
    { apply length_zero_iff_nil. rewrite ancestor_length. lia. }
    by replace k with (length p) by lia.
  - destruct (ancestor_step p k) as [e He]; [lia |].
    rewrite He, removelast_last.
    destruct (ancestor p (S k) ++ [e]) eqn:Hq; [by destruct (ancestor p (S k)) |].
    apply IH; lia.
Qed.

Lemma findPomXML_loop_total (p : list string) (start : string) (d : nat) :
  good p = true ->
  forall k fuel, k + d = length p -> d < fuel ->
  exists r n,
    detector.findPomXML_loop stat fuel start (to_string (ancestor p k)) k
    = Some (r, n) /\ n <= length p.
Proof.
  intros Hp.
  induction d as [|d IH]; intros k fuel Hk Hfuel;
    (destruct fuel as [|fuel]; [lia |]);
    rewrite findPomXML_loop_unfold by (by apply good_take);
    (destruct (stat (descriptor (ancestor p k))); [eexists _, _; split; [done | lia] |]).
  - assert (ancestor p k = []) as ->.
    { apply length_zero_iff_nil. rewrite ancestor_length. lia. }
    eexists _, _; split; [done | lia].
  - destruct (ancestor_step p k) as [e He]; [lia |].
    rewrite He, removelast_last.
    destruct (ancestor p (S k) ++ [e]) eqn:Hq; [by destruct (ancestor p (S k)) |].
    apply IH; lia.
Qed.

Lemma ancestor_0 (p : list string) : ancestor p 0 = p.
Proof. unfold ancestor. apply take_ge. lia. Qed.

End Locator.

End LocatorFacts.

(** ** Restart Severity Engine (Go) *)

Module RestartFacts.
Import detector builder RestartSpec.

Section Engine.
Variable regexp_MatchString : string -> string -> option bool.

(** The pattern loop returns the severity and reason of the first
    pattern that applies, and nothing when none applies. *)
Lemma match_patterns_find (patterns : list config.RestartPattern) (name : string) :
  match_patterns regexp_MatchString patterns name
  = (fun p => (config.Severity p, config.Reason p))
      <$> List.find (applies regexp_MatchString name) patterns.
Proof.
  induction patterns as [|p rest IH]; [done |].
  simpl. unfold applies at 1.
  destruct (regexp_MatchString (config.Match p) name) as [[|]|]; done.
Qed.

Lemma fallbackRestartCheck_heuristic (b : Builder) (name : string) :
  fallbackRestartCheck b name
  = fallback_heuristic (IsGlobalModule (projectInfo b)) name.
Proof. reflexivity. Qed.

End Engine.

End RestartFacts.

(** C2: for every artifact name, classification and restart rule set,
    [determineRestartRequirement] returns what the ordered rule table
    gives, first applicable rule winning: (1) global module with the
    global-module override set is required, whatever the patterns are;
    (2) with no pattern the fallback heuristic decides; (3) otherwise the
    first pattern in declared order whose match expression is well-formed
    and matches gives its severity and reason, malformed expressions
    being skipped; (4) when none matches, a war needs no restart and
    anything else gets the standard recommendation. *)
Theorem C2_restart_rule_table
  (regexp_MatchString : string -> string -> option bool)
  (b : builder.Builder) (artifactName : string) :
  builder.determineRestartRequirement regexp_MatchString b artifactName
  = RestartSpec.rule_table regexp_MatchString
      (detector.IsGlobalModule (builder.projectInfo b))
      (RestartSpec.override_of (config.RestartRules_ (builder.cfg b)))
      (RestartSpec.patterns_of (config.RestartRules_ (builder.cfg b)))
      artifactName.
Proof.
  unfold builder.determineRestartRequirement, RestartSpec.rule_table,
    RestartSpec.override_of, RestartSpec.patterns_of.
  destruct (config.RestartRules_ (builder.cfg b)) as [rules|]; cbn [from_option].
  - destruct (detector.IsGlobalModule (builder.projectInfo b) && config.GlobalModule rules)
      eqn:Hov; [done |].
    destruct (config.Patterns rules) as [|p rest] eqn:Hp.
    + rewrite bool_decide_eq_true_2 by done.
      apply RestartFacts.fallbackRestartCheck_heuristic.
    + rewrite bool_decide_eq_false_2 by done.
      rewrite RestartFacts.match_patterns_find.
      by destruct (List.find _ (p :: rest)).
  - rewrite andb_false_r. apply RestartFacts.fallbackRestartCheck_heuristic.
Qed.

(** The Go locator on an absolute clean directory [p], with more
    iterations allowed than [p] is deep: the nearest descriptor on the
    way up to and including the root is returned after as many moves to
    a parent as it is levels up; without any descriptor the search fails
    at the root; and in every case the loop ends within [length p]
    moves. *)
Theorem findPomXML_nearest_descriptor (stat : string -> bool)
  (p : list string) (fuel : nat) :
  AbsPath.good p = true ->
  length p < fuel ->
  (forall N, N <= length p ->
     stat (AbsPath.descriptor (AbsPath.ancestor p N)) = true ->
     (forall k, k < N -> stat (AbsPath.descriptor (AbsPath.ancestor p k)) = false) ->
     detector.findPomXML stat fuel (AbsPath.to_string p)
     = Some (Ok (AbsPath.descriptor (AbsPath.ancestor p N)), N))
  /\ ((forall k, k <= length p ->
         stat (AbsPath.descriptor (AbsPath.ancestor p k)) = false) ->
      detector.findPomXML stat fuel (AbsPath.to_string p)
      = Some (Err ("pom.xml not found in directory tree starting from "
                   +:+ AbsPath.to_string p), length p))
  /\ (exists r n,
        detector.findPomXML stat fuel (AbsPath.to_string p) = Some (r, n)
        /\ n <= length p).
Proof.
  intros Hp Hfuel. unfold detector.findPomXML.
  split; [| split].
  - intros N HN Hfound Hbelow.
    pose proof (LocatorFacts.findPomXML_loop_found stat p (AbsPath.to_string p)
                  N N Hp HN Hfound Hbelow 0 fuel) as H.
    rewrite LocatorFacts.ancestor_0 in H. apply H; lia.
  - intros Hnone.
    pose proof (LocatorFacts.findPomXML_loop_none stat p (AbsPath.to_string p)
                  (length p) Hp Hnone 0 fuel) as H.
    rewrite LocatorFacts.ancestor_0 in H. apply H; lia.
  - pose proof (LocatorFacts.findPomXML_loop_total stat p (AbsPath.to_string p)
                  (length p) Hp 0 fuel) as H.
    rewrite LocatorFacts.ancestor_0 in H. apply H; lia.
Qed.

Lemma findPomXML_nearest_descriptor_witness :
  detector.findPomXML (fun f => String.eqb f "/repo/pom.xml") 4 "/repo/app1/core"
  = Some (Ok "/repo/pom.xml", 2).
Proof.
  pose proof (findPomXML_nearest_descriptor
                (fun f => String.eqb f "/repo/pom.xml")
                ["repo"; "app1"; "core"] 4 eq_refl) as H.
  destruct H as [H _]; [simpl; lia |].
  apply (H 2); [simpl; lia | reflexivity |].
  intros [|[|k]] Hk; [reflexivity | reflexivity | lia].
Defined.

(** ** Descriptor Locator (JavaScript): [findPomXml] *)

Module JsLocatorFacts.
Import Str Path AbsPath PathFacts LocatorFacts.

Lemma list_ascii_app (a b : string) :
  list_ascii_of_string (a +:+ b) = list_ascii_of_string a ++ list_ascii_of_string b.
Proof. induction a as [|c a IH]; [done |]. rewrite sapp_cons. simpl. by rewrite IH. Qed.

Lemma no_slash_Forall (e : string) :
  has_slash e = false ->
  Forall (fun c => Ascii.eqb c slash = false) (list_ascii_of_string e).
Proof.
  induction e as [|c e IH]; simpl; [constructor |].
  intros [Hc He]%orb_false_iff. constructor; auto.
Qed.

Lemma drop_while_none {A : Type} (f : A -> bool) (l rest : list A) :
  Forall (fun x => f x = true) l ->
  js.drop_while f (l ++ rest) = js.drop_while f rest.
Proof. induction 1 as [|x l Hx Hl IH]; simpl; [done | by rewrite Hx]. Qed.

Lemma drop_while_head {A : Type} (f : A -> bool) (x : A) (l : list A) :
  f x = false -> js.drop_while f (x :: l) = x :: l.
Proof. intros H. simpl. by rewrite H. Qed.

(** [path.dirname] of a directory below the root is its parent. *)
Lemma dirname_snoc (p : list string) (e : string) :
  good (p ++ [e]) = true -> js.dirname (to_string (p ++ [e])) = to_string p.
Proof.
  unfold good. rewrite forallb_app. intros [Hp He]%andb_true_iff.
  simpl in He. rewrite andb_true_r in He.
  pose proof (good_elem_inv _ He) as (Hne & _ & _ & Hs).
  pose proof (no_slash_Forall _ Hs) as Hall.
  rewrite to_string_snoc.
  assert (forall X : list ascii,
            js.drop_while (fun c => negb (Ascii.eqb c slash))
              (js.drop_while (fun c => Ascii.eqb c slash)
                 (rev (list_ascii_of_string e) ++ X))
            = js.drop_while (fun c => negb (Ascii.eqb c slash)) X) as Hdrop.
  { intros X. destruct e as [|c e]; [done |]. clear Hne He.
    simpl list_ascii_of_string in *. apply Forall_cons in Hall as [Hc Hall].
    simpl rev. rewrite <- !app_assoc.
    assert (Forall (fun x => negb (Ascii.eqb x slash) = true)
              (rev (list_ascii_of_string e) ++ [c])) as Hrev.
    { apply Forall_app. split.
      - apply Forall_rev. eapply Forall_impl; [exact Hall |].
        intros x Hx. simpl in Hx. by rewrite Hx.
      - constructor; [by rewrite Hc | constructor]. }
    replace (js.drop_while (fun c0 => Ascii.eqb c0 slash)
               (rev (list_ascii_of_string e) ++ [c] ++ X))
      with (rev (list_ascii_of_string e) ++ [c] ++ X).
    - rewrite app_assoc. by apply drop_while_none.
    - destruct (rev (list_ascii_of_string e)) as [|y ys] eqn:Hrv.
      + simpl. by rewrite Hc.
      + simpl. apply Forall_rev in Hall. rewrite Hrv in Hall.
        apply Forall_cons in Hall as [Hy _]. simpl in Hy. by rewrite Hy. }
  destruct p as [|e0 p].
  - change (slashed [] +:+ String slash e) with (String slash e).
    unfold js.dirname. rewrite Ascii.eqb_refl.
    rewrite <- (app_nil_r (rev (list_ascii_of_string e))), Hdrop. done.
  - change (slashed (e0 :: p) +:+ String slash e)
      with (String slash ((e0 +:+ slashed p) +:+ String slash e)).
    unfold js.dirname. rewrite Ascii.eqb_refl.
    rewrite list_ascii_app. simpl list_ascii_of_string at 2.
    rewrite rev_app_distr. simpl rev at 1. rewrite <- app_assoc. simpl app at 2.
    rewrite Hdrop. simpl js.drop_while. cbv iota. simpl andb.
    apply andb_true_iff in Hp as [He0 _].
    apply good_elem_inv in He0 as (He0 & _).
    replace (length (rev (list_ascii_of_string (e0 +:+ slashed p))) =? 0)%nat
      with false.
    + simpl. rewrite rev_involutive, string_of_list_ascii_of_string. done.
    + destruct e0; [done |]. rewrite sapp_cons. simpl.
      rewrite length_app. simpl. symmetry. apply Nat.eqb_neq. lia.
Qed.

Section Locator.
Variable existsSync : string -> bool.

(** One iteration of the loop at a directory below the root. *)
Lemma findPomXml_loop_below (fuel : nat) (q : list string) (e : string)
  (steps : nat) :
  good (q ++ [e]) = true ->
  jsdetector.findPomXml_loop existsSync (S fuel) (to_string [])
    (to_string (q ++ [e])) steps =
    if existsSync (descriptor (q ++ [e]))
    then Some (Some (descriptor (q ++ [e])), steps)
    else jsdetector.findPomXml_loop existsSync fuel (to_string [])
           (to_string q) (S steps).
Proof.
  intros Hq. simpl jsdetector.findPomXml_loop.
  replace (String.eqb (to_string (q ++ [e])) "/") with false.
  2:{ symmetry. apply String.eqb_neq. intros Heq.
      apply (to_string_inj _ []) in Heq; [by destruct q | done | done]. }
  simpl negb. cbv iota. unfold js.join.
  replace (String.eqb (to_string (q ++ [e])) "") with false by (by destruct q).
  simpl andb. cbv iota.
  rewrite (Join2_descriptor _ "pom.xml" Hq good_pom). fold (descriptor (q ++ [e])).
  by rewrite (dirname_snoc _ _ Hq).
Qed.

(** The loop ends at the root without looking into it. *)
Lemma findPomXml_loop_root (fuel : nat) (steps : nat) :
  jsdetector.findPomXml_loop existsSync (S fuel) (to_string []) (to_string []) steps
  = Some (None, steps).
Proof. reflexivity. Qed.

Lemma findPomXml_loop_found (p : list string) (N d : nat) :
  good p = true ->
  N < length p ->
  existsSync (descriptor (ancestor p N)) = true ->
  (forall k, k < N -> existsSync (descriptor (ancestor p k)) = false) ->
  forall k fuel, k + d = N -> d < fuel ->
  jsdetector.findPomXml_loop existsSync fuel (to_string [])
    (to_string (ancestor p k)) k
  = Some (Some (descriptor (ancestor p N)), N).
Proof.
  intros Hp HN Hfound Hbelow.
  induction d as [|d IH]; intros k fuel Hk Hfuel;
    (destruct fuel as [|fuel]; [lia |]);
    (destruct (ancestor_step p k) as [e He]; [lia |]);
    pose proof (good_take p (length p - k) Hp) as Hgood;
    fold (ancestor p k) in Hgood; rewrite He in Hgood;
    pose proof (findPomXml_loop_below fuel _ _ k Hgood) as Hstep;
    rewrite <- He in Hstep; rewrite Hstep.
  - replace k with N by lia. by rewrite Hfound.
  - rewrite (Hbelow k) by lia. apply IH; lia.
Qed.

Lemma findPomXml_loop_none (p : list string) (d : nat) :
  good p = true ->
  (forall k, k < length p -> existsSync (descriptor (ancestor p k)) = false) ->
  forall k fuel, k + d = length p -> d < fuel ->
  jsdetector.findPomXml_loop existsSync fuel (to_string [])
    (to_string (ancestor p k)) k
  = Some (None, length p).
Proof.
  intros Hp Hnone.
  induction d as [|d IH]; intros k fuel Hk Hfuel;
    (destruct fuel as [|fuel]; [lia |]).
  - assert (ancestor p k = []) as ->.
    { apply length_zero_iff_nil. rewrite ancestor_length. lia. }
    rewrite findPomXml_loop_root. by replace k with (length p) by lia.
  - destruct (ancestor_step p k) as [e He]; [lia |].
    pose proof (good_take p (length p - k) Hp) as Hgood.
    fold (ancestor p k) in Hgood. rewrite He in Hgood.
    pose proof (findPomXml_loop_below fuel _ _ k Hgood) as Hstep.
    rewrite <- He in Hstep. rewrite Hstep, (Hnone k) by lia.
    apply IH; lia.
Qed.

End Locator.

End JsLocatorFacts.

(** The JavaScript locator on an absolute clean directory [p], with
    more iterations allowed than [p] is deep: the nearest descriptor in
    [p] or in a directory above it other than the root is returned after
    as many moves to a parent as it is levels up; when none of these
    directories holds a descriptor the result is [null], whether or not
    the root holds one. *)
Theorem findPomXml_nearest_below_root (existsSync : string -> bool)
  (p : list string) (fuel : nat) :
  AbsPath.good p = true ->
  length p < fuel ->
  (forall N, N < length p ->
     existsSync (AbsPath.descriptor (AbsPath.ancestor p N)) = true ->
     (forall k, k < N ->
        existsSync (AbsPath.descriptor (AbsPath.ancestor p k)) = false) ->
     jsdetector.findPomXml existsSync fuel (AbsPath.to_string p)
     = Some (Some (AbsPath.descriptor (AbsPath.ancestor p N)), N))
  /\ ((forall k, k < length p ->
         existsSync (AbsPath.descriptor (AbsPath.ancestor p k)) = false) ->
      jsdetector.findPomXml existsSync fuel (AbsPath.to_string p)
      = Some (None, length p)).
Proof.
  intros Hp Hfuel. unfold jsdetector.findPomXml.
  replace (js.parse_root (AbsPath.to_string p)) with (AbsPath.to_string [])
    by (by destruct p).
  split.
  - intros N HN Hfound Hbelow.
    pose proof (JsLocatorFacts.findPomXml_loop_found existsSync p N N Hp HN
                  Hfound Hbelow 0 fuel) as H.
    rewrite LocatorFacts.ancestor_0 in H. apply H; lia.
  - intros Hnone.
    pose proof (JsLocatorFacts.findPomXml_loop_none existsSync p (length p) Hp
                  Hnone 0 fuel) as H.
    rewrite LocatorFacts.ancestor_0 in H. apply H; lia.
Qed.

Lemma findPomXml_nearest_below_root_witness :
  jsdetector.findPomXml (fun f => String.eqb f "/pom.xml") 4 "/repo/app1"
  = Some (None, 2).
Proof.
  pose proof (findPomXml_nearest_below_root
                (fun f => String.eqb f "/pom.xml") ["repo"; "app1"] 4 eq_refl) as H.
  destruct H as [_ H]; [simpl; lia |].
  apply H. intros [|[|k]] Hk; [reflexivity | reflexivity | simpl in Hk; lia].
Defined.

(** C9: a descriptor that sits in the filesystem root is not found by
    the JavaScript locator, whose loop ends before it looks into the
    root: started in [/] or in [/app] with [/pom.xml] present it returns
    [null], where the Go locator returns [/pom.xml] after one step. *)
Theorem C9_js_locator_skips_root :
  jsdetector.findPomXml (fun f => String.eqb f "/pom.xml") 8 "/"
  = Some (None, 0)
  /\ jsdetector.findPomXml (fun f => String.eqb f "/pom.xml") 8 "/app"
     = Some (None, 1)
  /\ detector.findPomXML (fun f => String.eqb f "/pom.xml") 8 "/app"
     = Some (Ok "/pom.xml", 1)
  /\ detector.findPomXML (fun f => String.eqb f "/pom.xml") 8 "/"
     = Some (Ok "/pom.xml", 0).
Proof. repeat split; reflexivity. Qed.

(** ** Path Resolver *)

Module ResolverFacts.
Import Str Path AbsPath PathFacts.

Lemma strip_common_nil (bs ts ts' : list string) :
  strip_common bs ts = ([], ts') -> ts = bs ++ ts'.
Proof.
  revert ts. induction bs as [|b bs IH]; intros ts.
  - destruct ts; simpl; intros [= <-]; done.
  - destruct ts as [|t ts]; simpl; [done |].
    destruct (String.eqb_spec b t) as [-> | Hne]; [| done].
    intros H. by rewrite (IH _ H).
Qed.

Lemma strip_common_app (bs m : list string) :
  strip_common bs (bs ++ m) = ([], m).
Proof.
  induction bs as [|b bs IH]; [by destruct m |].
  simpl. by rewrite String.eqb_refl.
Qed.

Lemma to_string_not_dot (p : list string) : String.eqb (to_string p) "." = false.
Proof. by destruct p. Qed.

Lemma rooted_to_string (p : list string) : rooted (to_string p) = true.
Proof. by destruct p. Qed.

(** [filepath.Rel] between two absolute clean paths. *)
Lemma Rel_to_string (b c : list string) :
  good b = true -> good c = true ->
  Rel (to_string b) (to_string c) =
    if String.eqb (to_string c) (to_string b) then Some "."
    else match strip_common b c with
         | ([], ts') => Some (Str.Join ts' "/")
         | (b0 :: bs', ts') =>
             if String.eqb b0 ".." then None
             else Some (Str.Join (map (fun _ => "..") (b0 :: bs') ++ ts') "/")
         end.
Proof.
  intros Hb Hc. unfold Rel.
  rewrite (Clean_to_string _ Hb), (Clean_to_string _ Hc).
  destruct (String.eqb (to_string c) (to_string b)); [done |].
  rewrite !rooted_to_string, !to_string_not_dot. simpl negb. cbv iota.
  by rewrite (elements_to_string _ Hb), (elements_to_string _ Hc).
Qed.

(** The relative path of a directory strictly below [r] is the
    slash-joined list of the elements that lead to it from [r]. *)
Lemma Rel_below (r m : list string) :
  good r = true -> good (r ++ m) = true -> m <> [] ->
  Rel (to_string r) (to_string (r ++ m)) = Some (Str.Join m "/").
Proof.
  intros Hr Hrm Hm. rewrite (Rel_to_string _ _ Hr Hrm).
  replace (String.eqb (to_string (r ++ m)) (to_string r)) with false.
  - by rewrite strip_common_app.
  - symmetry. apply String.eqb_neq. intros Heq.
    apply to_string_inj in Heq; [| done | done].
    apply (f_equal length) in Heq. rewrite length_app in Heq.
    destruct m; [done | simpl in Heq; lia].
Qed.

End ResolverFacts.

(** The Go resolver accepts a current directory for a base path only
    when the directory is the base path or lies below it element by
    element: a path that merely extends the text of the base path within
    an element is never accepted. *)
Theorem go_resolver_accepts_descendants_only (b c : list string) :
  AbsPath.good b = true -> AbsPath.good c = true ->
  detector.within_base (AbsPath.to_string b) (AbsPath.to_string c) = true ->
  exists m, c = b ++ m.
Proof.
  intros Hb Hc. unfold detector.within_base.
  pose proof ResolverFacts.strip_common_nil as Hstrip.
  rewrite (ResolverFacts.Rel_to_string _ _ Hb Hc).
  destruct (String.eqb_spec (AbsPath.to_string c) (AbsPath.to_string b)) as [Heq | Hne].
  - intros _. exists []. rewrite app_nil_r. by apply PathFacts.to_string_inj.
  - destruct (Path.strip_common b c) as [bs' ts'] eqn:Hs.
    destruct bs' as [|x bs'].
    + intros _. exists ts'. by apply Hstrip.
    + destruct (String.eqb x ".."); [done |].
      simpl map. unfold Str.HasPrefix.
      replace (String.prefix ".."
                 (Str.Join ((".." :: map (fun _ => "..") bs') ++ ts') "/"))
        with true; [simpl; done |].
      simpl app. by destruct (map (fun _ => "..") bs' ++ ts').
Qed.

Lemma go_resolver_accepts_descendants_only_witness :
  exists m, ["repo"; "app1"; "core"; "src"] = ["repo"; "app1"] ++ m.
Proof.
  exact (go_resolver_accepts_descendants_only
           ["repo"; "app1"] ["repo"; "app1"; "core"; "src"]
           eq_refl eq_refl eq_refl).
Defined.

(** C6: the JavaScript resolver tests [currentPath.startsWith(base_path)]
    on the text of the paths, so the directory [/foo-bar] is resolved to
    the project whose base path is [/foo], and [detectProject] goes on to
    classify the module found there under that project; Go's test on
    the relative path rejects the same pair, and [DetectProject] fails
    there. *)
Theorem C6_js_resolver_textual_prefix :
  jsdetector.match_project "/foo-bar"
    [("foo", Fixtures.js_project "/foo" None None None None)]
  = Some ("foo", Fixtures.js_project "/foo" None None None None)
  /\ jsdetector.detectProject (Fixtures.files ["/foo-bar/pom.xml"])
       (fun _ => Ok (Fixtures.js_pom (Some "bar") None)) 8
       {| jsdetector.projects :=
            [("foo", Fixtures.js_project "/foo" None None None None)] |}
       "/foo-bar"
     = Some (Ok {| jsdetector.det_project := "foo";
                   jsdetector.det_projectConfig :=
                     Fixtures.js_project "/foo" None None None None;
                   jsdetector.det_pomPath := "/foo-bar/pom.xml";
                   jsdetector.det_module :=
                     {| jsdetector.artifactId := "bar";
                        jsdetector.packaging := "jar";
                        jsdetector.path := "/foo-bar";
                        jsdetector.relativePath := "../foo-bar";
                        jsdetector.isGlobalModule := js.Undefined;
                        jsdetector.deploymentPath := "";
                        jsdetector.isMultiModule := false;
                        jsdetector.modules_ := [] |} |})
  /\ detector.within_base "/foo" "/foo-bar" = false
  /\ detector.DetectProject (Fixtures.files ["/foo-bar/pom.xml"])
       Fixtures.read_any (Fixtures.go_pom "bar" "jar") 8 "/foo-bar"
       {| config.Projects := [("foo", Fixtures.go_project "/foo" {[ "foo-bar" := "" ]})];
          config.RestartRules_ := None |}
     = Some (Err "current directory is not part of any configured project").
Proof. repeat split; reflexivity. Qed.

(** ** Module Classifier *)

Module ClassifierFacts.
Import detector.

(** What [detectModule] returns once the descriptor is found and
    parsed. *)
Lemma detectModule_found (stat : string -> bool)
  (ReadFile : string -> result string) (xml : string -> result PomXML)
  (fuel : nat) (name : string) (cfg : config.ProjectConfig) (cwd pomPath : string)
  (n : nat) (pom : PomXML) :
  findPomXML stat fuel cwd = Some (Ok pomPath, n) ->
  parsePomXML ReadFile xml pomPath = Ok pom ->
  detectModule stat ReadFile xml fuel name cfg cwd =
    match config.Modules cfg !! Path.Base (Path.Dir pomPath) with
    | None =>
        Some (Err (not_configured_message (Path.Base (Path.Dir pomPath)) name))
    | Some v =>
        Some (Ok {| Name := name; Config := cfg;
                    ModuleName := Path.Base (Path.Dir pomPath);
                    ModulePath := Path.Dir pomPath;
                    RepoRoot := if hasParentPom stat (config.BasePath cfg)
                                then config.BasePath cfg else Path.Dir pomPath;
                    Packaging := if String.eqb (Packaging_ pom) ""
                                 then "jar" else Packaging_ pom;
                    DeploymentPath := v;
                    IsGlobalModule := negb (String.eqb v "") |})
    end.
Proof.
  intros Hfind Hparse. unfold detectModule. rewrite Hfind, Hparse.
  unfold config.GetModuleDeploymentPath.
  destruct (config.Modules cfg !! Path.Base (Path.Dir pomPath)) as [v|]; [| done].
  destruct (String.eqb_spec v "") as [-> | Hv]; done.
Qed.

(** A successful [detectModule] found and parsed a descriptor. *)
Lemma detectModule_ok_inv (stat : string -> bool)
  (ReadFile : string -> result string) (xml : string -> result PomXML)
  (fuel : nat) (name : string) (cfg : config.ProjectConfig) (cwd : string)
  (info : ProjectInfo) :
  detectModule stat ReadFile xml fuel name cfg cwd = Some (Ok info) ->
  exists pomPath n pom,
    findPomXML stat fuel cwd = Some (Ok pomPath, n)
    /\ parsePomXML ReadFile xml pomPath = Ok pom.
Proof.
  unfold detectModule.
  destruct (findPomXML stat fuel cwd) as [[[pomPath | e] n]|]; [| done | done].
  destruct (parsePomXML ReadFile xml pomPath) as [pom | e] eqn:Hparse; [| done].
  intros _. by exists pomPath, n, pom.
Qed.

End ClassifierFacts.




(** C8, as the code has it.  Go: the module name is the name of the
    directory that holds the descriptor, whether or not the descriptor
    declares an artifact identifier, and the identifier has no influence
    on the classification at all.  JavaScript: the module is identified
    by the declared artifact identifier, and without one (absent or
    empty) classification fails; the directory name is never used. *)
Theorem C8_module_name_policy :
  (forall stat ReadFile xml fuel name cfg cwd info,
     detector.detectModule stat ReadFile xml fuel name cfg cwd = Some (Ok info) ->
     detector.ModuleName info = Path.Base (detector.ModulePath info)
     /\ exists pomPath n,
          detector.findPomXML stat fuel cwd = Some (Ok pomPath, n)
          /\ detector.ModulePath info = Path.Dir pomPath)
  /\ (forall stat ReadFile xml xml' fuel name cfg cwd,
        (forall data,
           match xml data, xml' data with
           | Ok pom, Ok pom' => detector.Packaging_ pom = detector.Packaging_ pom'
           | Err e, Err e' => e = e'
           | _, _ => False
           end) ->
        detector.detectModule stat ReadFile xml fuel name cfg cwd
        = detector.detectModule stat ReadFile xml' fuel name cfg cwd)
  /\ (forall pomPath pom cfg info,
        jsdetector.detectModule pomPath pom cfg = Ok info ->
        jsdetector.project pom ≫= jsdetector.pom_artifactId
        = Some (jsdetector.artifactId info)
        /\ jsdetector.artifactId info <> "")
  /\ (forall pomPath pom cfg,
        jsdetector.project pom ≫= jsdetector.pom_artifactId = None
        \/ jsdetector.project pom ≫= jsdetector.pom_artifactId = Some "" ->
        jsdetector.detectModule pomPath pom cfg
        = Err "artifactId not found in pom.xml").
Proof.
  split; [| split; [| split]].
  - intros stat ReadFile xml fuel name cfg cwd info H.
    destruct (ClassifierFacts.detectModule_ok_inv _ _ _ _ _ _ _ _ H)
      as (pomPath & n & pom & Hfind & Hparse).
    rewrite (ClassifierFacts.detectModule_found _ _ _ _ name cfg _ _ _ _ Hfind Hparse) in H.
    destruct (config.Modules cfg !! Path.Base (Path.Dir pomPath)); [| done].
    injection H as <-. split; [done |]. by exists pomPath, n.
  - intros stat ReadFile xml xml' fuel name cfg cwd Hsame.
    unfold detector.detectModule.
    destruct (detector.findPomXML stat fuel cwd) as [[[pomPath | e] n]|]; [| done | done].
    unfold detector.parsePomXML.
    destruct (ReadFile pomPath) as [data | e]; [| done].
    specialize (Hsame data).
    destruct (xml data) as [pom | e], (xml' data) as [pom' | e']; try done.
    + by rewrite Hsame.
    + by rewrite Hsame.
  - intros pomPath pom cfg info. unfold jsdetector.detectModule.
    destruct (jsdetector.project pom ≫= jsdetector.pom_artifactId) as [a|]; [| done].
    destruct (String.eqb_spec a "") as [-> | Hne]; [done |].
    by intros [= <-].
  - intros pomPath pom cfg [H | H]; unfold jsdetector.detectModule; by rewrite H.
Qed.

Lemma C8_module_name_policy_witness :
  detector.detectModule
    (Fixtures.files ["/repo/app1/corelib/pom.xml"]) Fixtures.read_any
    (Fixtures.go_pom "core" "jar") 8 "app1"
    (Fixtures.go_project "/repo/app1" {[ "corelib" := "" ]})
    "/repo/app1/corelib/src"
  = detector.detectModule
      (Fixtures.files ["/repo/app1/corelib/pom.xml"]) Fixtures.read_any
      (Fixtures.go_pom "" "jar") 8 "app1"
      (Fixtures.go_project "/repo/app1" {[ "corelib" := "" ]})
      "/repo/app1/corelib/src"
  /\ jsdetector.detectModule "/repo/app1/corelib/pom.xml"
       (Fixtures.js_pom None (Some "jar"))
       (Fixtures.js_project "/repo/app1" None None None None)
     = Err "artifactId not found in pom.xml".
Proof.
  destruct C8_module_name_policy as (_ & Hgo & _ & Hjs). split.
  - apply Hgo. intros data. reflexivity.
  - apply Hjs. left. reflexivity.
Defined.

(** C8 as stated fails on both classifiers.  Go: the descriptor in
    directory [corelib] declares the artifact identifier [core], and the
    module is named [corelib].  JavaScript: a descriptor without an
    artifact identifier is an error, not a fall-back to the directory
    name. *)
Lemma C8_go_directory_name_preferred :
  detector.detectModule
    (Fixtures.files ["/repo/app1/corelib/pom.xml"]) Fixtures.read_any
    (Fixtures.go_pom "core" "jar") 8 "app1"
    (Fixtures.go_project "/repo/app1" {[ "corelib" := "" ]})
    "/repo/app1/corelib/src"
  = Some (Ok {| detector.Name := "app1";
                detector.Config :=
                  Fixtures.go_project "/repo/app1" {[ "corelib" := "" ]};
                detector.ModuleName := "corelib";
                detector.ModulePath := "/repo/app1/corelib";
                detector.RepoRoot := "/repo/app1/corelib";
                detector.Packaging := "jar";
                detector.DeploymentPath := "";
                detector.IsGlobalModule := false |})
  /\ jsdetector.detectModule "/repo/app1/corelib/pom.xml"
       (Fixtures.js_pom None (Some "jar"))
       (Fixtures.js_project "/repo/app1" None None None
          (Some {[ "corelib" := "" ]}))
     = Err "artifactId not found in pom.xml".
Proof. split; reflexivity. Qed.

(** ** Build Command Synthesizer *)

Module SynthFacts.
Import jsdetector jsbuilder.

(** The arguments that [buildMavenCommand] returns, given the profiles. *)
Lemma buildMavenCommand_args (moduleInfo : ModuleInfo) (profile : string)
  (skipTests : bool) (projectConfig : ProjectConfig) (args : list string) :
  buildMavenCommand moduleInfo profile skipTests projectConfig = Ok args ->
  exists profiles,
    getProfiles profile projectConfig = Ok profiles
    /\ args = ["install"]
              ++ (if (0 <? length profiles)%nat
                  then ["-P"; Str.Join profiles ","] else [])
              ++ (if skipTests then ["-DskipTests=true"] else [])
              ++ (if isMultiModule moduleInfo
                  then ["-pl"; artifactId moduleInfo; "-am"] else []).
Proof.
  unfold buildMavenCommand.
  destruct (getProfiles profile projectConfig) as [profiles | e]; [| done].
  cbn. intros [= <-]. exists profiles. split; [done |].
  destruct (length profiles), skipTests, (isMultiModule moduleInfo); done.
Qed.

End SynthFacts.

(** C3, as the code has it.  Go ([builder]): for a multi-module build
    (a repository root is set and differs from the module path) the
    command is [mvn clean package -pl REL -am] followed by the profile
    and skip-tests arguments, where REL is the relative path of the
    module path under the repository root (for a module below the root,
    the slash-joined elements leading to it); when the packaging is
    [jar], the build is confirmed and its profile is valid, a second
    command [mvn install -pl REL -DskipTests] is run after the first one
    succeeded, and nothing is run after a first command that failed.
    JavaScript: for a multi-module module the single command has phase
    [install] and ends with [-pl ARTIFACTID -am]; [buildModule] never
    runs a second command. *)
Theorem C3_multi_module_commands :
  (forall root b profile,
     root (detector.Config (builder.projectInfo b)) <> "" ->
     root (detector.Config (builder.projectInfo b))
     <> detector.ModulePath (builder.projectInfo b) ->
     builder.getBuildCommand root b profile
     = ["mvn"; "clean"; "package"; "-pl";
        builder.Rel_or_empty
          (root (detector.Config (builder.projectInfo b)))
          (detector.ModulePath (builder.projectInfo b));
        "-am"]
       ++ config.GetProfileArgs (detector.Config (builder.projectInfo b)) profile
       ++ (if config.SkipTests (detector.Config (builder.projectInfo b))
           then ["-DskipTests"] else []))
  /\ (forall r m,
        AbsPath.good r = true -> AbsPath.good (r ++ m) = true -> m <> [] ->
        builder.Rel_or_empty (AbsPath.to_string r) (AbsPath.to_string (r ++ m))
        = Str.Join m "/")
  /\ (forall root confirm run b profile,
        root (detector.Config (builder.projectInfo b)) <> "" ->
        root (detector.Config (builder.projectInfo b))
        <> detector.ModulePath (builder.projectInfo b) ->
        detector.Packaging (builder.projectInfo b) = "jar" ->
        profile = "" \/ builder.isValidProfile b profile = true ->
        confirm "Proceed?" = true ->
        match run (root (detector.Config (builder.projectInfo b)))
                  (builder.getBuildCommand root b profile) with
        | None =>
            builder.executed (builder.Build root confirm run b profile)
            = [builder.getBuildCommand root b profile;
               ["mvn"; "install"; "-pl";
                builder.Rel_or_empty
                  (root (detector.Config (builder.projectInfo b)))
                  (detector.ModulePath (builder.projectInfo b));
                "-DskipTests"]]
        | Some e =>
            builder.Build root confirm run b profile
            = {| builder.executed := [builder.getBuildCommand root b profile];
                 builder.returned := Some ("build failed: " +:+ e) |}
        end)
  /\ (forall moduleInfo profile skipTests projectConfig args,
        jsbuilder.buildMavenCommand moduleInfo profile skipTests projectConfig
        = Ok args ->
        jsdetector.isMultiModule moduleInfo = true ->
        exists options,
          args = "install" :: options
                 ++ ["-pl"; jsdetector.artifactId moduleInfo; "-am"])
  /\ (forall confirm execa_mvn detection profile skipTests,
        length (jsbuilder.executed
                  (jsbuilder.buildModule confirm execa_mvn detection profile
                     skipTests)) <= 1).
Proof.
  split; [| split; [| split; [| split]]].
  - intros root b profile Hroot Hne. unfold builder.getBuildCommand.
    apply String.eqb_neq in Hroot, Hne. rewrite Hroot, Hne. simpl.
    destruct (config.SkipTests _); [done |]. by rewrite app_nil_r.
  - intros r m Hr Hrm Hm. unfold builder.Rel_or_empty.
    by rewrite (ResolverFacts.Rel_below r m Hr Hrm Hm).
  - intros root confirm run b profile Hroot Hne Hjar Hvalid Hconfirm.
    unfold builder.Build, builder.executeBuild.
    apply String.eqb_neq in Hroot. rewrite Hroot, Hjar, Hconfirm. simpl.
    replace (negb (String.eqb profile "") && negb (builder.isValidProfile b profile))
      with false.
    2:{ destruct Hvalid as [-> | ->]; [done | by rewrite andb_false_r]. }
    destruct (run _ (builder.getBuildCommand root b profile)); [done |].
    by destruct (run _ (builder.getInstallCommand root b)).
  - intros moduleInfo profile skipTests projectConfig args Hargs Hmulti.
    destruct (SynthFacts.buildMavenCommand_args _ _ _ _ _ Hargs) as (profiles & _ & ->).
    rewrite Hmulti. eexists. simpl. rewrite app_assoc. reflexivity.
  - intros confirm execa_mvn detection profile skipTests.
    unfold jsbuilder.buildModule.
    destruct (jsbuilder.buildMavenCommand _ _ _ _); [| simpl; lia].
    destruct (negb (confirm "Proceed with build?")); [simpl; lia |].
    destruct (execa_mvn _ _); simpl; lia.
Qed.

Lemma C3_multi_module_commands_witness :
  builder.executed
    (builder.Build (fun _ => "/repo/app1") (fun _ => true) (fun _ _ => None)
       (Fixtures.go_builder
          (Fixtures.go_info (Fixtures.go_project "/repo/app1" {[ "core" := "" ]})
             "core" "/repo/app1/core" "/repo/app1" "jar"))
       "")
  = [ ["mvn"; "clean"; "package"; "-pl"; "core"; "-am"];
      ["mvn"; "install"; "-pl"; "core"; "-DskipTests"] ]
  /\ (exists options,
        ["install"; "-pl"; "core"; "-am"]
        = "install" :: options ++ ["-pl"; "core"; "-am"]).
Proof.
  destruct C3_multi_module_commands as (_ & _ & Hgo & Hjs & _). split.
  - exact (Hgo (fun _ => "/repo/app1") (fun _ => true) (fun _ _ => None)
             (Fixtures.go_builder
                (Fixtures.go_info
                   (Fixtures.go_project "/repo/app1" {[ "core" := "" ]})
                   "core" "/repo/app1/core" "/repo/app1" "jar"))
             "" ltac:(discriminate) ltac:(discriminate) eq_refl
             (or_introl eq_refl) eq_refl).
  - exact (Hjs (Fixtures.js_module "core" "jar" "/repo/app1/core-impl" true)
             "none" false
             (Fixtures.js_project "/repo/app1" None None None None)
             ["install"; "-pl"; "core"; "-am"] eq_refl eq_refl).
Defined.

(** C3 as stated fails on the JavaScript synthesizer: for the
    multi-module module [core] of packaging [jar] in directory
    [core-impl], the command has phase [install], selects the artifact
    identifier and not the relative path, and is the only command that
    [buildModule] runs. *)
Lemma C3_js_multi_module_install_only :
  jsbuilder.buildMavenCommand
    (Fixtures.js_module "core" "jar" "/repo/app1/core-impl" true) "none" false
    (Fixtures.js_project "/repo/app1" None None None None)
  = Ok ["install"; "-pl"; "core"; "-am"]
  /\ js.relative "/repo/app1" "/repo/app1/core-impl" = "core-impl"
  /\ jsbuilder.buildModule (fun _ => true) (fun _ _ => None)
       (Fixtures.js_detection
          (Fixtures.js_project "/repo/app1" None None None None)
          (Fixtures.js_module "core" "jar" "/repo/app1/core-impl" true))
       None false
     = {| jsbuilder.executed := [ ["install"; "-pl"; "core"; "-am"] ];
          jsbuilder.outcome := Ok tt |}.
Proof. repeat split; reflexivity. Qed.

(** C7, as the code has it.  Go: when the build is not a multi-module
    build, the command is [mvn clean install] for packaging [jar] and
    [mvn clean package] for every other packaging, followed by the
    profile and skip-tests arguments, in [GetBuildCommand] of the
    detector and in [getBuildCommand] of the builder alike.  JavaScript:
    the phase is [install] whatever the packaging is. *)
Theorem C7_single_module_phase :
  (forall p profile,
     detector.RepoRoot p = detector.ModulePath p ->
     detector.GetBuildCommand p profile
     = ["mvn"; "clean";
        if String.eqb (detector.Packaging p) "jar" then "install" else "package"]
       ++ config.GetProfileArgs (detector.Config p) profile
       ++ (if config.SkipTests (detector.Config p) then ["-DskipTests"] else []))
  /\ (forall root b profile,
        root (detector.Config (builder.projectInfo b)) = ""
        \/ root (detector.Config (builder.projectInfo b))
           = detector.ModulePath (builder.projectInfo b) ->
        builder.getBuildCommand root b profile
        = ["mvn"; "clean";
           if String.eqb (detector.Packaging (builder.projectInfo b)) "jar"
           then "install" else "package"]
          ++ config.GetProfileArgs (detector.Config (builder.projectInfo b)) profile
          ++ (if config.SkipTests (detector.Config (builder.projectInfo b))
              then ["-DskipTests"] else []))
  /\ (forall moduleInfo profile skipTests projectConfig args,
        jsbuilder.buildMavenCommand moduleInfo profile skipTests projectConfig
        = Ok args ->
        exists options, args = "install" :: options).
Proof.
  split; [| split].
  - intros p profile Heq. unfold detector.GetBuildCommand.
    rewrite Heq, String.eqb_refl. simpl.
    by destruct (String.eqb (detector.Packaging p) "jar").
  - intros root b profile Hsingle. unfold builder.getBuildCommand.
    replace (negb (String.eqb (root (detector.Config (builder.projectInfo b))) "")
             && negb (String.eqb
                        (root (detector.Config (builder.projectInfo b)))
                        (detector.ModulePath (builder.projectInfo b))))
      with false.
    2:{ destruct Hsingle as [-> | ->]; [done |].
        by rewrite String.eqb_refl, andb_false_r. }
    destruct (String.eqb (detector.Packaging (builder.projectInfo b)) "jar"),
      (config.SkipTests _); simpl; by rewrite ?app_nil_r.
  - intros moduleInfo profile skipTests projectConfig args Hargs.
    destruct (SynthFacts.buildMavenCommand_args _ _ _ _ _ Hargs) as (profiles & _ & ->).
    by eexists.
Qed.

Lemma C7_single_module_phase_witness :
  detector.GetBuildCommand
    (Fixtures.go_info (Fixtures.go_project "/repo/app1" {[ "core" := "" ]})
       "core" "/repo/app1/core" "/repo/app1/core" "jar") ""
  = ["mvn"; "clean"; "install"]
  /\ builder.getBuildCommand (fun _ => "")
       (Fixtures.go_builder
          (Fixtures.go_info (Fixtures.go_project "/repo/app1" {[ "web" := "" ]})
             "web" "/repo/app1/web" "/repo/app1/web" "war")) ""
     = ["mvn"; "clean"; "package"]
  /\ (exists options, ["install"] = "install" :: options).
Proof.
  destruct C7_single_module_phase as (Hdet & Hbld & Hjs). split; [| split].
  - exact (Hdet (Fixtures.go_info
                   (Fixtures.go_project "/repo/app1" {[ "core" := "" ]})
                   "core" "/repo/app1/core" "/repo/app1/core" "jar") "" eq_refl).
  - exact (Hbld (fun _ => "") (Fixtures.go_builder
                   (Fixtures.go_info
                      (Fixtures.go_project "/repo/app1" {[ "web" := "" ]})
                      "web" "/repo/app1/web" "/repo/app1/web" "war")) ""
             (or_introl eq_refl)).
  - exact (Hjs (Fixtures.js_module "web" "war" "/repo/app1/web" false) "none" false
             (Fixtures.js_project "/repo/app1" None None None None)
             ["install"] eq_refl).
Defined.

(** C7 as stated fails on the JavaScript synthesizer: for the module
    [web] of packaging [war], not a multi-module build, the phase is
    [install]. *)
Lemma C7_js_war_phase_install :
  jsdetector.isMultiModule (Fixtures.js_module "web" "war" "/repo/app1/web" false)
  = false
  /\ jsdetector.packaging (Fixtures.js_module "web" "war" "/repo/app1/web" false)
     = "war"
  /\ jsbuilder.buildMavenCommand
       (Fixtures.js_module "web" "war" "/repo/app1/web" false) "none" false
       (Fixtures.js_project "/repo/app1" None None None None)
     = Ok ["install"].
Proof. repeat split; reflexivity. Qed.

(** ** Profile resolution *)

Module ProfileFacts.

Lemma existsb_eqb_In (p : string) (l : list string) :
  existsb (String.eqb p) l = true <-> In p l.
Proof.
  rewrite existsb_exists. split.
  - intros (x & Hx & Heq). apply String.eqb_eq in Heq. by subst.
  - intros H. exists p. by rewrite String.eqb_refl.
Qed.

Lemma existsb_eqb_In' (p : string) (l : list string) :
  existsb (fun x => String.eqb x p) l = true <-> In p l.
Proof.
  rewrite existsb_exists. split.
  - intros (x & Hx & Heq). apply String.eqb_eq in Heq. by subst.
  - intros H. exists p. by rewrite String.eqb_refl.
Qed.

Lemma isValidProfile_In (b : builder.Builder) (p : string) :
  builder.isValidProfile b p = true <->
  config.AvailableProfiles (detector.Config (builder.projectInfo b)) = []
  \/ In p (config.AvailableProfiles (detector.Config (builder.projectInfo b))).
Proof.
  unfold builder.isValidProfile.
  destruct (config.AvailableProfiles _) as [|a l] eqn:Hav.
  - split; [by left | done].
  - rewrite existsb_eqb_In'. split; [by right | by intros [? | ?]].
Qed.

End ProfileFacts.

(** C4, as the code has it.  Go: a non-empty profile that is not in a
    non-empty list of available profiles makes [Build] return, before
    anything is run, the error [invalid profile 'P' for project NAME],
    which names the profile and the project but not the available
    profiles; a profile in the list is valid, and the build then returns
    no error when the build tool succeeds.  JavaScript: a profile other
    than the empty string and [none] that is not in a non-empty list of
    available profiles makes [getProfiles] throw the error [Profile 'P'
    not available. Available: ...] listing the available profiles; a
    profile in the list is resolved without error. *)
Theorem C4_invalid_profile :
  (forall root confirm run b p,
     p <> "" ->
     config.AvailableProfiles (detector.Config (builder.projectInfo b)) <> [] ->
     ~ In p (config.AvailableProfiles (detector.Config (builder.projectInfo b))) ->
     builder.Build root confirm run b p
     = {| builder.executed := [];
          builder.returned :=
            Some ("invalid profile '" +:+ p +:+ "' for project "
                  +:+ detector.Name (builder.projectInfo b)) |})
  /\ (forall root confirm run b p,
        In p (config.AvailableProfiles (detector.Config (builder.projectInfo b))) ->
        (forall dir cmd, run dir cmd = None) ->
        builder.isValidProfile b p = true
        /\ builder.returned (builder.Build root confirm run b p) = None)
  /\ (forall p cfg available,
        jsdetector.available_profiles cfg = Some available ->
        available <> [] ->
        p <> "" -> p <> "none" ->
        ~ In p available ->
        jsbuilder.getProfiles p cfg
        = Err ("Profile '" +:+ p +:+ "' not available. Available: "
               +:+ Str.Join available ", "))
  /\ (forall p cfg available,
        jsdetector.available_profiles cfg = Some available ->
        In p available ->
        is_ok (jsbuilder.getProfiles p cfg) = true).
Proof.
  split; [| split; [| split]].
  - intros root confirm run b p Hp Hav Hnot. unfold builder.Build.
    apply String.eqb_neq in Hp. rewrite Hp.
    replace (builder.isValidProfile b p) with false; [done |].
    symmetry. apply not_true_is_false. rewrite ProfileFacts.isValidProfile_In.
    by intros [? | ?].
  - intros root confirm run b p Hin Hrun.
    assert (builder.isValidProfile b p = true) as Hvalid.
    { apply ProfileFacts.isValidProfile_In. by right. }
    split; [done |]. unfold builder.Build, builder.executeBuild.
    rewrite Hvalid, andb_false_r. simpl.
    destruct (confirm "Proceed?"); [| done]. simpl. rewrite !Hrun.
    by destruct (_ && _); rewrite ?Hrun.
  - intros p cfg available Hav Hne Hp Hnone Hnot. unfold jsbuilder.getProfiles.
    apply String.eqb_neq in Hp, Hnone. rewrite Hp, Hnone, Hav. simpl.
    replace (existsb (String.eqb p) available) with false.
    + by destruct available.
    + symmetry. apply not_true_is_false. by rewrite ProfileFacts.existsb_eqb_In.
  - intros p cfg available Hav Hin. unfold jsbuilder.getProfiles.
    destruct (String.eqb p "" || String.eqb p "none"); [done |].
    rewrite Hav. simpl.
    apply ProfileFacts.existsb_eqb_In in Hin. rewrite Hin, andb_false_r.
    by destruct (jsdetector.profile_overrides cfg ≫= _).
Qed.

Lemma C4_invalid_profile_witness :
  builder.Build (fun _ => "") (fun _ => true) (fun _ _ => None)
    (Fixtures.go_builder
       (Fixtures.go_info
          (Fixtures.go_project_profiles "/repo/app1" "" ["TEST"; "PROD"] ∅)
          "core" "/repo/app1/core" "/repo/app1/core" "jar"))
    "QA"
  = {| builder.executed := [];
       builder.returned := Some "invalid profile 'QA' for project app1" |}
  /\ jsbuilder.getProfiles "QA"
       (Fixtures.js_project "/repo/app1" None (Some ["TEST"; "PROD"]) None None)
     = Err "Profile 'QA' not available. Available: TEST, PROD"
  /\ is_ok (jsbuilder.getProfiles "PROD"
              (Fixtures.js_project "/repo/app1" None (Some ["TEST"; "PROD"])
                 None None))
     = true.
Proof.
  destruct C4_invalid_profile as (Hgo & _ & Hjs & Hjs_ok). split; [| split].
  - apply (Hgo (fun _ => "") (fun _ => true) (fun _ _ => None)
             (Fixtures.go_builder
                (Fixtures.go_info
                   (Fixtures.go_project_profiles "/repo/app1" "" ["TEST"; "PROD"] ∅)
                   "core" "/repo/app1/core" "/repo/app1/core" "jar"))
             "QA"); [discriminate | discriminate |].
    simpl. intros [H | [H | []]]; discriminate.
  - apply (Hjs "QA"
             (Fixtures.js_project "/repo/app1" None (Some ["TEST"; "PROD"]) None None)
             ["TEST"; "PROD"] eq_refl); [discriminate | discriminate | discriminate |].
    simpl. intros [H | [H | []]]; discriminate.
  - apply (Hjs_ok "PROD"
             (Fixtures.js_project "/repo/app1" None (Some ["TEST"; "PROD"]) None None)
             ["TEST"; "PROD"] eq_refl).
    simpl. right. left. reflexivity.
Defined.

(** C4 as stated fails in two places.  JavaScript: the non-empty
    profile [none], absent from the available profiles [TEST] and
    [PROD], is resolved to no profile without any error.  Go: the error
    for the unavailable profile [QA] reads [invalid profile 'QA' for
    project app1] and lists none of the available profiles. *)
Lemma C4_js_none_not_validated :
  jsbuilder.getProfiles "none"
    (Fixtures.js_project "/repo/app1" None (Some ["TEST"; "PROD"]) None None)
  = Ok []
  /\ existsb (String.eqb "none") ["TEST"; "PROD"] = false
  /\ builder.returned
       (builder.Build (fun _ => "") (fun _ => true) (fun _ _ => None)
          (Fixtures.go_builder
             (Fixtures.go_info
                (Fixtures.go_project_profiles "/repo/app1" "" ["TEST"; "PROD"] ∅)
                "core" "/repo/app1/core" "/repo/app1/core" "jar"))
          "QA")
     = Some "invalid profile 'QA' for project app1"
  /\ Str.Contains "invalid profile 'QA' for project app1" "TEST" = false
  /\ Str.Contains "invalid profile 'QA' for project app1" "PROD" = false.
Proof. repeat split; reflexivity. Qed.

(** C5, as the code has it.  Go: for the empty requested profile,
    [GetProfileArgs] gives one [-P] argument per name that
    [profileOverrides] maps the empty key to, in order, when the key is
    present; otherwise the single argument for the default profile when
    one is set; otherwise no argument.  JavaScript: for an empty or
    missing requested profile, [buildModule] resolves the default
    profile in its place when one is set, and the sentinel [none], which
    gives no profile, when not; the empty key of [profile_overrides] is
    never consulted. *)
Theorem C5_empty_profile_resolution :
  (forall cfg,
     config.GetProfileArgs cfg ""
     = match config.ProfileOverrides cfg !! "" with
       | Some names => map (fun name => "-P" +:+ name) names
       | None =>
           if String.eqb (config.DefaultProfile cfg) "" then []
           else ["-P" +:+ config.DefaultProfile cfg]
       end)
  /\ (forall cfg requested,
        requested = None \/ requested = Some "" ->
        jsdetector.default_profile cfg = None
        \/ jsdetector.default_profile cfg = Some "" ->
        jsbuilder.effectiveProfile requested cfg = "none"
        /\ jsbuilder.getProfiles (jsbuilder.effectiveProfile requested cfg) cfg
           = Ok [])
  /\ (forall cfg requested d,
        requested = None \/ requested = Some "" ->
        jsdetector.default_profile cfg = Some d -> d <> "" ->
        jsbuilder.effectiveProfile requested cfg = d)
  /\ (forall cfg, jsbuilder.getProfiles "" cfg = Ok []).
Proof.
  split; [| split; [| split]].
  - intros cfg. unfold config.GetProfileArgs. simpl.
    destruct (config.ProfileOverrides cfg !! ""); [done |].
    by destruct (String.eqb (config.DefaultProfile cfg) "").
  - intros cfg requested Hreq Hdef.
    assert (jsbuilder.effectiveProfile requested cfg = "none") as ->.
    { unfold jsbuilder.effectiveProfile.
      destruct Hreq as [-> | ->], Hdef as [-> | ->]; done. }
    done.
  - intros cfg requested d Hreq Hdef Hd. unfold jsbuilder.effectiveProfile.
    rewrite Hdef. apply String.eqb_neq in Hd.
    destruct Hreq as [-> | ->]; simpl; by rewrite Hd.
  - done.
Qed.

Lemma C5_empty_profile_resolution_witness :
  config.GetProfileArgs
    (Fixtures.go_project_profiles "/repo/app1" "TEST" []
       {[ "" := ["dev"; "local"] ]}) ""
  = ["-Pdev"; "-Plocal"]
  /\ (jsbuilder.effectiveProfile None
        (Fixtures.js_project "/repo/app1" None None
           (Some {[ "" := ["dev"; "local"] ]}) None)
      = "none"
      /\ jsbuilder.getProfiles
           (jsbuilder.effectiveProfile None
              (Fixtures.js_project "/repo/app1" None None
                 (Some {[ "" := ["dev"; "local"] ]}) None))
           (Fixtures.js_project "/repo/app1" None None
              (Some {[ "" := ["dev"; "local"] ]}) None)
         = Ok [])
  /\ jsbuilder.effectiveProfile (Some "")
       (Fixtures.js_project "/repo/app1" (Some "TEST") None None None)
     = "TEST".
Proof.
  destruct C5_empty_profile_resolution as (Hgo & Hnone & Hdef & _).
  split; [| split].
  - exact (Hgo (Fixtures.go_project_profiles "/repo/app1" "TEST" []
                  {[ "" := ["dev"; "local"] ]})).
  - exact (Hnone (Fixtures.js_project "/repo/app1" None None
                    (Some {[ "" := ["dev"; "local"] ]}) None)
             None (or_introl eq_refl) (or_introl eq_refl)).
  - exact (Hdef (Fixtures.js_project "/repo/app1" (Some "TEST") None None None)
             (Some "") "TEST" (or_intror eq_refl) eq_refl ltac:(discriminate)).
Defined.

(** C5 as stated fails on the JavaScript synthesizer: with
    [profile_overrides = {'': ['dev', 'local']}], no default profile and
    no requested profile, no profile is resolved and the command carries
    no profile argument. *)
Lemma C5_js_empty_key_ignored :
  (Some ({[ "" := ["dev"; "local"] ]} : gmap string (list string))
     ≫= (fun o => o !! "")) = Some ["dev"; "local"]
  /\ jsbuilder.getProfiles
       (jsbuilder.effectiveProfile None
          (Fixtures.js_project "/repo/app1" None None
             (Some {[ "" := ["dev"; "local"] ]}) None))
       (Fixtures.js_project "/repo/app1" None None
          (Some {[ "" := ["dev"; "local"] ]}) None)
     = Ok []
  /\ jsbuilder.buildMavenCommand
       (Fixtures.js_module "core" "jar" "/repo/app1/core" false)
       (jsbuilder.effectiveProfile None
          (Fixtures.js_project "/repo/app1" None None
             (Some {[ "" := ["dev"; "local"] ]}) None))
       false
       (Fixtures.js_project "/repo/app1" None None
          (Some {[ "" := ["dev"; "local"] ]}) None)
     = Ok ["install"].
Proof. repeat split; reflexivity. Qed.


(** The profile [none] is not validated even when the available
    profiles do not list it. *)
Example C10_none_not_in_available :
  jsbuilder.getProfiles "none"
    (Fixtures.js_project "/repo/app1" None (Some ["TEST"; "PROD"]) None None)
  = Ok []
  /\ jsbuilder.getProfiles "QA"
       (Fixtures.js_project "/repo/app1" None (Some ["TEST"; "PROD"]) None None)
     = Err "Profile 'QA' not available. Available: TEST, PROD".
Proof. split; reflexivity. Qed.

(** ** Scenarios *)

(** A module [core] of packaging [jar] below the base path
    [/repo/app1], which holds no descriptor of its own, seen from
    [/repo/app1/core/src] by the Go implementation: an ordinary module
    built in its own directory with [mvn clean install]. *)
Example go_single_module_scenario :
  detector.detectModule
    (Fixtures.files ["/repo/app1/core/pom.xml"]) Fixtures.read_any
    (Fixtures.go_pom "core" "") 8 "app1"
    (Fixtures.go_project "/repo/app1" {[ "core" := "" ]}) "/repo/app1/core/src"
  = Some (Ok (Fixtures.go_info
                (Fixtures.go_project "/repo/app1" {[ "core" := "" ]})
                "core" "/repo/app1/core" "/repo/app1/core" "jar"))
  /\ detector.GetBuildCommand
       (Fixtures.go_info (Fixtures.go_project "/repo/app1" {[ "core" := "" ]})
          "core" "/repo/app1/core" "/repo/app1/core" "jar") ""
     = ["mvn"; "clean"; "install"].
Proof. split; reflexivity. Qed.

(** With a descriptor in the base path the same module is built from
    there, selected by its relative path. *)
Example go_multi_module_scenario :
  detector.detectModule
    (Fixtures.files ["/repo/app1/pom.xml"; "/repo/app1/core/pom.xml"])
    Fixtures.read_any (Fixtures.go_pom "core" "jar") 8 "app1"
    (Fixtures.go_project "/repo/app1" {[ "core" := "" ]}) "/repo/app1/core/src"
  = Some (Ok (Fixtures.go_info
                (Fixtures.go_project "/repo/app1" {[ "core" := "" ]})
                "core" "/repo/app1/core" "/repo/app1" "jar"))
  /\ detector.GetBuildCommand
       (Fixtures.go_info (Fixtures.go_project "/repo/app1" {[ "core" := "" ]})
          "core" "/repo/app1/core" "/repo/app1" "jar") "PROD"
     = ["mvn"; "clean"; "package"; "-pl"; "core"; "-am"; "-PPROD"].
Proof. split; reflexivity. Qed.

(** Restart decisions without patterns, and with the global-module
    override in front of a pattern list. *)
Example restart_scenarios :
  builder.determineRestartRequirement (fun _ _ => Some false)
    (Fixtures.go_builder
       (Fixtures.go_info (Fixtures.go_project "/repo/app1" ∅)
          "web" "/repo/app1/web" "/repo/app1/web" "war"))
    "webapp.war"
  = ("none", "WAR hot-deployment")
  /\ builder.determineRestartRequirement (fun _ _ => Some false)
       (Fixtures.go_builder
          (Fixtures.go_info (Fixtures.go_project "/repo/app1" ∅)
             "orders" "/repo/app1/orders" "/repo/app1/orders" "jar"))
       "orders-EJB.jar"
     = ("recommended", "EJB implementation JAR")
  /\ builder.determineRestartRequirement (fun _ _ => Some true)
       {| builder.cfg :=
            {| config.Projects := [];
               config.RestartRules_ :=
                 Some {| config.GlobalModule := true;
                         config.Patterns :=
                           [ {| config.Match := ".*";
                                config.Reason := "any";
                                config.Severity := "none" |} ] |} |};
          builder.projectInfo :=
            {| detector.Name := "app1";
               detector.Config :=
                 Fixtures.go_project "/repo/app1"
                   {[ "auth" := "modules/org/auth/main" ]};
               detector.ModuleName := "auth";
               detector.ModulePath := "/repo/app1/auth";
               detector.RepoRoot := "/repo/app1/auth";
               detector.Packaging := "jar";
               detector.DeploymentPath := "modules/org/auth/main";
               detector.IsGlobalModule := true |} |}
       "auth.jar"
     = ("required", "Global module modification").
Proof. repeat split; reflexivity. Qed.

(** A pattern whose expression does not compile is passed over. *)
Example restart_malformed_pattern_skipped :
  builder.determineRestartRequirement
    (fun pattern _ => if String.eqb pattern "(" then None else Some true)
    {| builder.cfg :=
         {| config.Projects := [];
            config.RestartRules_ :=
              Some {| config.GlobalModule := false;
                      config.Patterns :=
                        [ {| config.Match := "(";
                             config.Reason := "broken";
                             config.Severity := "required" |};
                          {| config.Match := "EJB.*\.jar";
                             config.Reason := "ejb";
                             config.Severity := "required" |} ] |} |};
       builder.projectInfo :=
         Fixtures.go_info (Fixtures.go_project "/repo/app1" ∅)
           "orders" "/repo/app1/orders" "/repo/app1/orders" "jar" |}
    "orders-EJB.jar"
  = ("required", "ejb").
Proof. reflexivity. Qed.

(** Go's test on the relative path also rejects a directory below the
    base path whose first element below it begins with two dots. *)
Example go_within_base_dotted_child :
  detector.within_base "/foo" "/foo/bar" = true
  /\ detector.within_base "/foo" "/foo" = true
  /\ detector.within_base "/foo" "/foo/..bar" = false.
Proof. repeat split; reflexivity. Qed.

(** ** The main artifact and the restart report (Go) *)

Module ReportFacts.
Import Str builderreport.

Lemma HasSuffix_nonempty (name suffix : string) :
  suffix <> "" -> HasSuffix name suffix = true -> name <> "".
Proof.
  intros Hs H ->. unfold HasSuffix in H. apply andb_true_iff in H as [Hlen _].
  destruct suffix; [done | done].
Qed.

(** A name cannot end in two different suffixes of the same length. *)
Lemma HasSuffix_same_length (name s1 s2 : string) :
  String.length s1 = String.length s2 ->
  HasSuffix name s1 = true -> HasSuffix name s2 = true -> s1 = s2.
Proof.
  unfold HasSuffix. intros Hlen [_ H1]%andb_true_iff [_ H2]%andb_true_iff.
  rewrite Hlen in H1. apply String.eqb_eq in H1, H2. congruence.
Qed.

Lemma war_not_jar (name : string) :
  HasSuffix name ".war" = true -> HasSuffix name ".jar" = false.
Proof.
  intros Hwar. apply not_true_is_false. intros Hjar.
  by pose proof (HasSuffix_same_length name ".war" ".jar" eq_refl Hwar Hjar).
Qed.

(** The loop stops at the first war. *)
Lemma pick_artifact_war (names : list string) (acc w : string) :
  List.find (fun n => HasSuffix n ".war") names = Some w ->
  pick_artifact names acc = w.
Proof.
  revert acc. induction names as [|n rest IH]; intros acc; [done |].
  simpl. destruct (HasSuffix n ".war"); [by intros [= ->] |].
  intros H. by destruct (is_main_jar n); apply IH.
Qed.

End ReportFacts.

(** The main artifact that the builder reports on is the first war among
    the names of the target directory, whatever jars stand before or
    after it; without a war it is the last jar that is neither a sources
    nor a javadoc jar; without either, the value the search started
    with. *)
Theorem pick_artifact_first_war_else_last_jar (names : list string) (acc : string) :
  builderreport.pick_artifact names acc
  = match List.find (fun n => Str.HasSuffix n ".war") names with
    | Some war => war
    | None => default acc (last (List.filter builderreport.is_main_jar names))
    end.
Proof.
  revert acc. induction names as [|n rest IH]; intros acc; [done |].
  simpl. destruct (Str.HasSuffix n ".war"); [done |].
  destruct (builderreport.is_main_jar n); rewrite IH;
    destruct (List.find _ rest); try done.
  rewrite last_cons. by destruct (last (List.filter builderreport.is_main_jar rest)).
Qed.

(** The search for the main artifact comes back empty exactly when the
    directory holds neither a war nor a main jar, and a name it reports
    is one of the directory's entries that is a war or a main jar. *)
Theorem pick_artifact_reports_eligible_entry (names : list string) :
  (builderreport.pick_artifact names "" = ""
   <-> Forall (fun n => Str.HasSuffix n ".war" = false
                        /\ builderreport.is_main_jar n = false) names)
  /\ (builderreport.pick_artifact names "" <> "" ->
      In (builderreport.pick_artifact names "") names
      /\ (Str.HasSuffix (builderreport.pick_artifact names "") ".war" = true
          \/ builderreport.is_main_jar (builderreport.pick_artifact names "") = true)).
Proof.
  assert (forall acc,
    (acc = "" \/ builderreport.is_main_jar acc = true) ->
    (builderreport.pick_artifact names acc = acc
     /\ Forall (fun n => Str.HasSuffix n ".war" = false
                         /\ builderreport.is_main_jar n = false) names)
    \/ (In (builderreport.pick_artifact names acc) names
        /\ builderreport.pick_artifact names acc <> ""
        /\ (Str.HasSuffix (builderreport.pick_artifact names acc) ".war" = true
            \/ builderreport.is_main_jar (builderreport.pick_artifact names acc) = true)))
    as Hgen.
  { induction names as [|n rest IH]; intros acc Hacc; [left; by split |].
    simpl. destruct (Str.HasSuffix n ".war") eqn:Hwar.
    - right. split; [by left |]. split; [| by left].
      by apply (ReportFacts.HasSuffix_nonempty n ".war").
    - destruct (builderreport.is_main_jar n) eqn:Hjar.
      + right. destruct (IH n (or_intror Hjar)) as [[Heq _] | (Hin & Hne & Hel)].
        * rewrite Heq. split; [by left |]. split; [| by right].
          unfold builderreport.is_main_jar in Hjar.
          apply andb_true_iff in Hjar as [[Hs _]%andb_true_iff _].
          by apply (ReportFacts.HasSuffix_nonempty n ".jar").
        * split; [by right | by split].
      + destruct (IH acc Hacc) as [[Heq Hall] | (Hin & Hne & Hel)].
        * left. split; [done |]. by constructor.
        * right. split; [by right | by split]. }
  destruct (Hgen "" (or_introl eq_refl)) as [[Heq Hall] | (Hin & Hne & Hel)].
  - split; [by split | by rewrite Heq].
  - split; [| done]. split; [done |].
    intros Hall. exfalso. rewrite List.Forall_forall in Hall.
    destruct (Hall _ Hin) as [Hw Hj]. destruct Hel; congruence.
Qed.

Lemma pick_artifact_reports_eligible_entry_witness :
  In (builderreport.pick_artifact ["app-sources.jar"; "app.jar"; "classes"] "")
     ["app-sources.jar"; "app.jar"; "classes"]
  /\ (Str.HasSuffix
        (builderreport.pick_artifact ["app-sources.jar"; "app.jar"; "classes"] "")
        ".war" = true
      \/ builderreport.is_main_jar
           (builderreport.pick_artifact ["app-sources.jar"; "app.jar"; "classes"] "")
         = true).
Proof.
  destruct (pick_artifact_reports_eligible_entry
              ["app-sources.jar"; "app.jar"; "classes"]) as [_ H].
  apply H. discriminate.
Defined.

(** A module that is not global, built without restart rules in the
    configuration, whose target directory holds a war: the report says
    that no restart is needed, with the hot-deployment reason, and shows
    no restart command, whatever else the directory holds. *)
Theorem showRestartGuidance_war_no_restart
  (ReadDir : string -> option (list string))
  (regexp_MatchString : string -> string -> option bool)
  (b : builder.Builder) (names : list string) (war : string) :
  ReadDir (Path.Join2 (detector.ModulePath (builder.projectInfo b)) "target")
  = Some names ->
  List.find (fun n => Str.HasSuffix n ".war") names = Some war ->
  detector.IsGlobalModule (builder.projectInfo b) = false ->
  RestartSpec.patterns_of (config.RestartRules_ (builder.cfg b)) = [] ->
  builderreport.showRestartGuidance ReadDir regexp_MatchString b
  = [Str.newline +:+ builderreport.Repeat "━" 50 +:+ Str.newline;
     "ℹ️  NO RESTART NEEDED" +:+ Str.newline;
     "Reason: WAR hot-deployment" +:+ Str.newline].
Proof.
  intros Hdir Hfind Hglobal Hpatterns.
  unfold builderreport.showRestartGuidance, builderreport.main_artifact.
  rewrite Hdir, (ReportFacts.pick_artifact_war _ _ _ Hfind).
  apply List.find_some in Hfind as [_ Hwar].
  replace (String.eqb war "") with false.
  2:{ symmetry. apply String.eqb_neq.
      by apply (ReportFacts.HasSuffix_nonempty war ".war"). }
  assert (builder.determineRestartRequirement regexp_MatchString b war
          = ("none", "WAR hot-deployment")) as ->; [| done].
  unfold builder.determineRestartRequirement, builder.fallbackRestartCheck.
  rewrite Hglobal. simpl andb. cbv iota.
  rewrite (ReportFacts.war_not_jar _ Hwar), Hwar. simpl andb. cbv iota.
  unfold RestartSpec.patterns_of in Hpatterns.
  destruct (config.RestartRules_ (builder.cfg b)) as [rules|]; [| done].
  simpl in Hpatterns. by rewrite Hpatterns.
Qed.

Lemma showRestartGuidance_war_no_restart_witness :
  builderreport.showRestartGuidance
    (fun _ => Some ["web-1.0-sources.jar"; "web-1.0.jar"; "web-1.0.war"])
    (fun _ _ => None)
    (Fixtures.go_builder
       (Fixtures.go_info (Fixtures.go_project "/repo/app1" {[ "web" := "" ]})
          "web" "/repo/app1/web" "/repo/app1/web" "war"))
  = [Str.newline +:+ builderreport.Repeat "━" 50 +:+ Str.newline;
     "ℹ️  NO RESTART NEEDED" +:+ Str.newline;
     "Reason: WAR hot-deployment" +:+ Str.newline].
Proof.
  exact (showRestartGuidance_war_no_restart
           (fun _ => Some ["web-1.0-sources.jar"; "web-1.0.jar"; "web-1.0.war"])
           (fun _ _ => None)
           (Fixtures.go_builder
              (Fixtures.go_info (Fixtures.go_project "/repo/app1" {[ "web" := "" ]})
                 "web" "/repo/app1/web" "/repo/app1/web" "war"))
           ["web-1.0-sources.jar"; "web-1.0.jar"; "web-1.0.war"] "web-1.0.war"
           eq_refl eq_refl eq_refl eq_refl).
Defined.

(** ** Configuration validation (Go) *)

Module ValidateFacts.
Import configcheck.

Lemma validate_project_None (name : string) (proj : config.ProjectConfig) :
  validate_project name proj = None <-> acceptable (name, proj).
Proof.
  unfold validate_project, acceptable, known_mode. simpl.
  destruct (String.eqb_spec (config.BasePath proj) "") as [Hb | Hb];
    [split; [done | by intros [? _]] |].
  destruct (String.eqb_spec (config.WildFlyRoot proj) "") as [Hw | Hw];
    [split; [done | by intros (_ & ? & _)] |].
  destruct (String.eqb_spec (config.WildFlyMode proj) "domain") as [Hd | Hd];
    [simpl; split; [by auto | done] |].
  destruct (String.eqb_spec (config.WildFlyMode proj) "standalone") as [Hs | Hs];
    simpl; split; try done; [by auto | by intros (_ & _ & [? | ?])].
Qed.

Lemma validate_range_None (projects : list (string * config.ProjectConfig)) :
  validate_range projects = None <-> Forall acceptable projects.
Proof.
  induction projects as [|[name proj] rest IH]; simpl; [by split |].
  destruct (validate_project name proj) eqn:Hv.
  - split; [done |]. intros [Ha _]%Forall_cons.
    apply validate_project_None in Ha. congruence.
  - rewrite IH. apply validate_project_None in Hv.
    split; [by constructor | by intros [_ ?]%Forall_cons].
Qed.

End ValidateFacts.

(** [Validate] accepts a configuration exactly when it has at least one
    project and every project has a base path, a WildFly root and the
    mode [domain] or [standalone]; nothing else is looked at (a
    [domain] project without a server group passes), and whether a
    configuration is accepted does not depend on the order in which the
    project map is visited. *)
Theorem Validate_accepts_iff :
  (forall c,
     configcheck.Validate c = None
     <-> config.Projects c <> []
         /\ Forall configcheck.acceptable (config.Projects c))
  /\ (forall projects projects' rules rules',
        Permutation projects projects' ->
        (configcheck.Validate {| config.Projects := projects;
                                 config.RestartRules_ := rules |} = None
         <-> configcheck.Validate {| config.Projects := projects';
                                     config.RestartRules_ := rules' |} = None)).
Proof.
  assert (forall c,
            configcheck.Validate c = None
            <-> config.Projects c <> []
                /\ Forall configcheck.acceptable (config.Projects c)) as Hiff.
  { intros c. unfold configcheck.Validate.
    destruct (config.Projects c) as [|entry rest]; simpl.
    - split; [done | by intros [? _]].
    - change (match entry with (name, proj) => _ end)
        with (configcheck.validate_range (entry :: rest)).
      rewrite ValidateFacts.validate_range_None. split; [by split | by intros [_ ?]]. }
  split; [exact Hiff |].
  intros projects projects' rules rules' Hperm. rewrite !Hiff. simpl.
  split; intros [Hne Hall]; split.
  - intros ->. apply Permutation_nil_r in Hperm. done.
  - by rewrite <- Hperm.
  - intros ->. apply Permutation_nil in Hperm. done.
  - by rewrite Hperm.
Qed.

Lemma Validate_accepts_iff_witness :
  configcheck.Validate
    {| config.Projects :=
         [("mto", Fixtures.go_project "/repo/mto" ∅);
          ("sinfomar", Fixtures.go_project "/repo/sinfomar" ∅)];
       config.RestartRules_ := None |} = None
  <-> configcheck.Validate
        {| config.Projects :=
             [("sinfomar", Fixtures.go_project "/repo/sinfomar" ∅);
              ("mto", Fixtures.go_project "/repo/mto" ∅)];
           config.RestartRules_ := None |} = None.
Proof.
  destruct Validate_accepts_iff as [_ H]. apply H. apply perm_swap.
Defined.

(** ** Project resolution and classification (Go) *)

Module DetectFacts.
Import detector.

Section Detect.
Variable stat : string -> bool.
Variable ReadFile : string -> result string.
Variable xml_Unmarshal : string -> result PomXML.
Variable fuel : nat.
Variable cwd : string.




End Detect.

End DetectFacts.



(** Every classification that [detectModule] returns keeps the
    project's name and configuration, has a non-empty packaging, carries
    as deployment path the value that the module map gives for the
    module name, is global exactly when that path is not empty, and has
    as repository root either the base path or the module path. *)
Theorem detectModule_classification_invariants
  (stat : string -> bool) (ReadFile : string -> result string)
  (xml_Unmarshal : string -> result detector.PomXML) (fuel : nat)
  (name : string) (cfg : config.ProjectConfig) (cwd : string)
  (info : detector.ProjectInfo) :
  detector.detectModule stat ReadFile xml_Unmarshal fuel name cfg cwd
  = Some (Ok info) ->
  detector.Name info = name
  /\ detector.Config info = cfg
  /\ detector.Packaging info <> ""
  /\ config.Modules cfg !! detector.ModuleName info
     = Some (detector.DeploymentPath info)
  /\ (detector.IsGlobalModule info = true <-> detector.DeploymentPath info <> "")
  /\ (detector.RepoRoot info = config.BasePath cfg
      \/ detector.RepoRoot info = detector.ModulePath info).
Proof.
  intros H.
  destruct (ClassifierFacts.detectModule_ok_inv _ _ _ _ _ _ _ _ H)
    as (pomPath & n & pom & Hfind & Hparse).
  rewrite (ClassifierFacts.detectModule_found _ _ _ _ name cfg _ _ _ _ Hfind Hparse) in H.
  destruct (config.Modules cfg !! Path.Base (Path.Dir pomPath)) as [v|] eqn:Hv;
    [| done].
  injection H as <-. simpl. repeat split; try done.
  - destruct (String.eqb_spec (detector.Packaging_ pom) ""); [done | done].
  - destruct (String.eqb_spec v ""); simpl; [done | done].
  - destruct (String.eqb_spec v ""); simpl; [done | done].
  - destruct (detector.hasParentPom stat (config.BasePath cfg)); [by left | by right].
Qed.

Lemma detectModule_classification_invariants_witness :
  detector.Name
    (Fixtures.go_info
       (Fixtures.go_project "/repo/app1" {[ "core" := "" ]})
       "core" "/repo/app1/core" "/repo/app1/core" "jar") = "app1"
  /\ detector.Config
       (Fixtures.go_info
          (Fixtures.go_project "/repo/app1" {[ "core" := "" ]})
          "core" "/repo/app1/core" "/repo/app1/core" "jar")
     = Fixtures.go_project "/repo/app1" {[ "core" := "" ]}
  /\ detector.Packaging
       (Fixtures.go_info
          (Fixtures.go_project "/repo/app1" {[ "core" := "" ]})
          "core" "/repo/app1/core" "/repo/app1/core" "jar") <> ""
  /\ config.Modules (Fixtures.go_project "/repo/app1" {[ "core" := "" ]})
       !! detector.ModuleName
            (Fixtures.go_info
               (Fixtures.go_project "/repo/app1" {[ "core" := "" ]})
               "core" "/repo/app1/core" "/repo/app1/core" "jar")
     = Some (detector.DeploymentPath
               (Fixtures.go_info
                  (Fixtures.go_project "/repo/app1" {[ "core" := "" ]})
                  "core" "/repo/app1/core" "/repo/app1/core" "jar"))
  /\ (detector.IsGlobalModule
        (Fixtures.go_info
           (Fixtures.go_project "/repo/app1" {[ "core" := "" ]})
           "core" "/repo/app1/core" "/repo/app1/core" "jar") = true
      <-> detector.DeploymentPath
            (Fixtures.go_info
               (Fixtures.go_project "/repo/app1" {[ "core" := "" ]})
               "core" "/repo/app1/core" "/repo/app1/core" "jar") <> "")
  /\ (detector.RepoRoot
        (Fixtures.go_info
           (Fixtures.go_project "/repo/app1" {[ "core" := "" ]})
           "core" "/repo/app1/core" "/repo/app1/core" "jar")
      = config.BasePath (Fixtures.go_project "/repo/app1" {[ "core" := "" ]})
      \/ detector.RepoRoot
           (Fixtures.go_info
              (Fixtures.go_project "/repo/app1" {[ "core" := "" ]})
              "core" "/repo/app1/core" "/repo/app1/core" "jar")
         = detector.ModulePath
             (Fixtures.go_info
                (Fixtures.go_project "/repo/app1" {[ "core" := "" ]})
                "core" "/repo/app1/core" "/repo/app1/core" "jar")).
Proof.
  exact (detectModule_classification_invariants
           (Fixtures.files ["/repo/app1/core/pom.xml"]) Fixtures.read_any
           (Fixtures.go_pom "core" "") 8 "app1"
           (Fixtures.go_project "/repo/app1" {[ "core" := "" ]})
           "/repo/app1/core/src"
           (Fixtures.go_info
              (Fixtures.go_project "/repo/app1" {[ "core" := "" ]})
              "core" "/repo/app1/core" "/repo/app1/core" "jar")
           eq_refl).
Defined.

(** ** From the current directory to the build command (Go) *)

Module CommandFacts.
Import Str Path AbsPath PathFacts.

Lemma filter_nonempty_good (p : list string) :
  forallb good_elem p = true -> filter (fun e => e <> "") p = p.
Proof.
  induction p as [|e p IH]; [done |].
  simpl. intros [He Hp]%andb_true_iff.
  apply good_elem_inv in He as (He & _).
  rewrite filter_cons_True by done. by rewrite (IH Hp).
Qed.

(** [filepath.Base] of a directory below the root is its last element. *)
Lemma Base_snoc (p : list string) (e : string) :
  good (p ++ [e]) = true -> Base (to_string (p ++ [e])) = e.
Proof.
  intros Hgood. pose proof Hgood as Hall.
  unfold good in Hgood. rewrite forallb_app in Hgood.
  apply andb_true_iff in Hgood as [Hp He]. simpl in He. rewrite andb_true_r in He.
  pose proof (good_elem_inv _ He) as (_ & _ & _ & Hs).
  unfold Base. rewrite to_string_snoc.
  replace (String.eqb (slashed p +:+ String slash e) "") with false
    by (by destruct p).
  rewrite (split_slash_slashed _ _ Hp), (split_slash_no_slash _ Hs).
  simpl app. rewrite filter_cons_False by (by intros ?).
  rewrite (filter_nonempty_good _ Hall), rev_app_distr. done.
Qed.

Lemma good_app_l (p q : list string) : good (p ++ q) = true -> good p = true.
Proof. unfold good. rewrite forallb_app. by intros [? _]%andb_true_iff. Qed.

(** Cleaning never gives the empty string. *)
Lemma clean_step_nonempty (r : bool) (acc : list string) (e : string) :
  Forall (fun x => x <> "") acc -> Forall (fun x => x <> "") (clean_step r acc e).
Proof.
  intros Hacc. unfold clean_step.
  destruct (String.eqb_spec e "") as [-> | He]; [done |]. simpl.
  destruct (String.eqb e "."); [done |].
  destruct (String.eqb_spec e "..") as [-> | Hdd].
  - destruct acc as [|top below].
    + destruct r; [done | by constructor].
    + destruct (String.eqb top ".."); [by constructor |].
      by apply Forall_cons in Hacc as [_ ?].
  - by constructor.
Qed.

Lemma elements_nonempty (s : string) : Forall (fun x => x <> "") (elements s).
Proof.
  unfold elements. apply Forall_rev.
  assert (forall l acc, Forall (fun x : string => x <> "") acc ->
            Forall (fun x : string => x <> "")
                   (fold_left (clean_step (rooted s)) l acc)) as H.
  { induction l as [|e l IH]; intros acc Hacc; [done |].
    simpl. apply IH. by apply clean_step_nonempty. }
  by apply H.
Qed.

Lemma Clean_nonempty (s : string) : Clean s <> "".
Proof.
  unfold Clean, render. destruct (rooted s); [done |].
  pose proof (elements_nonempty s) as H.
  destruct (elements s) as [|e l]; [done |].
  apply Forall_cons in H as [He _].
  destruct l; simpl; [done |]. by destruct e.
Qed.

Lemma Join2_nonempty (dir name : string) :
  dir <> "" \/ name <> "" -> Join2 dir name <> "".
Proof.
  intros H. unfold Join2.
  destruct (String.eqb_spec dir "") as [-> | Hd].
  - destruct (String.eqb_spec name "") as [-> | Hn]; [by destruct H |].
    apply Clean_nonempty.
  - destruct (String.eqb name ""); apply Clean_nonempty.
Qed.

End CommandFacts.

(** A project whose base path holds a descriptor of its own, seen from
    a directory in or below a module directory that lies below the base
    path: when that module directory holds the nearest descriptor and
    the module is in the module map, the classification succeeds and the
    build command is [mvn clean package -pl REL -am] with the profile and
    skip-tests arguments, REL being the elements that lead from the base
    path to the module directory, joined by slashes. *)
Theorem go_multi_module_command_from_cwd
  (stat : string -> bool) (ReadFile : string -> result string)
  (xml_Unmarshal : string -> result detector.PomXML) (fuel : nat)
  (name : string) (cfg : config.ProjectConfig)
  (base : list string) (below : list string) (moduleDir : string)
  (inside : list string) (pom : detector.PomXML) (profile v : string) :
  AbsPath.good (base ++ below ++ [moduleDir] ++ inside) = true ->
  config.BasePath cfg = AbsPath.to_string base ->
  stat (AbsPath.descriptor base) = true ->
  stat (AbsPath.descriptor (base ++ below ++ [moduleDir])) = true ->
  (forall k, k < length inside ->
     stat (AbsPath.descriptor
             (AbsPath.ancestor (base ++ below ++ [moduleDir] ++ inside) k))
     = false) ->
  detector.parsePomXML ReadFile xml_Unmarshal
    (AbsPath.descriptor (base ++ below ++ [moduleDir])) = Ok pom ->
  config.Modules cfg !! moduleDir = Some v ->
  length (base ++ below ++ [moduleDir] ++ inside) < fuel ->
  exists info,
    detector.detectModule stat ReadFile xml_Unmarshal fuel name cfg
      (AbsPath.to_string (base ++ below ++ [moduleDir] ++ inside))
    = Some (Ok info)
    /\ detector.ModuleName info = moduleDir
    /\ detector.GetBuildCommand info profile
       = ["mvn"; "clean"; "package"; "-pl";
          Str.Join (below ++ [moduleDir]) "/"; "-am"]
         ++ config.GetProfileArgs cfg profile
         ++ (if config.SkipTests cfg then ["-DskipTests"] else []).
Proof.
  intros Hgood Hbase Hroot Hmod Hinside Hparse Hmap Hfuel.
  set (cwd := base ++ below ++ [moduleDir] ++ inside) in *.
  set (md := base ++ below ++ [moduleDir]) in *.
  assert (AbsPath.ancestor cwd (length inside) = md) as Hanc.
  { unfold AbsPath.ancestor, cwd, md.
    replace (base ++ below ++ [moduleDir] ++ inside)
      with ((base ++ below ++ [moduleDir]) ++ inside)
      by (by rewrite <- !app_assoc).
    rewrite length_app, Nat.add_sub. by rewrite take_app_length. }
  assert (AbsPath.good md = true) as Hmd.
  { apply (CommandFacts.good_app_l md inside). unfold md.
    by rewrite <- !app_assoc. }
  assert (AbsPath.good base = true) as Hgb.
  { by apply (CommandFacts.good_app_l base (below ++ [moduleDir] ++ inside)). }
  assert (detector.findPomXML stat fuel (AbsPath.to_string cwd)
          = Some (Ok (AbsPath.descriptor md), length inside)) as Hfind.
  { unfold detector.findPomXML.
    assert (length inside <= length cwd) as Hle
      by (unfold cwd; rewrite !length_app; lia).
    rewrite <- Hanc in Hmod.
    pose proof (LocatorFacts.findPomXML_loop_found stat cwd (AbsPath.to_string cwd)
                  (length inside) (length inside) Hgood Hle Hmod Hinside 0 fuel) as H.
    rewrite Hanc, LocatorFacts.ancestor_0 in H.
    apply H; [lia |].
    unfold cwd in Hfuel. rewrite !length_app in Hfuel. simpl in Hfuel. lia. }
  assert (Path.Dir (AbsPath.descriptor md) = AbsPath.to_string md) as Hdir.
  { unfold AbsPath.descriptor. apply PathFacts.Dir_snoc.
    unfold AbsPath.good in *. rewrite forallb_app, Hmd. done. }
  assert (Path.Base (AbsPath.to_string md) = moduleDir) as Hbasename.
  { unfold md. rewrite app_assoc. apply CommandFacts.Base_snoc.
    by rewrite <- app_assoc. }
  rewrite (ClassifierFacts.detectModule_found _ _ _ _ name cfg _ _ _ _ Hfind Hparse).
  rewrite Hdir, Hbasename, Hmap. eexists. split; [done |]. split; [done |].
  unfold detector.GetBuildCommand. simpl.
  assert (detector.hasParentPom stat (config.BasePath cfg) = true) as ->.
  { unfold detector.hasParentPom. rewrite Hbase.
    replace (String.eqb (AbsPath.to_string base) "") with false
      by (by destruct base).
    by rewrite (PathFacts.Join2_descriptor _ "pom.xml" Hgb LocatorFacts.good_pom). }
  rewrite Hbase.
  replace (String.eqb (AbsPath.to_string base) (AbsPath.to_string md)) with false.
  2:{ symmetry. apply String.eqb_neq. intros Heq.
      apply PathFacts.to_string_inj in Heq; [| done | done].
      apply (f_equal length) in Heq. unfold md in Heq.
      rewrite !length_app in Heq. simpl in Heq. lia. }
  simpl negb. cbv iota. unfold md.
  rewrite (ResolverFacts.Rel_below base (below ++ [moduleDir]) Hgb);
    [done | done | by destruct below].
Qed.

Lemma go_multi_module_command_from_cwd_witness :
  exists info,
    detector.detectModule
      (Fixtures.files ["/repo/mto/pom.xml"; "/repo/mto/ejb/EJBMto/pom.xml"])
      Fixtures.read_any (Fixtures.go_pom "mto-ejb" "jar") 8 "mto"
      (Fixtures.go_project "/repo/mto" {[ "EJBMto" := "" ]})
      "/repo/mto/ejb/EJBMto/src/main"
    = Some (Ok info)
    /\ detector.ModuleName info = "EJBMto"
    /\ detector.GetBuildCommand info "PROD"
       = ["mvn"; "clean"; "package"; "-pl"; "ejb/EJBMto"; "-am"; "-PPROD"].
Proof.
  apply (go_multi_module_command_from_cwd
           (Fixtures.files ["/repo/mto/pom.xml"; "/repo/mto/ejb/EJBMto/pom.xml"])
           Fixtures.read_any (Fixtures.go_pom "mto-ejb" "jar") 8 "mto"
           (Fixtures.go_project "/repo/mto" {[ "EJBMto" := "" ]})
           ["repo"; "mto"] ["ejb"] "EJBMto" ["src"; "main"]
           {| detector.ArtifactId := "mto-ejb"; detector.Packaging_ := "jar" |}
           "PROD" "");
    try reflexivity.
  - intros [|[|k]] Hk; [reflexivity | reflexivity | simpl in Hk; lia].
  - simpl. lia.
Defined.

(** For every classification that [detectModule] returns,
    [GetGlobalModulePath] is empty exactly when the module is not
    global. *)
Theorem GetGlobalModulePath_empty_iff_not_global
  (stat : string -> bool) (ReadFile : string -> result string)
  (xml_Unmarshal : string -> result detector.PomXML) (fuel : nat)
  (name : string) (cfg : config.ProjectConfig) (cwd : string)
  (info : detector.ProjectInfo) :
  detector.detectModule stat ReadFile xml_Unmarshal fuel name cfg cwd
  = Some (Ok info) ->
  (detectorpaths.GetGlobalModulePath info = ""
   <-> detector.IsGlobalModule info = false).
Proof.
  intros H.
  destruct (ClassifierFacts.detectModule_ok_inv _ _ _ _ _ _ _ _ H)
    as (pomPath & n & pom & Hfind & Hparse).
  rewrite (ClassifierFacts.detectModule_found _ _ _ _ name cfg _ _ _ _ Hfind Hparse) in H.
  destruct (config.Modules cfg !! Path.Base (Path.Dir pomPath)) as [v|]; [| done].
  injection H as <-. unfold detectorpaths.GetGlobalModulePath. simpl.
  destruct (String.eqb_spec v "") as [-> | Hv]; simpl; [done |].
  split; [| done]. intros Hempty. exfalso.
  by apply (CommandFacts.Join2_nonempty (config.WildFlyRoot cfg) v (or_intror Hv)).
Qed.

Lemma GetGlobalModulePath_empty_iff_not_global_witness :
  detectorpaths.GetGlobalModulePath
    {| detector.Name := "app1";
       detector.Config :=
         Fixtures.go_project "/repo/app1" {[ "auth" := "modules/org/auth/main" ]};
       detector.ModuleName := "auth";
       detector.ModulePath := "/repo/app1/auth";
       detector.RepoRoot := "/repo/app1/auth";
       detector.Packaging := "jar";
       detector.DeploymentPath := "modules/org/auth/main";
       detector.IsGlobalModule := true |} = ""
  <-> true = false.
Proof.
  exact (GetGlobalModulePath_empty_iff_not_global
           (Fixtures.files ["/repo/app1/auth/pom.xml"]) Fixtures.read_any
           (Fixtures.go_pom "auth" "jar") 8 "app1"
           (Fixtures.go_project "/repo/app1" {[ "auth" := "modules/org/auth/main" ]})
           "/repo/app1/auth" _ eq_refl).
Defined.

(** ** The default profile *)

(** Go: a build without a requested profile hands the default profile
    to Maven as [-P<default>] without checking it against the available
    profiles: once the user confirms, the first command run is the build
    command, and it carries that argument, whatever the list of
    available profiles holds. *)
Theorem Build_default_profile_not_checked
  (root : config.ProjectConfig -> string) (confirm : string -> bool)
  (run : string -> list string -> option string) (b : builder.Builder) :
  config.DefaultProfile (detector.Config (builder.projectInfo b)) <> "" ->
  config.ProfileOverrides (detector.Config (builder.projectInfo b)) !! "" = None ->
  confirm "Proceed?" = true ->
  In ("-P" +:+ config.DefaultProfile (detector.Config (builder.projectInfo b)))
     (builder.getBuildCommand root b "")
  /\ exists rest,
       builder.executed (builder.Build root confirm run b "")
       = builder.getBuildCommand root b "" :: rest.
Proof.
  intros Hdef Hov Hconfirm. split.
  - unfold builder.getBuildCommand, config.GetProfileArgs. simpl.
    rewrite Hov. apply String.eqb_neq in Hdef. rewrite Hdef. simpl.
    destruct (config.SkipTests _); rewrite ?in_app_iff; simpl; tauto.
  - unfold builder.Build. simpl. rewrite Hconfirm. simpl.
    destruct (builder.executeBuild root run b _); [by eexists |].
    destruct (_ && _); [| by eexists].
    destruct (builder.executeBuild root run b _); by eexists.
Qed.

Lemma Build_default_profile_not_checked_witness :
  In ("-P" +:+ "DEV")
     (builder.getBuildCommand (fun _ => "")
        (Fixtures.go_builder
           (Fixtures.go_info
              (Fixtures.go_project_profiles "/repo/app1" "DEV" ["TEST"; "PROD"] ∅)
              "core" "/repo/app1/core" "/repo/app1/core" "jar")) "")
  /\ exists rest,
       builder.executed
         (builder.Build (fun _ => "") (fun _ => true) (fun _ _ => None)
            (Fixtures.go_builder
               (Fixtures.go_info
                  (Fixtures.go_project_profiles "/repo/app1" "DEV" ["TEST"; "PROD"] ∅)
                  "core" "/repo/app1/core" "/repo/app1/core" "jar")) "")
       = builder.getBuildCommand (fun _ => "")
           (Fixtures.go_builder
              (Fixtures.go_info
                 (Fixtures.go_project_profiles "/repo/app1" "DEV" ["TEST"; "PROD"] ∅)
                 "core" "/repo/app1/core" "/repo/app1/core" "jar")) ""
         :: rest.
Proof.
  apply (Build_default_profile_not_checked (fun _ => "") (fun _ => true)
           (fun _ _ => None)
           (Fixtures.go_builder
              (Fixtures.go_info
                 (Fixtures.go_project_profiles "/repo/app1" "DEV" ["TEST"; "PROD"] ∅)
                 "core" "/repo/app1/core" "/repo/app1/core" "jar")));
    [discriminate | reflexivity | reflexivity].
Defined.

(** JavaScript: a build without a requested profile resolves the default
    profile like a requested one, so a default profile that the
    non-empty list of available profiles does not hold makes
    [buildModule] throw the not-available error before the user is asked
    and before anything is run. *)
Theorem buildModule_default_profile_checked
  (confirm : string -> bool) (execa_mvn : string -> list string -> option string)
  (detection : jsdetector.Detection) (requested : option string)
  (skipTests : bool) (d : string) (available : list string) :
  requested = None \/ requested = Some "" ->
  jsdetector.default_profile (jsdetector.det_projectConfig detection) = Some d ->
  d <> "" -> d <> "none" ->
  jsdetector.available_profiles (jsdetector.det_projectConfig detection)
  = Some available ->
  available <> [] ->
  ~ In d available ->
  jsbuilder.buildModule confirm execa_mvn detection requested skipTests
  = {| jsbuilder.executed := [];
       jsbuilder.outcome := Err (jsbuilder.not_available_message d available) |}.
Proof.
  intros Hreq Hdef Hd Hnone Hav Hne Hnot.
  unfold jsbuilder.buildModule, jsbuilder.buildMavenCommand.
  assert (jsbuilder.effectiveProfile requested
            (jsdetector.det_projectConfig detection) = d) as ->.
  { unfold jsbuilder.effectiveProfile. rewrite Hdef.
    apply String.eqb_neq in Hd. destruct Hreq as [-> | ->]; simpl; by rewrite Hd. }
  assert (jsbuilder.getProfiles d (jsdetector.det_projectConfig detection)
          = Err (jsbuilder.not_available_message d available)) as ->; [| done].
  unfold jsbuilder.getProfiles.
  apply String.eqb_neq in Hd, Hnone. rewrite Hd, Hnone, Hav. simpl.
  replace (existsb (String.eqb d) available) with false.
  - by destruct available.
  - symmetry. apply not_true_is_false. by rewrite ProfileFacts.existsb_eqb_In.
Qed.

Lemma buildModule_default_profile_checked_witness :
  jsbuilder.buildModule (fun _ => true) (fun _ _ => None)
    (Fixtures.js_detection
       (Fixtures.js_project "/repo/app1" (Some "DEV") (Some ["TEST"; "PROD"])
          None None)
       (Fixtures.js_module "core" "jar" "/repo/app1/core" false))
    None false
  = {| jsbuilder.executed := [];
       jsbuilder.outcome :=
         Err (jsbuilder.not_available_message "DEV" ["TEST"; "PROD"]) |}.
Proof.
  apply (buildModule_default_profile_checked (fun _ => true) (fun _ _ => None)
           (Fixtures.js_detection
              (Fixtures.js_project "/repo/app1" (Some "DEV") (Some ["TEST"; "PROD"])
                 None None)
              (Fixtures.js_module "core" "jar" "/repo/app1/core" false))
           None false "DEV" ["TEST"; "PROD"]);
    [by left | reflexivity | discriminate | discriminate | reflexivity
    | discriminate |].
  simpl. intros [H | [H | []]]; discriminate.
Defined.

(** ** Configuration documents and clients (JavaScript) *)

Module JsConfigFacts.
Import jsconfig.

(** Induction over documents, through arrays and objects. *)
Lemma yaml_induction (P : yaml -> Prop) :
  P YNull ->
  (forall text, P (YScalar text)) ->
  (forall s, P (YStr s)) ->
  (forall items, Forall P items -> P (YSeq items)) ->
  (forall entries, Forall (fun entry => P entry.2) entries -> P (YMap entries)) ->
  forall v, P v.
Proof.
  intros HNull HScalar HStr HSeq HMap. fix IH 1.
  intros [| text | s | items | entries].
  - exact HNull.
  - apply HScalar.
  - apply HStr.
  - apply HSeq. induction items as [|x xs IHxs]; constructor; [apply IH | exact IHxs].
  - apply HMap.
    induction entries as [|[k x] es IHes]; constructor; [apply IH | exact IHes].
Qed.

Lemma replace_tilde_rooted (homedir value : string) :
  Path.rooted homedir = true ->
  Str.HasPrefix value "~" = true ->
  Str.HasPrefix (replace_tilde homedir value) "~" = false.
Proof.
  intros Hroot Hprefix. destruct value as [|c after]; [done |].
  destruct homedir as [|h rest]; [done |].
  simpl in Hroot. apply Ascii.eqb_eq in Hroot as ->.
  reflexivity.
Qed.

(** [getClientConfig] for a client name that is not empty. *)
Lemma getClientConfig_named (project : ProjectSettings) (name : string) :
  name <> "" ->
  getClientConfig project (Some name)
  = match client_named project name with
    | Some client => Ok (Some client)
    | None =>
        Err ("Client '" +:+ name +:+ "' not found. Available clients: "
             +:+ match clients project with
                 | Some entries => Str.Join (map fst entries) ", "
                 | None => "none"
                 end)
    end.
Proof.
  intros Hname. unfold getClientConfig.
  apply String.eqb_neq in Hname. by rewrite Hname.
Qed.

End JsConfigFacts.

(** [expandPaths] expands a string only where it is the value of an
    object key: an array whose items are strings or other scalars comes
    back unchanged, also when its strings start with [~], at the top of
    the document and as the value of a key alike. *)
Theorem expandPaths_leaves_array_items (homedir : string)
  (items : list jsconfig.yaml) (key : string) :
  Forall jsconfig.leaf items ->
  key <> "__proto__" ->
  jsconfig.expandPaths homedir (jsconfig.YSeq items) = jsconfig.YSeq items
  /\ jsconfig.expandPaths homedir (jsconfig.YMap [(key, jsconfig.YSeq items)])
     = jsconfig.YMap [(key, jsconfig.YSeq items)].
Proof.
  intros Hleaf Hkey.
  assert (map (jsconfig.expandPaths homedir) items = items) as Hmap.
  { induction Hleaf as [|x xs Hx Hxs IH]; [done |].
    simpl. rewrite IH. by destruct x. }
  apply String.eqb_neq in Hkey.
  split; simpl; by rewrite ?Hkey, Hmap.
Qed.

Lemma expandPaths_leaves_array_items_witness :
  jsconfig.expandPaths "/home/dev"
    (jsconfig.YSeq [jsconfig.YStr "~/a"; jsconfig.YStr "~/b"])
  = jsconfig.YSeq [jsconfig.YStr "~/a"; jsconfig.YStr "~/b"]
  /\ jsconfig.expandPaths "/home/dev"
       (jsconfig.YMap
          [("paths", jsconfig.YSeq [jsconfig.YStr "~/a"; jsconfig.YStr "~/b"])])
     = jsconfig.YMap
         [("paths", jsconfig.YSeq [jsconfig.YStr "~/a"; jsconfig.YStr "~/b"])].
Proof.
  apply (expandPaths_leaves_array_items "/home/dev"
           [jsconfig.YStr "~/a"; jsconfig.YStr "~/b"] "paths").
  - repeat constructor.
  - discriminate.
Defined.

(** With an absolute home directory, expanding a document a second time
    changes nothing: every expanded string starts with the slash of the
    home directory. *)
Theorem expandPaths_idempotent (homedir : string) (doc : jsconfig.yaml) :
  Path.rooted homedir = true ->
  jsconfig.expandPaths homedir (jsconfig.expandPaths homedir doc)
  = jsconfig.expandPaths homedir doc.
Proof.
  intros Hroot. induction doc as [| text | s | items IH | entries IH]
    using JsConfigFacts.yaml_induction; try done.
  - simpl. f_equal. rewrite map_map.
    induction IH as [|x xs Hx Hxs IHxs]; [done |]. simpl. by rewrite Hx, IHxs.
  - simpl. f_equal.
    induction IH as [|[k x] es Hx Hes IHes]; [done |].
    simpl. rewrite flat_map_app, IHes. f_equal. simpl in Hx.
    destruct (k =? "__proto__")%string eqn:Hk; [done |].
    destruct x as [| text | s | items | es'].
    + simpl. by rewrite Hk.
    + simpl. by rewrite Hk.
    + destruct (Str.HasPrefix s "~") eqn:Hp; simpl; rewrite Hk.
      * by rewrite (JsConfigFacts.replace_tilde_rooted _ _ Hroot Hp).
      * by rewrite Hp.
    + revert Hx. simpl. rewrite Hk. by intros ->.
    + revert Hx. simpl. rewrite Hk. by intros ->.
Qed.

Lemma expandPaths_idempotent_witness :
  jsconfig.expandPaths "/home/dev"
    (jsconfig.expandPaths "/home/dev"
       (jsconfig.YMap [("base_path", jsconfig.YStr "~/repo/app1")]))
  = jsconfig.expandPaths "/home/dev"
      (jsconfig.YMap [("base_path", jsconfig.YStr "~/repo/app1")]).
Proof.
  exact (expandPaths_idempotent "/home/dev"
           (jsconfig.YMap [("base_path", jsconfig.YStr "~/repo/app1")]) eq_refl).
Defined.

(** The paths of a document are expanded as expected, and only the
    first [~] of a value is replaced. *)
Example expandPaths_sample :
  jsconfig.expandPaths "/home/dev"
    (jsconfig.YMap
       [("projects",
         jsconfig.YMap
           [("app1",
             jsconfig.YMap [("base_path", jsconfig.YStr "~/repo/~app1");
                            ("skip_tests", jsconfig.YScalar "true");
                            ("wildfly_root", jsconfig.YStr "/opt/~wildfly")])])])
  = jsconfig.YMap
      [("projects",
        jsconfig.YMap
          [("app1",
            jsconfig.YMap [("base_path", jsconfig.YStr "/home/dev/repo/~app1");
                           ("skip_tests", jsconfig.YScalar "true");
                           ("wildfly_root", jsconfig.YStr "/opt/~wildfly")])])].
Proof. reflexivity. Qed.

(** The client selection of the [build] action never reaches its own
    check for a client that was asked for and not found: with
    [--client] it either goes on with that client or stops with the
    error that [getClientConfig] throws; without [--client] it goes on
    with the default client, with no client when the project names no
    default, or stops with that error. *)
Theorem select_client_never_exits
  (options_client : option string) (projectConfig : jsconfig.ProjectSettings) :
  match jscli.select_client options_client projectConfig with
  | jscli.Proceeds clientConfig =>
      match clientConfig with
      | Some client =>
          jsconfig.client_named projectConfig
            (js.str_or options_client
               (js.str_or (jsconfig.default_client projectConfig) ""))
          = Some client
      | None =>
          js.str_or options_client "" = ""
          /\ js.str_or (jsconfig.default_client projectConfig) "" = ""
      end
  | jscli.Throws message =>
      exists name,
        name = js.str_or options_client
                 (js.str_or (jsconfig.default_client projectConfig) "")
        /\ name <> ""
        /\ jsconfig.client_named projectConfig name = None
        /\ message
           = "Client '" +:+ name +:+ "' not found. Available clients: "
             +:+ match jsconfig.clients projectConfig with
                 | Some entries => Str.Join (map fst entries) ", "
                 | None => "none"
                 end
  | jscli.ExitsClientNotFound => False
  end.
Proof.
  assert (forall name : string, (name =? "")%string = false ->
            match
              match
                match jsconfig.client_named projectConfig name with
                | Some client => Ok (Some client)
                | None =>
                    Err ("Client '" +:+ name
                         +:+ "' not found. Available clients: "
                         +:+ match jsconfig.clients projectConfig with
                             | Some entries => Str.Join (map fst entries) ", "
                             | None => "none"
                             end)
                end
              with
              | Ok clientConfig => jscli.Proceeds clientConfig
              | Err message => jscli.Throws message
              end
            with
            | jscli.Proceeds (Some client) =>
                jsconfig.client_named projectConfig name = Some client
            | jscli.Proceeds None => False
            | jscli.Throws message =>
                exists name' : string,
                  name' = name /\ name' <> ""
                  /\ jsconfig.client_named projectConfig name' = None
                  /\ message
                     = "Client '" +:+ name'
                       +:+ "' not found. Available clients: "
                       +:+ match jsconfig.clients projectConfig with
                           | Some entries => Str.Join (map fst entries) ", "
                           | None => "none"
                           end
            | jscli.ExitsClientNotFound => False
            end) as Hlookup.
  { intros name Hname. apply String.eqb_neq in Hname.
    destruct (jsconfig.client_named projectConfig name) eqn:Hnamed; [done |].
    by exists name. }
  unfold jscli.select_client, jsconfig.getClientConfig, js.str_or.
  destruct options_client as [o|];
    [destruct (o =? "")%string eqn:Ho |];
    (destruct (jsconfig.default_client projectConfig) as [d|];
     [destruct (d =? "")%string eqn:Hd |]);
    repeat (simpl; rewrite ?Ho, ?Hd);
    rewrite ?String.eqb_eq in *; try done.
  all: match goal with
       | Hname : (?n =? "")%string = false
         |- context [jsconfig.client_named _ ?n] =>
           specialize (Hlookup n Hname);
           destruct (jsconfig.client_named projectConfig n);
           [done | exact Hlookup]
       end.
Qed.

(** A project whose default client is not among its clients cannot be
    built without [--client]: the client selection stops with the error
    of [getClientConfig] before the build starts, also when the entry
    exists but has no body. *)
Theorem select_client_unknown_default
  (options_client : option string) (projectConfig : jsconfig.ProjectSettings)
  (d : string) :
  js.str_or options_client "" = "" ->
  jsconfig.default_client projectConfig = Some d ->
  d <> "" ->
  jsconfig.client_named projectConfig d = None ->
  jscli.select_client options_client projectConfig
  = jscli.Throws
      ("Client '" +:+ d +:+ "' not found. Available clients: "
       +:+ match jsconfig.clients projectConfig with
           | Some entries => Str.Join (map fst entries) ", "
           | None => "none"
           end).
Proof.
  intros Ho Hd Hne Hnone. unfold jscli.select_client.
  rewrite Ho, Hd. cbn [js.str_or].
  rewrite (JsConfigFacts.getClientConfig_named projectConfig d Hne), Hnone.
  apply String.eqb_neq in Hne. rewrite Hne.
  change (("" =? "")%string) with true. cbn [negb]. by rewrite Hne.
Qed.

Lemma select_client_unknown_default_witness :
  jscli.select_client None
    {| jsconfig.build := Fixtures.js_project "/repo/app1" None None None None;
       jsconfig.wildfly_root := "/opt/wildfly";
       jsconfig.wildfly_mode := None;
       jsconfig.server_group := None;
       jsconfig.default_client := Some "metrocargo";
       jsconfig.clients := Some [("metrocargo", None); ("acme", None)] |}
  = jscli.Throws
      "Client 'metrocargo' not found. Available clients: metrocargo, acme".
Proof.
  exact (select_client_unknown_default None
           {| jsconfig.build := Fixtures.js_project "/repo/app1" None None None None;
              jsconfig.wildfly_root := "/opt/wildfly";
              jsconfig.wildfly_mode := None;
              jsconfig.server_group := None;
              jsconfig.default_client := Some "metrocargo";
              jsconfig.clients := Some [("metrocargo", None); ("acme", None)] |}
           "metrocargo" eq_refl eq_refl ltac:(discriminate) eq_refl).
Defined.

(** ** Deployment (JavaScript) *)

Module DeployFacts.
Import jsdeployer.

Lemma trace_bind {A B : Type} (m : action A) (k : A -> action B) :
  trace (m ≫= k)
  = match ending m with
    | Returned a => trace m ++ trace (k a)
    | Thrown _ => trace m
    end.
Proof. unfold mbind, action_bind. by destruct (ending m). Qed.

Lemma ending_bind {A B : Type} (m : action A) (k : A -> action B) :
  ending (m ≫= k)
  = match ending m with
    | Returned a => ending (k a)
    | Thrown e => Thrown e
    end.
Proof. unfold mbind, action_bind. by destruct (ending m). Qed.

(** Properties of traces that sequencing keeps. *)
Section Closed.

Variable Q : list event -> Prop.
Hypothesis Q_app : forall l1 l2, Q l1 -> Q l2 -> Q (l1 ++ l2).

Lemma closed_bind {A B : Type} (m : action A) (k : A -> action B) :
  Q (trace m) -> (forall a, Q (trace (k a))) -> Q (trace (m ≫= k)).
Proof.
  intros Hm Hk. rewrite trace_bind. destruct (ending m); [| done].
  by apply Q_app.
Qed.

Lemma closed_try_catch {A : Type} (body : action A) (handler : error -> action A) :
  Q (trace body) -> (forall e, Q (trace (handler e))) ->
  Q (trace (try_catch body handler)).
Proof.
  intros Hbody Hhandler. unfold try_catch. destruct (ending body); [done |].
  by apply Q_app.
Qed.

End Closed.

(** Walks through a run, leaving its single effects to be checked. *)
Ltac walk Happ :=
  repeat first
    [ apply (closed_bind _ Happ); [| intros ?]
    | apply (closed_try_catch _ Happ); [| intros ?]
    | match goal with
      | |- context [trace (if ?b then _ else _)] => destruct b
      | |- context [trace (match ?o with Some _ => _ | None => _ end)] =>
          destruct o
      end ].

Ltac unfold_deployer :=
  unfold deployArtifact, deployment_plan, deployment_steps, deployment_call,
    default_client_guide, deployGlobalModule, deployNormal, deployStandalone,
    deployDomain, showRestartGuidance, showRemoteDeploymentGuide.

Lemma Forall_app_closed {A : Type} (P : A -> Prop) (l1 l2 : list A) :
  Forall P l1 -> Forall P l2 -> Forall P (l1 ++ l2).
Proof. intros H1 H2. apply Forall_app. by split. Qed.

Lemma Forall_not_In {A : Type} (x : A) (l : list A) :
  Forall (fun y => y <> x) l -> ~ In x l.
Proof.
  intros Hall Hin. rewrite List.Forall_forall in Hall. by apply (Hall x Hin).
Qed.

Lemma fs_calls_app (l1 l2 : list event) :
  fs_calls (l1 ++ l2) = fs_calls l1 ++ fs_calls l2.
Proof. apply List.filter_app. Qed.

Lemma no_fs_calls_app (l1 l2 : list event) :
  fs_calls l1 = [] -> fs_calls l2 = [] -> fs_calls (l1 ++ l2) = [].
Proof. intros H1 H2. by rewrite fs_calls_app, H1, H2. Qed.

(** A line of one plain or coloured text differs from another one as
    soon as the colours differ. *)
Lemma line_colour (c c' : colour) (s s' : string) :
  c <> c' -> ConsoleLog [Text c s] <> ConsoleLog [Text c' s'].
Proof. intros Hc [= Heq _]. by apply Hc. Qed.

(** Settles that a single effect is not a given line. *)
Ltac other_line :=
  first
    [ discriminate
    | apply line_colour; discriminate
    | let H := fresh in
      intros [= H]; rewrite ?PathFacts.sapp_cons in H; discriminate H ].

Section Runs.

Variable answer : string -> string.
Variable mkdirSync : string -> option string.
Variable copyFileSync : string -> string -> option string.
Variable writeFileSync : string -> string -> option string.
Variable artifactPath : string.
Variable project : string.
Variable projectConfig : jsconfig.ProjectSettings.
Variable moduleInfo : jsdetector.ModuleInfo.

Lemma plan_returns :
  ending (deployment_plan artifactPath project projectConfig moduleInfo)
  = Returned tt.
Proof.
  unfold deployment_plan. rewrite !ending_bind. cbn [ending log].
  by destruct (String.eqb _ "domain").
Qed.

Lemma guidance_returns (w : WildflyConfig) :
  ending (showRestartGuidance w) = Returned tt.
Proof.
  unfold showRestartGuidance. rewrite !ending_bind. cbn [ending log].
  destruct (js.truthy _), (String.eqb _ "standalone");
    by rewrite ?ending_bind.
Qed.

(** The guidance for the configuration of [getWildflyConfig]. *)
Lemma guidance_check :
  In (ConsoleLog [Text Yellow "Restart required: Check deployment"])
     (trace (showRestartGuidance (getWildflyConfig projectConfig None))).
Proof.
  unfold showRestartGuidance.
  cbn [globalModule getWildflyConfig js.truthy].
  destruct (String.eqb _ "standalone");
    repeat first [ rewrite trace_bind | rewrite ending_bind
                 | progress cbn [ending log trace app] ];
    right; by left.
Qed.

Lemma plan_no_fs_calls :
  fs_calls (trace (deployment_plan artifactPath project projectConfig moduleInfo))
  = [].
Proof. unfold deployment_plan. walk no_fs_calls_app; reflexivity. Qed.

Lemma guidance_no_fs_calls (w : WildflyConfig) :
  fs_calls (trace (showRestartGuidance w)) = [].
Proof. unfold showRestartGuidance. walk no_fs_calls_app; reflexivity. Qed.

Lemma client_guide_no_fs_calls :
  fs_calls (trace (default_client_guide artifactPath projectConfig)) = [].
Proof.
  unfold default_client_guide, showRemoteDeploymentGuide.
  walk no_fs_calls_app; reflexivity.
Qed.

(** The run after the user has agreed. *)
Lemma trace_accepted :
  accepts (answer "Proceed with deployment? (y/N) ") = true ->
  trace (deployArtifact answer mkdirSync copyFileSync writeFileSync
           artifactPath project projectConfig moduleInfo)
  = trace (deployment_plan artifactPath project projectConfig moduleInfo)
    ++ Question "Proceed with deployment? (y/N) "
    :: trace (try_catch
                (deployment_steps mkdirSync copyFileSync writeFileSync
                   artifactPath projectConfig moduleInfo)
                (fun error =>
                   log_error [Text Red "Deployment failed:"; ErrorMessage error];;
                   throw error)).
Proof.
  intros Hyes. unfold deployArtifact.
  rewrite trace_bind, plan_returns. f_equal.
  rewrite trace_bind. unfold confirm. cbn [ending trace].
  change ("Proceed with deployment?" +:+ " (y/N) ")
    with "Proceed with deployment? (y/N) ".
  by rewrite Hyes.
Qed.

Lemma ending_accepted :
  accepts (answer "Proceed with deployment? (y/N) ") = true ->
  ending (deployArtifact answer mkdirSync copyFileSync writeFileSync
            artifactPath project projectConfig moduleInfo)
  = ending (try_catch
              (deployment_steps mkdirSync copyFileSync writeFileSync
                 artifactPath projectConfig moduleInfo)
              (fun error =>
                 log_error [Text Red "Deployment failed:"; ErrorMessage error];;
                 throw error)).
Proof.
  intros Hyes. unfold deployArtifact.
  rewrite ending_bind, plan_returns, ending_bind. unfold confirm. cbn [ending].
  change ("Proceed with deployment?" +:+ " (y/N) ")
    with "Proceed with deployment? (y/N) ".
  by rewrite Hyes.
Qed.

(** The [try] block when the deployment call throws. *)
Lemma steps_thrown (e : error) :
  ending (deployment_call mkdirSync copyFileSync writeFileSync
            artifactPath projectConfig moduleInfo) = Thrown e ->
  trace (deployment_steps mkdirSync copyFileSync writeFileSync
           artifactPath projectConfig moduleInfo)
  = trace (deployment_call mkdirSync copyFileSync writeFileSync
             artifactPath projectConfig moduleInfo)
  /\ ending (deployment_steps mkdirSync copyFileSync writeFileSync
               artifactPath projectConfig moduleInfo) = Thrown e.
Proof.
  intros Hcall. unfold deployment_steps.
  by rewrite trace_bind, ending_bind, Hcall.
Qed.

(** The [try] block when the deployment call returns. *)
Lemma steps_returned :
  ending (deployment_call mkdirSync copyFileSync writeFileSync
            artifactPath projectConfig moduleInfo) = Returned tt ->
  trace (deployment_steps mkdirSync copyFileSync writeFileSync
           artifactPath projectConfig moduleInfo)
  = trace (deployment_call mkdirSync copyFileSync writeFileSync
             artifactPath projectConfig moduleInfo)
    ++ ConsoleLog [Text Green "Deployment completed"]
    :: trace (showRestartGuidance (getWildflyConfig projectConfig None))
    ++ trace (default_client_guide artifactPath projectConfig)
  /\ ending (deployment_steps mkdirSync copyFileSync writeFileSync
               artifactPath projectConfig moduleInfo)
     = ending (default_client_guide artifactPath projectConfig).
Proof.
  intros Hcall. unfold deployment_steps.
  repeat first [ rewrite trace_bind | rewrite ending_bind | rewrite Hcall
               | rewrite guidance_returns | progress cbn [ending log trace] ].
  done.
Qed.

(** The deployment call when no file-system call fails. *)
Lemma call_succeeds :
  (forall dir, mkdirSync dir = None) ->
  (forall src dest, copyFileSync src dest = None) ->
  (forall file data, writeFileSync file data = None) ->
  ending (deployment_call mkdirSync copyFileSync writeFileSync
            artifactPath projectConfig moduleInfo) = Returned tt.
Proof.
  intros Hmkdir Hcopy Hwrite.
  unfold deployment_call, deployGlobalModule, deployNormal, deployStandalone,
    deployDomain.
  destruct (js.truthy _); [| rewrite ending_bind; cbn [ending log];
                             destruct (String.eqb _ "standalone")];
    rewrite !ending_bind; cbn [ending log fs_call];
    by rewrite ?Hmkdir, ?Hcopy, ?Hwrite.
Qed.

End Runs.

End DeployFacts.

(** The restart guidance that follows a deployment never says that a
    restart is required, also after the deployment of a global module:
    no run prints [Restart required: YES], and every run that prints
    [Deployment completed] prints [Restart required: Check deployment]. *)
Theorem deployArtifact_restart_never_required
  (answer : string -> string) (mkdirSync : string -> option string)
  (copyFileSync writeFileSync : string -> string -> option string)
  (artifactPath project : string) (projectConfig : jsconfig.ProjectSettings)
  (moduleInfo : jsdetector.ModuleInfo) :
  ~ In (jsdeployer.ConsoleLog [jsdeployer.Text jsdeployer.Red "Restart required: YES"])
       (jsdeployer.trace
          (jsdeployer.deployArtifact answer mkdirSync copyFileSync writeFileSync
             artifactPath project projectConfig moduleInfo))
  /\ (In (jsdeployer.ConsoleLog
            [jsdeployer.Text jsdeployer.Green "Deployment completed"])
         (jsdeployer.trace
            (jsdeployer.deployArtifact answer mkdirSync copyFileSync writeFileSync
               artifactPath project projectConfig moduleInfo)) ->
      In (jsdeployer.ConsoleLog
            [jsdeployer.Text jsdeployer.Yellow "Restart required: Check deployment"])
         (jsdeployer.trace
            (jsdeployer.deployArtifact answer mkdirSync copyFileSync writeFileSync
               artifactPath project projectConfig moduleInfo))).
Proof.
  split.
  - apply DeployFacts.Forall_not_In.
    DeployFacts.unfold_deployer.
    cbn [jsdeployer.globalModule jsdeployer.getWildflyConfig js.truthy].
    DeployFacts.walk (@DeployFacts.Forall_app_closed jsdeployer.event
                        (fun y => y <> jsdeployer.ConsoleLog
                                         [jsdeployer.Text jsdeployer.Red
                                            "Restart required: YES"])).
    all: repeat constructor; DeployFacts.other_line.
  - assert (forall l1 l2 : list jsdeployer.event,
              (In (jsdeployer.ConsoleLog
                     [jsdeployer.Text jsdeployer.Green "Deployment completed"]) l1 ->
               In (jsdeployer.ConsoleLog
                     [jsdeployer.Text jsdeployer.Yellow
                        "Restart required: Check deployment"]) l1) ->
              (In (jsdeployer.ConsoleLog
                     [jsdeployer.Text jsdeployer.Green "Deployment completed"]) l2 ->
               In (jsdeployer.ConsoleLog
                     [jsdeployer.Text jsdeployer.Yellow
                        "Restart required: Check deployment"]) l2) ->
              In (jsdeployer.ConsoleLog
                    [jsdeployer.Text jsdeployer.Green "Deployment completed"])
                 (l1 ++ l2) ->
              In (jsdeployer.ConsoleLog
                    [jsdeployer.Text jsdeployer.Yellow
                       "Restart required: Check deployment"]) (l1 ++ l2)) as Happ.
    { intros l1 l2 H1 H2 Hin. apply in_or_app.
      apply in_app_or in Hin as [Hin | Hin]; [left; by apply H1 | right; by apply H2]. }
    assert (forall l : list jsdeployer.event,
              Forall (fun y => y <> jsdeployer.ConsoleLog
                                       [jsdeployer.Text jsdeployer.Green
                                          "Deployment completed"]) l ->
              In (jsdeployer.ConsoleLog
                    [jsdeployer.Text jsdeployer.Green "Deployment completed"]) l ->
              In (jsdeployer.ConsoleLog
                    [jsdeployer.Text jsdeployer.Yellow
                       "Restart required: Check deployment"]) l) as Hnone.
    { intros l Hall Hin. by destruct (DeployFacts.Forall_not_In _ _ Hall Hin). }
    unfold jsdeployer.deployArtifact.
    apply (DeployFacts.closed_bind _ Happ); [| intros _].
    { apply Hnone. unfold jsdeployer.deployment_plan.
      DeployFacts.walk (@DeployFacts.Forall_app_closed jsdeployer.event
                          (fun y => y <> jsdeployer.ConsoleLog
                                           [jsdeployer.Text jsdeployer.Green
                                              "Deployment completed"])).
      all: repeat constructor; DeployFacts.other_line. }
    apply (DeployFacts.closed_bind _ Happ); [| intros confirmed].
    { apply Hnone. repeat constructor. discriminate. }
    destruct confirmed; cbn [negb].
    + apply (DeployFacts.closed_try_catch _ Happ); [| intros e].
      * unfold jsdeployer.deployment_steps.
        apply (DeployFacts.closed_bind _ Happ); [| intros _].
        { apply Hnone.
          unfold jsdeployer.deployment_call, jsdeployer.deployGlobalModule,
            jsdeployer.deployNormal, jsdeployer.deployStandalone,
            jsdeployer.deployDomain.
          DeployFacts.walk (@DeployFacts.Forall_app_closed jsdeployer.event
                              (fun y => y <> jsdeployer.ConsoleLog
                                               [jsdeployer.Text jsdeployer.Green
                                                  "Deployment completed"])).
          all: repeat constructor; DeployFacts.other_line. }
        intros _. rewrite DeployFacts.trace_bind. cbn [jsdeployer.ending jsdeployer.log].
        apply in_or_app. right.
        rewrite DeployFacts.trace_bind, DeployFacts.guidance_returns.
        apply in_or_app. left. apply DeployFacts.guidance_check.
      * apply Hnone. repeat constructor. discriminate.
    + apply Hnone. repeat constructor. apply DeployFacts.line_colour. discriminate.
Qed.

(** When copying the artifact fails after the user has agreed,
    [deployArtifact] reports the failure as its last effect and throws
    the error of the copy; the directory had been created, nothing is
    done after the failed copy (no marker file is written), and
    [Deployment completed] is not printed. *)
Theorem deployArtifact_copy_failure
  (answer : string -> string) (mkdirSync : string -> option string)
  (copyFileSync writeFileSync : string -> string -> option string)
  (artifactPath project : string) (projectConfig : jsconfig.ProjectSettings)
  (moduleInfo : jsdetector.ModuleInfo) (message : string) :
  jsdeployer.accepts (answer "Proceed with deployment? (y/N) ") = true ->
  (forall dir, mkdirSync dir = None) ->
  (forall dest, copyFileSync artifactPath dest = Some message) ->
  jsdeployer.ending
    (jsdeployer.deployArtifact answer mkdirSync copyFileSync writeFileSync
       artifactPath project projectConfig moduleInfo)
  = jsdeployer.Thrown (jsdeployer.FsError message)
  /\ last (jsdeployer.trace
             (jsdeployer.deployArtifact answer mkdirSync copyFileSync writeFileSync
                artifactPath project projectConfig moduleInfo))
     = Some (jsdeployer.ConsoleError
               [jsdeployer.Text jsdeployer.Red "Deployment failed:";
                jsdeployer.ErrorMessage (jsdeployer.FsError message)])
  /\ (exists dir dest,
        jsdeployer.fs_calls
          (jsdeployer.trace
             (jsdeployer.deployArtifact answer mkdirSync copyFileSync writeFileSync
                artifactPath project projectConfig moduleInfo))
        = [jsdeployer.MkdirSync dir; jsdeployer.CopyFileSync artifactPath dest])
  /\ ~ In (jsdeployer.ConsoleLog
             [jsdeployer.Text jsdeployer.Green "Deployment completed"])
          (jsdeployer.trace
             (jsdeployer.deployArtifact answer mkdirSync copyFileSync writeFileSync
                artifactPath project projectConfig moduleInfo)).
Proof.
  intros Hyes Hmkdir Hcopy.
  assert (jsdeployer.ending
            (jsdeployer.deployment_call mkdirSync copyFileSync writeFileSync
               artifactPath projectConfig moduleInfo)
          = jsdeployer.Thrown (jsdeployer.FsError message)
          /\ exists dir dest,
               jsdeployer.fs_calls
                 (jsdeployer.trace
                    (jsdeployer.deployment_call mkdirSync copyFileSync
                       writeFileSync artifactPath projectConfig moduleInfo))
               = [jsdeployer.MkdirSync dir;
                  jsdeployer.CopyFileSync artifactPath dest]) as [Hcall Hfs].
  { unfold jsdeployer.deployment_call, jsdeployer.deployGlobalModule,
      jsdeployer.deployNormal, jsdeployer.deployStandalone,
      jsdeployer.deployDomain.
    destruct (js.truthy _);
      [| rewrite DeployFacts.ending_bind, DeployFacts.trace_bind;
         cbn [jsdeployer.ending jsdeployer.log];
         destruct (String.eqb _ "standalone")];
      (split; [| eexists; eexists]);
      repeat first [ rewrite DeployFacts.trace_bind
                   | rewrite DeployFacts.ending_bind
                   | rewrite Hmkdir | rewrite Hcopy
                   | rewrite DeployFacts.fs_calls_app
                   | progress cbn [jsdeployer.ending jsdeployer.trace
                                   jsdeployer.log jsdeployer.fs_call
                                   jsdeployer.fs_calls jsdeployer.is_fs_call
                                   List.filter app] ];
      reflexivity. }
  destruct (DeployFacts.steps_thrown mkdirSync copyFileSync writeFileSync
              artifactPath projectConfig moduleInfo _ Hcall) as [Htrace Hending].
  rewrite (DeployFacts.ending_accepted _ _ _ _ _ _ _ _ Hyes).
  rewrite (DeployFacts.trace_accepted _ _ _ _ _ _ _ _ Hyes).
  unfold jsdeployer.try_catch. rewrite Hending, Htrace.
  cbn [jsdeployer.ending jsdeployer.trace].
  rewrite DeployFacts.ending_bind, DeployFacts.trace_bind.
  cbn [jsdeployer.ending jsdeployer.trace jsdeployer.log_error jsdeployer.throw app].
  split; [reflexivity |]. split; [| split].
  - rewrite app_comm_cons, app_assoc. apply last_snoc.
  - destruct Hfs as (dir & dest & Hfs). exists dir, dest.
    rewrite DeployFacts.fs_calls_app, DeployFacts.plan_no_fs_calls.
    change (jsdeployer.fs_calls (?q :: ?l)) with (jsdeployer.fs_calls l).
    rewrite DeployFacts.fs_calls_app, Hfs. reflexivity.
  - apply DeployFacts.Forall_not_In.
    apply DeployFacts.Forall_app_closed; [| constructor; [discriminate |]].
    + unfold jsdeployer.deployment_plan.
      DeployFacts.walk (@DeployFacts.Forall_app_closed jsdeployer.event
                          (fun y => y <> jsdeployer.ConsoleLog
                                           [jsdeployer.Text jsdeployer.Green
                                              "Deployment completed"])).
      all: repeat constructor; DeployFacts.other_line.
    + apply DeployFacts.Forall_app_closed; [| repeat constructor; discriminate].
      unfold jsdeployer.deployment_call, jsdeployer.deployGlobalModule,
        jsdeployer.deployNormal, jsdeployer.deployStandalone,
        jsdeployer.deployDomain.
      DeployFacts.walk (@DeployFacts.Forall_app_closed jsdeployer.event
                          (fun y => y <> jsdeployer.ConsoleLog
                                           [jsdeployer.Text jsdeployer.Green
                                              "Deployment completed"])).
      all: repeat constructor; DeployFacts.other_line.
Qed.

Lemma deployArtifact_copy_failure_witness :
  jsdeployer.ending
    (jsdeployer.deployArtifact (fun _ => "Yes") (fun _ => None)
       (fun _ _ => Some "EACCES: permission denied") (fun _ _ => None)
       "target/app1.war" "app1"
       {| jsconfig.build := Fixtures.js_project "/repo/app1" None None None None;
          jsconfig.wildfly_root := "/opt/wildfly";
          jsconfig.wildfly_mode := None;
          jsconfig.server_group := None;
          jsconfig.default_client := None;
          jsconfig.clients := None |}
       (Fixtures.js_module "app1" "war" "/repo/app1" false))
  = jsdeployer.Thrown (jsdeployer.FsError "EACCES: permission denied")
  /\ jsdeployer.fs_calls
       (jsdeployer.trace
          (jsdeployer.deployArtifact (fun _ => "Yes") (fun _ => None)
             (fun _ _ => Some "EACCES: permission denied") (fun _ _ => None)
             "target/app1.war" "app1"
             {| jsconfig.build := Fixtures.js_project "/repo/app1" None None None None;
                jsconfig.wildfly_root := "/opt/wildfly";
                jsconfig.wildfly_mode := None;
                jsconfig.server_group := None;
                jsconfig.default_client := None;
                jsconfig.clients := None |}
             (Fixtures.js_module "app1" "war" "/repo/app1" false)))
     = [jsdeployer.MkdirSync "/opt/wildfly/standalone/deployments";
        jsdeployer.CopyFileSync "target/app1.war"
          "/opt/wildfly/standalone/deployments/app1.war"].
Proof.
  split.
  - apply (deployArtifact_copy_failure (fun _ => "Yes") (fun _ => None)
             (fun _ _ => Some "EACCES: permission denied") (fun _ _ => None)
             "target/app1.war" "app1" _ _ "EACCES: permission denied");
      reflexivity.
  - reflexivity.
Defined.

(** The file-system calls of a deployment that the user has agreed to
    and in which no call fails.  A global module is copied below
    [modules]; any other module is copied to [standalone/deployments]
    and gets a [.dodeploy] marker when the configured mode is
    [standalone] or is not given, and is only copied to
    [domain/deployments] for every other mode. *)
Theorem deployArtifact_file_system_calls
  (answer : string -> string) (mkdirSync : string -> option string)
  (copyFileSync writeFileSync : string -> string -> option string)
  (artifactPath project : string) (projectConfig : jsconfig.ProjectSettings)
  (moduleInfo : jsdetector.ModuleInfo) :
  jsdeployer.accepts (answer "Proceed with deployment? (y/N) ") = true ->
  (forall dir, mkdirSync dir = None) ->
  (forall src dest, copyFileSync src dest = None) ->
  (forall file data, writeFileSync file data = None) ->
  jsdeployer.fs_calls
    (jsdeployer.trace
       (jsdeployer.deployArtifact answer mkdirSync copyFileSync writeFileSync
          artifactPath project projectConfig moduleInfo))
  = if js.truthy (jsdetector.isGlobalModule moduleInfo) then
      [jsdeployer.MkdirSync
         (jspath.join [jspath.join [jsconfig.wildfly_root projectConfig; "modules"];
                       jsdetector.deploymentPath moduleInfo; "main"]);
       jsdeployer.CopyFileSync artifactPath
         (jspath.join
            [jspath.join [jspath.join [jsconfig.wildfly_root projectConfig;
                                       "modules"];
                          jsdetector.deploymentPath moduleInfo; "main"];
             jspath.basename artifactPath])]
    else if String.eqb (js.str_or (jsconfig.wildfly_mode projectConfig) "standalone")
                       "standalone" then
      [jsdeployer.MkdirSync
         (jspath.join [jsconfig.wildfly_root projectConfig;
                       "standalone"; "deployments"]);
       jsdeployer.CopyFileSync artifactPath
         (jspath.join
            [jspath.join [jsconfig.wildfly_root projectConfig;
                          "standalone"; "deployments"];
             jspath.basename artifactPath]);
       jsdeployer.WriteFileSync
         (jspath.join
            [jspath.join [jsconfig.wildfly_root projectConfig;
                          "standalone"; "deployments"];
             jspath.basename artifactPath +:+ ".dodeploy"]) ""]
    else
      [jsdeployer.MkdirSync
         (jspath.join [jsconfig.wildfly_root projectConfig;
                       "domain"; "deployments"]);
       jsdeployer.CopyFileSync artifactPath
         (jspath.join
            [jspath.join [jsconfig.wildfly_root projectConfig;
                          "domain"; "deployments"];
             jspath.basename artifactPath])].
Proof.
  intros Hyes Hmkdir Hcopy Hwrite.
  pose proof (DeployFacts.call_succeeds mkdirSync copyFileSync writeFileSync
                artifactPath projectConfig moduleInfo Hmkdir Hcopy Hwrite)
    as Hcall.
  destruct (DeployFacts.steps_returned mkdirSync copyFileSync writeFileSync
              artifactPath projectConfig moduleInfo Hcall) as [Htrace Hending].
  rewrite (DeployFacts.trace_accepted _ _ _ _ _ _ _ _ Hyes).
  rewrite DeployFacts.fs_calls_app, DeployFacts.plan_no_fs_calls.
  change (jsdeployer.fs_calls (?q :: ?l)) with (jsdeployer.fs_calls l).
  assert (jsdeployer.fs_calls
            (jsdeployer.trace
               (jsdeployer.try_catch
                  (jsdeployer.deployment_steps mkdirSync copyFileSync
                     writeFileSync artifactPath projectConfig moduleInfo)
                  (fun error =>
                     jsdeployer.log_error
                       [jsdeployer.Text jsdeployer.Red "Deployment failed:";
                        jsdeployer.ErrorMessage error];;
                     jsdeployer.throw error)))
          = jsdeployer.fs_calls
              (jsdeployer.trace
                 (jsdeployer.deployment_call mkdirSync copyFileSync
                    writeFileSync artifactPath projectConfig moduleInfo)))
    as ->.
  { unfold jsdeployer.try_catch.
    destruct (jsdeployer.ending (jsdeployer.deployment_steps _ _ _ _ _ _));
      cbn [jsdeployer.trace];
      rewrite Htrace, ?DeployFacts.fs_calls_app;
      change (jsdeployer.fs_calls (jsdeployer.ConsoleLog ?a :: ?l))
        with (jsdeployer.fs_calls l);
      rewrite ?DeployFacts.fs_calls_app, DeployFacts.guidance_no_fs_calls,
        DeployFacts.client_guide_no_fs_calls;
      rewrite ?DeployFacts.trace_bind;
      cbn [jsdeployer.ending jsdeployer.trace jsdeployer.log_error
           jsdeployer.throw app jsdeployer.fs_calls jsdeployer.is_fs_call
           List.filter];
      by rewrite ?app_nil_r. }
  unfold jsdeployer.deployment_call, jsdeployer.deployGlobalModule,
    jsdeployer.deployNormal, jsdeployer.deployStandalone,
    jsdeployer.deployDomain.
  cbn [jsdeployer.root jsdeployer.mode jsdeployer.getWildflyConfig].
  destruct (js.truthy _);
    [| rewrite DeployFacts.trace_bind;
       cbn [jsdeployer.ending jsdeployer.log];
       destruct (String.eqb _ "standalone")];
    repeat first [ rewrite DeployFacts.trace_bind
                 | rewrite DeployFacts.ending_bind
                 | rewrite Hmkdir | rewrite Hcopy | rewrite Hwrite
                 | rewrite DeployFacts.fs_calls_app
                 | progress cbn [jsdeployer.ending jsdeployer.trace
                                 jsdeployer.log jsdeployer.fs_call
                                 jsdeployer.fs_calls jsdeployer.is_fs_call
                                 List.filter app] ];
    reflexivity.
Qed.

Lemma deployArtifact_file_system_calls_witness :
  jsdeployer.fs_calls
    (jsdeployer.trace
       (jsdeployer.deployArtifact (fun _ => "y") (fun _ => None)
          (fun _ _ => None) (fun _ _ => None)
          "target/app1.war" "app1"
          {| jsconfig.build := Fixtures.js_project "/repo/app1" None None None None;
             jsconfig.wildfly_root := "/opt/wildfly";
             jsconfig.wildfly_mode := Some "Standalone";
             jsconfig.server_group := None;
             jsconfig.default_client := None;
             jsconfig.clients := None |}
          (Fixtures.js_module "app1" "war" "/repo/app1" false)))
  = [jsdeployer.MkdirSync "/opt/wildfly/domain/deployments";
     jsdeployer.CopyFileSync "target/app1.war"
       "/opt/wildfly/domain/deployments/app1.war"].
Proof.
  exact (deployArtifact_file_system_calls (fun _ => "y") (fun _ => None)
           (fun _ _ => None) (fun _ _ => None)
           "target/app1.war" "app1"
           {| jsconfig.build := Fixtures.js_project "/repo/app1" None None None None;
              jsconfig.wildfly_root := "/opt/wildfly";
              jsconfig.wildfly_mode := Some "Standalone";
              jsconfig.server_group := None;
              jsconfig.default_client := None;
              jsconfig.clients := None |}
           (Fixtures.js_module "app1" "war" "/repo/app1" false)
           eq_refl (fun _ => eq_refl) (fun _ _ => eq_refl) (fun _ _ => eq_refl)).
Defined.

(** A default client that has no [remote] section turns a deployment
    that was carried out into a failure: after [Deployment completed]
    and the restart guidance, the remote guide throws on reading
    [remote.user], and [deployArtifact] prints [Deployment failed:] as
    its last effect and throws. *)
Theorem deployArtifact_default_client_without_remote
  (answer : string -> string) (mkdirSync : string -> option string)
  (copyFileSync writeFileSync : string -> string -> option string)
  (artifactPath project : string) (projectConfig : jsconfig.ProjectSettings)
  (moduleInfo : jsdetector.ModuleInfo)
  (name : string) (client : jsconfig.client_value) :
  jsdeployer.accepts (answer "Proceed with deployment? (y/N) ") = true ->
  (forall dir, mkdirSync dir = None) ->
  (forall src dest, copyFileSync src dest = None) ->
  (forall file data, writeFileSync file data = None) ->
  jsconfig.default_client projectConfig = Some name ->
  name <> "" ->
  jsconfig.client_named projectConfig name = Some client ->
  jsdeployer.remote_of client = None ->
  jsdeployer.ending
    (jsdeployer.deployArtifact answer mkdirSync copyFileSync writeFileSync
       artifactPath project projectConfig moduleInfo)
  = jsdeployer.Thrown (jsdeployer.TypeErrorRead "user")
  /\ In (jsdeployer.ConsoleLog
           [jsdeployer.Text jsdeployer.Green "Deployment completed"])
        (jsdeployer.trace
           (jsdeployer.deployArtifact answer mkdirSync copyFileSync writeFileSync
              artifactPath project projectConfig moduleInfo))
  /\ last (jsdeployer.trace
             (jsdeployer.deployArtifact answer mkdirSync copyFileSync writeFileSync
                artifactPath project projectConfig moduleInfo))
     = Some (jsdeployer.ConsoleError
               [jsdeployer.Text jsdeployer.Red "Deployment failed:";
                jsdeployer.ErrorMessage (jsdeployer.TypeErrorRead "user")]).
Proof.
  intros Hyes Hmkdir Hcopy Hwrite Hdefault Hname Hnamed Hremote.
  pose proof (DeployFacts.call_succeeds mkdirSync copyFileSync writeFileSync
                artifactPath projectConfig moduleInfo Hmkdir Hcopy Hwrite)
    as Hcall.
  destruct (DeployFacts.steps_returned mkdirSync copyFileSync writeFileSync
              artifactPath projectConfig moduleInfo Hcall) as [Htrace Hending].
  assert (jsdeployer.ending
            (jsdeployer.default_client_guide artifactPath projectConfig)
          = jsdeployer.Thrown (jsdeployer.TypeErrorRead "user")) as Hguide.
  { unfold jsdeployer.default_client_guide. rewrite Hdefault.
    cbn [js.str_or]. apply String.eqb_neq in Hname. rewrite !Hname, Hnamed.
    unfold jsdeployer.showRemoteDeploymentGuide. rewrite Hremote.
    by rewrite !DeployFacts.ending_bind. }
  rewrite Hguide in Hending.
  rewrite (DeployFacts.ending_accepted _ _ _ _ _ _ _ _ Hyes).
  rewrite (DeployFacts.trace_accepted _ _ _ _ _ _ _ _ Hyes).
  unfold jsdeployer.try_catch. rewrite Hending, Htrace.
  cbn [jsdeployer.ending jsdeployer.trace].
  rewrite DeployFacts.ending_bind, DeployFacts.trace_bind.
  cbn [jsdeployer.ending jsdeployer.trace jsdeployer.log_error jsdeployer.throw app].
  split; [reflexivity |]. split.
  - apply in_or_app. right. right. apply in_or_app. left.
    apply in_or_app. right. by left.
  - rewrite app_comm_cons, app_assoc. apply last_snoc.
Qed.

Lemma deployArtifact_default_client_without_remote_witness :
  jsdeployer.ending
    (jsdeployer.deployArtifact (fun _ => "y") (fun _ => None)
       (fun _ _ => None) (fun _ _ => None)
       "target/app1.war" "app1"
       {| jsconfig.build := Fixtures.js_project "/repo/app1" None None None None;
          jsconfig.wildfly_root := "/opt/wildfly";
          jsconfig.wildfly_mode := None;
          jsconfig.server_group := None;
          jsconfig.default_client := Some "metrocargo";
          jsconfig.clients :=
            Some [("metrocargo", Some {| jsconfig.remote := None |})] |}
       (Fixtures.js_module "app1" "war" "/repo/app1" false))
  = jsdeployer.Thrown (jsdeployer.TypeErrorRead "user").
Proof.
  apply (deployArtifact_default_client_without_remote (fun _ => "y")
           (fun _ => None) (fun _ _ => None) (fun _ _ => None)
           "target/app1.war" "app1" _ _ "metrocargo"
           (jsconfig.Declared {| jsconfig.remote := None |}));
    try reflexivity.
  discriminate.
Defined.

(** When the user does not agree, [deployArtifact] makes no file-system
    call: it prints [Deployment cancelled] as its last effect and
    returns. *)
Theorem deployArtifact_declined
  (answer : string -> string) (mkdirSync : string -> option string)
  (copyFileSync writeFileSync : string -> string -> option string)
  (artifactPath project : string) (projectConfig : jsconfig.ProjectSettings)
  (moduleInfo : jsdetector.ModuleInfo) :
  jsdeployer.accepts (answer "Proceed with deployment? (y/N) ") = false ->
  jsdeployer.ending
    (jsdeployer.deployArtifact answer mkdirSync copyFileSync writeFileSync
       artifactPath project projectConfig moduleInfo)
  = jsdeployer.Returned tt
  /\ jsdeployer.fs_calls
       (jsdeployer.trace
          (jsdeployer.deployArtifact answer mkdirSync copyFileSync writeFileSync
             artifactPath project projectConfig moduleInfo))
     = []
  /\ last (jsdeployer.trace
             (jsdeployer.deployArtifact answer mkdirSync copyFileSync writeFileSync
                artifactPath project projectConfig moduleInfo))
     = Some (jsdeployer.ConsoleLog
               [jsdeployer.Text jsdeployer.Red "Deployment cancelled"]).
Proof.
  intros Hno. unfold jsdeployer.deployArtifact.
  rewrite DeployFacts.ending_bind, DeployFacts.trace_bind,
    DeployFacts.plan_returns.
  rewrite DeployFacts.ending_bind, DeployFacts.trace_bind.
  unfold jsdeployer.confirm. cbn [jsdeployer.ending jsdeployer.trace].
  change ("Proceed with deployment?" +:+ " (y/N) ")
    with "Proceed with deployment? (y/N) ".
  rewrite Hno. cbn [negb jsdeployer.ending jsdeployer.trace jsdeployer.log app].
  split; [reflexivity |]. split.
  - by rewrite DeployFacts.fs_calls_app, DeployFacts.plan_no_fs_calls.
  - change (?l ++ [?q; ?c]) with (l ++ [q] ++ [c]).
    rewrite app_assoc. apply last_snoc.
Qed.

Lemma deployArtifact_declined_witness :
  jsdeployer.ending
    (jsdeployer.deployArtifact (fun _ => " y") (fun _ => None)
       (fun _ _ => None) (fun _ _ => None)
       "target/app1.war" "app1"
       {| jsconfig.build := Fixtures.js_project "/repo/app1" None None None None;
          jsconfig.wildfly_root := "/opt/wildfly";
          jsconfig.wildfly_mode := None;
          jsconfig.server_group := None;
          jsconfig.default_client := None;
          jsconfig.clients := None |}
       (Fixtures.js_module "app1" "war" "/repo/app1" false))
  = jsdeployer.Returned tt.
Proof.
  apply (deployArtifact_declined (fun _ => " y") (fun _ => None)
           (fun _ _ => None) (fun _ _ => None)
           "target/app1.war" "app1" _ _). reflexivity.
Defined.

(** ** The confirmation prompt (JavaScript) *)

Module ConfirmFacts.
Import jspath.

Lemma lower_y (c : ascii) :
  lower c = "y"%char -> c = "y"%char \/ c = "Y"%char.
Proof.
  destruct c as [[|] [|] [|] [|] [|] [|] [|] [|]];
    vm_compute; intros H; try discriminate H; auto.
Qed.

Lemma lower_e (c : ascii) :
  lower c = "e"%char -> c = "e"%char \/ c = "E"%char.
Proof.
  destruct c as [[|] [|] [|] [|] [|] [|] [|] [|]];
    vm_compute; intros H; try discriminate H; auto.
Qed.

Lemma lower_s (c : ascii) :
  lower c = "s"%char -> c = "s"%char \/ c = "S"%char.
Proof.
  destruct c as [[|] [|] [|] [|] [|] [|] [|] [|]];
    vm_compute; intros H; try discriminate H; auto.
Qed.

Lemma toLowerCase_empty (s : string) : toLowerCase s = "" -> s = "".
Proof. by destruct s. Qed.

End ConfirmFacts.

(** [confirm] takes the answer as typed, without trimming it: it
    resolves to [true] exactly for [y] and [yes] in any mix of upper
    and lower case; an empty answer, and an answer with a space before
    or after the word, decline. *)
Theorem confirm_accepts_exactly (answer : string -> string) (message : string) :
  jsdeployer.ending (jsdeployer.confirm answer message) = jsdeployer.Returned true
  <-> In (answer (message +:+ " (y/N) "))
         ["y"; "Y"; "yes"; "yeS"; "yEs"; "yES"; "Yes"; "YeS"; "YEs"; "YES"].
Proof.
  unfold jsdeployer.confirm. cbn [jsdeployer.ending].
  generalize (answer (message +:+ " (y/N) ")). intros typed. split.
  - intros [= Hyes]. unfold jsdeployer.accepts in Hyes.
    apply orb_true_iff in Hyes as [Hy | Hyes]; apply String.eqb_eq in Hy || apply String.eqb_eq in Hyes.
    + destruct typed as [|c rest]; [discriminate Hy |].
      injection Hy as Hc Hrest. apply ConfirmFacts.toLowerCase_empty in Hrest as ->.
      destruct (ConfirmFacts.lower_y c Hc) as [-> | ->]; simpl; auto.
    + destruct typed as [|c1 [|c2 [|c3 rest]]]; try discriminate Hyes.
      injection Hyes as H1 H2 H3 Hrest.
      apply ConfirmFacts.toLowerCase_empty in Hrest as ->.
      destruct (ConfirmFacts.lower_y c1 H1) as [-> | ->],
               (ConfirmFacts.lower_e c2 H2) as [-> | ->],
               (ConfirmFacts.lower_s c3 H3) as [-> | ->]; simpl; tauto.
  - intros Hin. simpl in Hin.
    repeat (destruct Hin as [<- | Hin]; [reflexivity |]). destruct Hin.
Qed.
